(** * The data transformation and metrics pipeline

    A shallow embedding of
      - [src/backend/services/currency_conversion.py]
      - [src/backend/services/data_transformation.py]
      - [src/backend/services/metrics_calculation.py]
    together with the parts of Python they rest on: [decimal.Decimal]
    arithmetic under the default context, [functools.lru_cache], insertion
    ordered [dict]s, objects as attribute dictionaries and the session
    queries of the ORM.

    Conventions of the embedding.
      - A raised exception is the [Raise] case of [result]; a function that
        mutates module globals or the session returns the final state next to
        its result, also when it raises.
      - [await] of a coroutine (an [async def] method of the service, a
        call of the session) is the call itself; [await] of what a plain
        function has returned raises [TypeError], as Python does for a value
        that is not awaitable.
      - A table is the list of its rows as the session holds them, a query
        returns the rows its filter accepts; what a flush adds on the way
        to the database (column defaults, the [onupdate] hooks, the
        constraints of the schema) is not modelled.
      - [Decimal] stands for the finite decimals; the special values (NaN
        and the infinities), which only a response of the foreign exchange
        service brings in, are added in [AnyDecimal]. The sign of a zero,
        the sign and payload of a NaN and the exponent limits [Emin]/[Emax]
        (six digits) are not represented. *)

From Stdlib Require Import ZArith Lia Bool List.
From stdpp Require Import gmap strings list fin_maps pretty.

Local Open Scope Z_scope.

(** ** Exceptions and results *)

Inductive exn : Type :=
| ValueError (msg : string)
| InvalidOperation
| DivisionByZero
| MultipleResultsFound
| AttributeError (name : string)
| KeyError (key : string)
| TypeError.

Inductive result (A : Type) : Type :=
| Ok (a : A)
| Raise (e : exn).
Arguments Ok {A} a.
Arguments Raise {A} e.

Definition bind {A B : Type} (r : result A) (k : A -> result B) : result B :=
  match r with
  | Ok a => k a
  | Raise e => Raise e
  end.

Notation "'let*' x ':=' r 'in' k" := (bind r (fun x => k))
  (at level 10, x name, r at level 100, k at level 200).

(** ** [decimal.Decimal] under the default context

    [Context(prec=28, rounding=ROUND_HALF_EVEN)], traps on
    [InvalidOperation] and [DivisionByZero]. *)

Module Dec.

Record Decimal : Type := mk { coef : Z; exp : Z }.

Definition prec : Z := 28.

(** [len(str(n))] for a non-negative [n]. *)
Fixpoint ndigits_fuel (fuel : nat) (n : Z) : Z :=
  match fuel with
  | O => 1
  | S f => if n <? 10 then 1 else 1 + ndigits_fuel f (n / 10)
  end.

Definition ndigits (n : Z) : Z := ndigits_fuel (Z.to_nat (Z.log2 n)) n.

(** The coefficient [n >= 0] without its last [k] digits, rounded half to
    even ([_round_half_even]). *)
Definition round_half_even (n k : Z) : Z :=
  let p := 10 ^ k in
  let q := n / p in
  let r := n mod p in
  if 2 * r <? p then q
  else if 2 * r =? p then (if Z.even q then q else q + 1)
  else q + 1.

(** [Decimal._fix]: round to at most [prec] digits. *)
Definition fix_ (d : Decimal) : Decimal :=
  let n := Z.abs (coef d) in
  let len := ndigits n in
  if len <=? prec then d
  else
    let k := len - prec in
    let q := round_half_even n k in
    if ndigits q >? prec
    then mk (Z.sgn (coef d) * (q / 10)) (exp d + k + 1)
    else mk (Z.sgn (coef d) * q) (exp d + k).

Definition of_int (n : Z) : Decimal := mk n 0.

Definition is_zero (d : Decimal) : bool := coef d =? 0.

(** [bool(d)]: a decimal is falsy exactly when it is zero. *)
Definition truthy (d : Decimal) : bool := negb (is_zero d).

(** The coefficient of [d] written at exponent [e <= exp d]. *)
Definition coef_at (e : Z) (d : Decimal) : Z := coef d * 10 ^ (exp d - e).

(** [a == b]: numerical equality. *)
Definition eqb (a b : Decimal) : bool :=
  let e := Z.min (exp a) (exp b) in
  coef_at e a =? coef_at e b.

(** The sum before the context rounds it. *)
Definition add_exact (a b : Decimal) : Decimal :=
  let e := Z.min (exp a) (exp b) in
  mk (coef_at e a + coef_at e b) e.

Definition add (a b : Decimal) : Decimal := fix_ (add_exact a b).

Definition neg (a : Decimal) : Decimal := mk (- coef a) (exp a).

Definition sub (a b : Decimal) : Decimal := add a (neg b).

Definition mul (a b : Decimal) : Decimal :=
  fix_ (mk (coef a * coef b) (exp a + exp b)).

(** The loop of [__truediv__] that strips trailing zeros of an exact
    quotient up to the ideal exponent. *)
Fixpoint strip_zeros (fuel : nat) (c e ideal : Z) : Z * Z :=
  match fuel with
  | O => (c, e)
  | S f =>
      if (e <? ideal) && (c mod 10 =? 0)
      then strip_zeros f (c / 10) (e + 1) ideal
      else (c, e)
  end.

(** [a / b] ([Decimal.__truediv__]). *)
Definition div (a b : Decimal) : result Decimal :=
  if is_zero b then
    if is_zero a then Raise InvalidOperation else Raise DivisionByZero
  else if is_zero a then Ok (fix_ (mk 0 (exp a - exp b)))
  else
    let sign := Z.sgn (coef a) * Z.sgn (coef b) in
    let n1 := Z.abs (coef a) in
    let n2 := Z.abs (coef b) in
    let shift := ndigits n2 - ndigits n1 + prec + 1 in
    let e := exp a - exp b - shift in
    let '(q, r) :=
      if 0 <=? shift
      then (n1 * 10 ^ shift / n2, (n1 * 10 ^ shift) mod n2)
      else (n1 / (n2 * 10 ^ (- shift)), n1 mod (n2 * 10 ^ (- shift))) in
    let '(c, e') :=
      if r =? 0
      then strip_zeros (Z.to_nat (exp a - exp b - e)) q e (exp a - exp b)
      else ((if q mod 5 =? 0 then q + 1 else q), e) in
    Ok (fix_ (mk (sign * c) e')).

(** [Decimal._rescale] to exponent [e], rounding half to even. *)
Definition rescale (d : Decimal) (e : Z) : Decimal :=
  if is_zero d then mk 0 e
  else if e <=? exp d then mk (coef_at e d) e
  else mk (Z.sgn (coef d) * round_half_even (Z.abs (coef d)) (e - exp d)) e.

(** [d.quantize(Decimal((0, (1,), e)))]. *)
Definition quantize (d : Decimal) (e : Z) : result Decimal :=
  if is_zero d then Ok (mk 0 e)
  else if ndigits (Z.abs (coef d)) + exp d - e >? prec then Raise InvalidOperation
  else
    let ans := rescale d e in
    if ndigits (Z.abs (coef ans)) >? prec then Raise InvalidOperation
    else Ok (fix_ ans).

(** [round(d, n)]: [Decimal.__round__] is the quantize call at exponent
    [-n]. *)
Definition round (d : Decimal) (n : Z) : result Decimal := quantize d (- n).

End Dec.

Abbreviation Decimal := Dec.Decimal.

(** A [Decimal] of any kind: a finite one, a NaN (quiet or signaling) or
    an infinity. *)
Inductive AnyDecimal : Type :=
| Finite (d : Decimal)
| NaN (signaling : bool)
| Infinity (negative : bool).

Coercion Finite : Dec.Decimal >-> AnyDecimal.

Module Any.

(** [bool(a)]: the special values are truthy. *)
Definition truthy (a : AnyDecimal) : bool :=
  match a with
  | Finite d => Dec.truthy d
  | NaN _ | Infinity _ => true
  end.

(** [amount * rate] for a finite [amount]: a quiet NaN goes through; a
    signaling NaN and zero times an infinity are invalid operations. *)
Definition mul (amount : Decimal) (rate : AnyDecimal) : result AnyDecimal :=
  match rate with
  | Finite r => Ok (Finite (Dec.mul amount r))
  | NaN false => Ok (NaN false)
  | NaN true => Raise InvalidOperation
  | Infinity negative =>
      if Dec.is_zero amount then Raise InvalidOperation
      else Ok (Infinity (xorb (Dec.coef amount <? 0) negative))
  end.

(** [round(a, n)]: the quantize call lets a quiet NaN through and refuses
    an infinity. *)
Definition round (a : AnyDecimal) (n : Z) : result AnyDecimal :=
  match a with
  | Finite d => let* v := Dec.round d n in Ok (Finite v)
  | NaN false => Ok (NaN false)
  | NaN true => Raise InvalidOperation
  | Infinity _ => Raise InvalidOperation
  end.

End Any.

(** ** Python values, objects and insertion-ordered dictionaries *)

Abbreviation date := Z (only parsing).
Abbreviation UUID := Z (only parsing).

(** The values an attribute of an ORM object holds. *)
Inductive value : Type :=
| VNone
| VDec (d : Decimal)
| VStr (s : string)
| VInt (n : Z)
| VUuid (u : UUID)
| VDate (d : date).

#[global] Instance Decimal_eq_dec : EqDecision Decimal.
Proof. solve_decision. Defined.

#[global] Instance value_eq_dec : EqDecision value.
Proof. solve_decision. Defined.

(** [Optional[Decimal]] as a value. *)
Definition value_of_optional (o : option Decimal) : value :=
  match o with
  | Some d => VDec d
  | None => VNone
  end.

(** A [dict] with string keys: the items in insertion order, every key
    once. *)
Definition pydict (V : Type) : Type := list (string * V).

Fixpoint dict_get {V : Type} (d : pydict V) (k : string) : option V :=
  match d with
  | [] => None
  | (k', v) :: rest => if String.eqb k' k then Some v else dict_get rest k
  end.

(** [d[k] = v]: an existing key keeps its place, a new one goes last. *)
Fixpoint dict_set {V : Type} (d : pydict V) (k : string) (v : V) : pydict V :=
  match d with
  | [] => [(k, v)]
  | (k', v') :: rest =>
      if String.eqb k' k then (k', v) :: rest else (k', v') :: dict_set rest k v
  end.

Definition dict_keys {V : Type} (d : pydict V) : list string := map fst d.

(** ** currency_conversion.py *)

(** The arguments of a rate lookup: [(from_currency, to_currency, date)]. *)
Definition Key : Type := string * string * date.

Definition key_eqb (a b : Key) : bool :=
  let '(f1, t1, d1) := a in
  let '(f2, t2, d2) := b in
  String.eqb f1 f2 && String.eqb t1 t2 && (d1 =? d2).

(** A member of the [rates] object of the response, as [Decimal(str(v))]
    reads it: [JNumber a] is a value whose [str] is a literal of the
    decimal [a] (a number, where the decoder takes [NaN], [Infinity] and
    [-Infinity] for numbers and [1e400] for infinity, or a string that holds
    a literal), [JNotNumber] a value whose [str] is no decimal literal
    ([null], [true], an array, an object, any other string). *)
Inductive JsonValue : Type :=
| JNumber (a : AnyDecimal)
| JNotNumber.

(** A decoded value that is no object, as far as [k in v] and [v[k]] with
    a string [k] read it. *)
Inductive NotObject : Type :=
| JScalar
| JString (s : string)
| JArray (strings : list string).

(** [k in v]: a [TypeError] on [null], a boolean or a number, the
    substring test on a string, membership on an array ([strings] are its
    elements that are strings). *)
Definition contains (v : NotObject) (k : string) : option bool :=
  match v with
  | JScalar => None
  | JString s => Some (bool_decide (is_Some (String.index 0 k s)))
  | JArray strings => Some (existsb (String.eqb k) strings)
  end.

(** What [requests.get(...)], [raise_for_status()] and [json()] come to:
    a [requests.RequestException] (no connection, timeout, error status,
    undecodable body), or the decoded body: an object, of which only the
    ["rates"] member is read ([JsonBody None] when it is missing,
    [JsonBody (Some rates)] when it is an object, [JsonRates v] when it is
    anything else), or a body that is no object. *)
Inductive HttpOutcome : Type :=
| RequestException
| JsonBody (rates : option (gmap string JsonValue))
| JsonRates (rates : NotObject)
| JsonNotObject (data : NotObject).

(** The module globals: the [lru_cache] of [get_exchange_rate] (most
    recently used first) and the [exchange_rates] dictionary; [fetched]
    and [looked_up] log the calls of [_fetch_exchange_rate] and of
    [get_exchange_rate], oldest first. *)
Record Globals : Type := mkGlobals {
  lru : list (Key * AnyDecimal);
  exchange_rates : gmap string (gmap string (gmap Z AnyDecimal));
  fetched : list Key;
  looked_up : list Key
}.

Definition initial_globals : Globals := mkGlobals [] ∅ [] [].

Definition lru_maxsize : nat := 100.

Fixpoint lru_find (k : Key) (c : list (Key * AnyDecimal)) : option AnyDecimal :=
  match c with
  | [] => None
  | (k', v) :: rest => if key_eqb k' k then Some v else lru_find k rest
  end.

Fixpoint lru_remove (k : Key) (c : list (Key * AnyDecimal))
  : list (Key * AnyDecimal) :=
  match c with
  | [] => []
  | (k', v) :: rest => if key_eqb k' k then rest else (k', v) :: lru_remove k rest
  end.

(** A miss stores the new result and, when the cache is full, drops the
    least recently used entry. *)
Definition lru_store (k : Key) (v : AnyDecimal) (c : list (Key * AnyDecimal))
  : list (Key * AnyDecimal) :=
  if (length c <? lru_maxsize)%nat then (k, v) :: c else (k, v) :: removelast c.

(** [exchange_rates[from][to].get(date)] behind its two membership tests. *)
Definition cached_rate (rates : gmap string (gmap string (gmap Z AnyDecimal)))
    (k : Key) : option AnyDecimal :=
  let '(from_currency, to_currency, d) := k in
  match rates !! from_currency with
  | Some by_target =>
      match by_target !! to_currency with
      | Some by_date => by_date !! d
      | None => None
      end
  | None => None
  end.

(** [if cached_rate:] a missing rate ([None]) and a zero rate are falsy. *)
Definition usable_rate (o : option AnyDecimal) : option AnyDecimal :=
  match o with
  | Some r => if Any.truthy r then Some r else None
  | None => None
  end.

(** The three statements that store a fetched rate. *)
Definition store_rate (rates : gmap string (gmap string (gmap Z AnyDecimal)))
    (k : Key) (rate : AnyDecimal) : gmap string (gmap string (gmap Z AnyDecimal)) :=
  let '(from_currency, to_currency, d) := k in
  let rates1 :=
    match rates !! from_currency with
    | Some _ => rates
    | None => <[from_currency := ∅]> rates
    end in
  let by_target := default ∅ (rates1 !! from_currency) in
  let by_target1 :=
    match by_target !! to_currency with
    | Some _ => by_target
    | None => <[to_currency := ∅]> by_target
    end in
  let by_date := default ∅ (by_target1 !! to_currency) in
  <[from_currency := <[to_currency := <[d := rate]> by_date]> by_target1]> rates1.

(** [_fetch_exchange_rate] on the outcome of its request: the two
    membership tests, the two subscripts and [Decimal(str(...))]. Only a
    [requests.RequestException] is caught. *)
Definition parse_response (to_currency : string) (o : HttpOutcome) : result AnyDecimal :=
  match o with
  | RequestException => Raise (ValueError "Failed to fetch exchange rate from API")
  | JsonNotObject data =>
      match contains data "rates" with
      | None => Raise TypeError
      | Some false => Raise (ValueError "Invalid API response")
      | Some true => Raise TypeError
      end
  | JsonBody None => Raise (ValueError "Invalid API response")
  | JsonRates rates =>
      match contains rates to_currency with
      | None => Raise TypeError
      | Some false => Raise (ValueError "Invalid API response")
      | Some true => Raise TypeError
      end
  | JsonBody (Some rates) =>
      match rates !! to_currency with
      | None => Raise (ValueError "Invalid API response")
      | Some (JNumber a) => Ok a
      | Some JNotNumber => Raise InvalidOperation
      end
  end.

(** ** The ORM models *)

(** [models/metrics_input.py]: a row of [metrics_input]. The nine
    monetary columns declared [nullable=False] are decimals,
    [debt_outstanding] is optional. *)
Module MetricsInput.
Record t : Type := mk {
  id : UUID;
  company_id : UUID;
  currency : string;
  total_revenue : Decimal;
  recurring_revenue : Decimal;
  gross_profit : Decimal;
  sales_marketing_expense : Decimal;
  total_operating_expense : Decimal;
  ebitda : Decimal;
  net_income : Decimal;
  cash_burn : Decimal;
  cash_balance : Decimal;
  debt_outstanding : option Decimal;
  employees : Z;
  customers : option Z;
  fiscal_reporting_date : date;
  fiscal_reporting_quarter : Z;
  reporting_year : Z;
  reporting_quarter : Z
}.
End MetricsInput.

(** [models/reporting_metrics.py]: a row of [quarterly_reporting_metrics].
    Its constructor takes keywords; a column that gets none is [None]. *)
Module ReportingMetrics.
Record t : Type := mk {
  id : UUID;
  company_id : UUID;
  currency : string;
  enterprise_value : option Decimal;
  arr : option Decimal;
  recurring_percentage_revenue : option Decimal;
  revenue_per_fte : option Decimal;
  gross_profit_per_fte : option Decimal;
  employee_growth_rate : option Decimal;
  change_in_cash : option Decimal;
  revenue_growth : option Decimal;
  monthly_cash_burn : option Decimal;
  runway_months : option Decimal;
  ev_by_equity_raised_plus_debt : option Decimal;
  sales_marketing_percentage_revenue : option Decimal;
  total_operating_percentage_revenue : option Decimal;
  gross_profit_margin : option Decimal;
  valuation_to_revenue : option Decimal;
  yoy_growth_revenue : option Decimal;
  yoy_growth_profit : option Decimal;
  yoy_growth_employees : option Decimal;
  yoy_growth_ltm_revenue : option Decimal;
  ltm_total_revenue : option Decimal;
  ltm_gross_profit : option Decimal;
  ltm_sales_marketing_expense : option Decimal;
  ltm_gross_margin : option Decimal;
  ltm_operating_expense : option Decimal;
  ltm_ebitda : option Decimal;
  ltm_net_income : option Decimal;
  ltm_ebitda_margin : option Decimal;
  ltm_net_income_margin : option Decimal;
  fiscal_reporting_date : date;
  fiscal_reporting_quarter : Z;
  reporting_year : Z;
  reporting_quarter : Z;
  created_date : date;
  created_by : string;
  last_update_date : option date;
  last_updated_by : option string
}.
End ReportingMetrics.

(** A [ReportingFinancials] object is its attribute dictionary: [setattr]
    and the keyword arguments of the constructor name attributes by
    strings. *)
Abbreviation ReportingFinancials := (gmap string value) (only parsing).

(** The tables a session reads and writes. *)
Module DB.
Record t : Type := mk {
  metrics_input : list MetricsInput.t;
  reporting_financials : list (gmap string value);
  reporting_metrics : list ReportingMetrics.t
}.
End DB.

(** What one invocation draws from its surroundings: the date of
    [datetime.utcnow()] and the results of [uuid.uuid4()], in order. *)
Record Env : Type := mkEnv {
  utcnow_date : date;
  uuid4 : nat -> UUID
}.

(** [Query.first()] and [Result.scalar_one_or_none()] on the rows a filter
    selects. *)
Definition first {A : Type} (rows : list A) : option A := head rows.

Definition scalar_one_or_none {A : Type} (rows : list A) : result (option A) :=
  match rows with
  | [] => Ok None
  | [r] => Ok (Some r)
  | _ :: _ :: _ => Raise MultipleResultsFound
  end.

Section Pipeline.

(** The foreign exchange service: the outcome of the [n]-th request of the
    process (counted from 0) for a key. *)
Variable api : nat -> Key -> HttpOutcome.

Definition _fetch_exchange_rate (g : Globals) (k : Key)
  : result AnyDecimal * Globals :=
  let '(_, to_currency, _) := k in
  (parse_response to_currency (api (length (fetched g)) k),
   mkGlobals (lru g) (exchange_rates g) (fetched g ++ [k]) (looked_up g)).

(** The body of [get_exchange_rate], under its decorator: a cached rate
    is returned only when it is truthy. *)
Definition get_exchange_rate_body (g : Globals) (k : Key)
  : result AnyDecimal * Globals :=
  match usable_rate (cached_rate (exchange_rates g) k) with
  | Some r => (Ok r, g)
  | None =>
      match _fetch_exchange_rate g k with
      | (Ok rate, g1) =>
          (Ok rate, mkGlobals (lru g1) (store_rate (exchange_rates g1) k rate)
                              (fetched g1) (looked_up g1))
      | (Raise e, g1) => (Raise e, g1)
      end
  end.

(** [get_exchange_rate] as callers see it: [lru_cache(maxsize=100)] around
    the body. *)
Definition get_exchange_rate (g : Globals) (k : Key) : result AnyDecimal * Globals :=
  let g0 := mkGlobals (lru g) (exchange_rates g) (fetched g) (looked_up g ++ [k]) in
  match lru_find k (lru g0) with
  | Some r =>
      (Ok r, mkGlobals ((k, r) :: lru_remove k (lru g0)) (exchange_rates g0)
                       (fetched g0) (looked_up g0))
  | None =>
      match get_exchange_rate_body g0 k with
      | (Ok r, g1) =>
          (Ok r, mkGlobals (lru_store k r (lru g1)) (exchange_rates g1)
                           (fetched g1) (looked_up g1))
      | (Raise e, g1) => (Raise e, g1)
      end
  end.

Definition convert_currency (g : Globals) (amount : Decimal)
    (from_currency to_currency : string) (d : date) : result AnyDecimal * Globals :=
  if String.eqb from_currency to_currency then (Ok (Finite amount), g)
  else
    match get_exchange_rate g (from_currency, to_currency, d) with
    | (Ok rate, g1) =>
        (let* converted_amount := Any.mul amount rate in Any.round converted_amount 2,
         g1)
    | (Raise e, g1) => (Raise e, g1)
    end.

(** [await v] of what a plain function returned: the call has run, its
    exception leaves as it is, and a returned value, a [Decimal] here, is
    not awaitable. *)
Definition await_value {A B : Type} (r : result A * Globals) : result B * Globals :=
  match r with
  | (Ok _, g) => (Raise TypeError, g)
  | (Raise e, g) => (Raise e, g)
  end.

(** ** metrics_calculation.py *)

Definition calculate_arr (recurring_revenue : Decimal) : Decimal :=
  Dec.mul recurring_revenue (Dec.of_int 4).

Definition calculate_percentage_of_revenue (value total_revenue : Decimal)
  : result Decimal :=
  if Dec.is_zero total_revenue then Ok (Dec.of_int 0)
  else
    let* q := Dec.div value total_revenue in
    Dec.quantize (Dec.mul q (Dec.of_int 100)) (-2).

Definition calculate_per_fte (value : Decimal) (employees : Z) : result Decimal :=
  if employees =? 0 then Ok (Dec.of_int 0)
  else
    let* q := Dec.div value (Dec.of_int employees) in
    Dec.quantize q (-2).

Definition calculate_growth_rate (current_value previous_value : Decimal)
  : result Decimal :=
  if Dec.is_zero previous_value then Ok (Dec.of_int 0)
  else
    let* q := Dec.div (Dec.sub current_value previous_value) previous_value in
    Dec.quantize (Dec.mul q (Dec.of_int 100)) (-2).

Definition calculate_recurring_percentage_revenue
    (recurring_revenue total_revenue : Decimal) : result Decimal :=
  calculate_percentage_of_revenue recurring_revenue total_revenue.

Definition calculate_revenue_per_fte (total_revenue : Decimal) (employees : Z)
  : result Decimal :=
  calculate_per_fte total_revenue employees.

Definition calculate_gross_profit_per_fte (gross_profit : Decimal) (employees : Z)
  : result Decimal :=
  calculate_per_fte gross_profit employees.

Definition calculate_employee_growth_rate (current_employees previous_employees : Z)
  : result Decimal :=
  calculate_growth_rate (Dec.of_int current_employees) (Dec.of_int previous_employees).

Definition calculate_revenue_growth (current_revenue previous_revenue : Decimal)
  : result Decimal :=
  calculate_growth_rate current_revenue previous_revenue.

Definition calculate_monthly_cash_burn (cash_burn : Decimal) : result Decimal :=
  Dec.div cash_burn (Dec.of_int 3).

Definition calculate_runway_months (cash_balance monthly_cash_burn : Decimal)
  : result Decimal :=
  if Dec.is_zero monthly_cash_burn then Ok (Dec.of_int 0)
  else
    let* q := Dec.div cash_balance monthly_cash_burn in
    Dec.quantize q (-1).

(** [sum(...)] over decimals: the built-in starts from the integer 0. *)
Definition sum (ds : list Decimal) : Decimal :=
  fold_left Dec.add ds (Dec.of_int 0).

Definition calculate_ltm_metrics (quarterly_metrics : list MetricsInput.t)
  : result (pydict Decimal) :=
  if negb (length quarterly_metrics =? 4)%nat
  then Raise (ValueError "LTM calculations require exactly 4 quarters of data")
  else
    let ltm_total_revenue := sum (map MetricsInput.total_revenue quarterly_metrics) in
    let ltm_gross_profit := sum (map MetricsInput.gross_profit quarterly_metrics) in
    let ltm_sales_marketing_expense :=
      sum (map MetricsInput.sales_marketing_expense quarterly_metrics) in
    let ltm_operating_expense :=
      sum (map MetricsInput.total_operating_expense quarterly_metrics) in
    let ltm_ebitda := sum (map MetricsInput.ebitda quarterly_metrics) in
    let ltm_net_income := sum (map MetricsInput.net_income quarterly_metrics) in
    let* ltm_gross_margin :=
      calculate_percentage_of_revenue ltm_gross_profit ltm_total_revenue in
    let* ltm_ebitda_margin :=
      calculate_percentage_of_revenue ltm_ebitda ltm_total_revenue in
    let* ltm_net_income_margin :=
      calculate_percentage_of_revenue ltm_net_income ltm_total_revenue in
    Ok [("ltm_total_revenue", ltm_total_revenue);
        ("ltm_gross_profit", ltm_gross_profit);
        ("ltm_sales_marketing_expense", ltm_sales_marketing_expense);
        ("ltm_gross_margin", ltm_gross_margin);
        ("ltm_operating_expense", ltm_operating_expense);
        ("ltm_ebitda", ltm_ebitda);
        ("ltm_net_income", ltm_net_income);
        ("ltm_ebitda_margin", ltm_ebitda_margin);
        ("ltm_net_income_margin", ltm_net_income_margin)].

(** The filter of both services on [metrics_input]. *)
Definition input_matches (company_id : UUID) (reporting_year reporting_quarter : Z)
    (m : MetricsInput.t) : bool :=
  (MetricsInput.company_id m =? company_id)
  && (MetricsInput.reporting_year m =? reporting_year)
  && (MetricsInput.reporting_quarter m =? reporting_quarter).

(** [str(u)] of a [UUID]: the 32 hexadecimal digits of its 128 bits, in
    groups of 8, 4, 4, 4 and 12. *)
Definition hex_digit (n : Z) : Ascii.ascii :=
  default (Ascii.Ascii false false false false true true false false)
          (String.get (Z.to_nat n) "0123456789abcdef").

Fixpoint hex_digits (count : nat) (n : Z) (acc : string) : string :=
  match count with
  | O => acc
  | S c => hex_digits c (n / 16) (String (hex_digit (n mod 16)) acc)
  end.

Definition str_UUID (u : UUID) : string :=
  let h := hex_digits 32 u "" in
  String.substring 0 8 h +:+ "-" +:+ String.substring 8 4 h +:+ "-" +:+ String.substring 12 4 h +:+ "-"
  +:+ String.substring 16 4 h +:+ "-" +:+ String.substring 20 12 h.

(** [f"No input metrics found for company {company_id} in
    {reporting_year} Q{reporting_quarter}"]. *)
Definition no_input_metrics (company_id : UUID) (reporting_year reporting_quarter : Z)
  : string :=
  "No input metrics found for company " +:+ str_UUID company_id +:+ " in "
  +:+ pretty reporting_year +:+ " Q" +:+ pretty reporting_quarter.

(** [calculate_derived_metrics]; [new_id] is the [uuid.uuid4()] of the
    [ReportingMetrics] constructor and [today] the date of
    [datetime.utcnow()]. *)
Definition calculate_derived_metrics (db : DB.t) (new_id : UUID) (today : date)
    (company_id : UUID) (reporting_year reporting_quarter : Z)
  : result ReportingMetrics.t :=
  match first (List.filter (input_matches company_id reporting_year reporting_quarter)
                           (DB.metrics_input db)) with
  | None =>
      Raise (ValueError (no_input_metrics company_id reporting_year reporting_quarter))
  | Some input_metrics =>
      let arr := calculate_arr (MetricsInput.recurring_revenue input_metrics) in
      let* recurring_percentage_revenue :=
        calculate_recurring_percentage_revenue
          (MetricsInput.recurring_revenue input_metrics)
          (MetricsInput.total_revenue input_metrics) in
      let* revenue_per_fte :=
        calculate_revenue_per_fte (MetricsInput.total_revenue input_metrics)
                                  (MetricsInput.employees input_metrics) in
      let* gross_profit_per_fte :=
        calculate_gross_profit_per_fte (MetricsInput.gross_profit input_metrics)
                                       (MetricsInput.employees input_metrics) in
      let* monthly_cash_burn :=
        calculate_monthly_cash_burn (MetricsInput.cash_burn input_metrics) in
      let* runway_months :=
        calculate_runway_months (MetricsInput.cash_balance input_metrics)
                                monthly_cash_burn in
      let* sales_marketing_percentage_revenue :=
        calculate_percentage_of_revenue
          (MetricsInput.sales_marketing_expense input_metrics)
          (MetricsInput.total_revenue input_metrics) in
      let* total_operating_percentage_revenue :=
        calculate_percentage_of_revenue
          (MetricsInput.total_operating_expense input_metrics)
          (MetricsInput.total_revenue input_metrics) in
      let* gross_profit_margin :=
        calculate_percentage_of_revenue
          (MetricsInput.gross_profit input_metrics)
          (MetricsInput.total_revenue input_metrics) in
      Ok {| ReportingMetrics.id := new_id;
            ReportingMetrics.company_id := company_id;
            ReportingMetrics.currency := MetricsInput.currency input_metrics;
            ReportingMetrics.enterprise_value := None;
            ReportingMetrics.arr := Some arr;
            ReportingMetrics.recurring_percentage_revenue :=
              Some recurring_percentage_revenue;
            ReportingMetrics.revenue_per_fte := Some revenue_per_fte;
            ReportingMetrics.gross_profit_per_fte := Some gross_profit_per_fte;
            ReportingMetrics.employee_growth_rate := None;
            ReportingMetrics.change_in_cash := None;
            ReportingMetrics.revenue_growth := None;
            ReportingMetrics.monthly_cash_burn := Some monthly_cash_burn;
            ReportingMetrics.runway_months := Some runway_months;
            ReportingMetrics.ev_by_equity_raised_plus_debt := None;
            ReportingMetrics.sales_marketing_percentage_revenue :=
              Some sales_marketing_percentage_revenue;
            ReportingMetrics.total_operating_percentage_revenue :=
              Some total_operating_percentage_revenue;
            ReportingMetrics.gross_profit_margin := Some gross_profit_margin;
            ReportingMetrics.valuation_to_revenue := None;
            ReportingMetrics.yoy_growth_revenue := None;
            ReportingMetrics.yoy_growth_profit := None;
            ReportingMetrics.yoy_growth_employees := None;
            ReportingMetrics.yoy_growth_ltm_revenue := None;
            ReportingMetrics.ltm_total_revenue := None;
            ReportingMetrics.ltm_gross_profit := None;
            ReportingMetrics.ltm_sales_marketing_expense := None;
            ReportingMetrics.ltm_gross_margin := None;
            ReportingMetrics.ltm_operating_expense := None;
            ReportingMetrics.ltm_ebitda := None;
            ReportingMetrics.ltm_net_income := None;
            ReportingMetrics.ltm_ebitda_margin := None;
            ReportingMetrics.ltm_net_income_margin := None;
            ReportingMetrics.fiscal_reporting_date :=
              MetricsInput.fiscal_reporting_date input_metrics;
            ReportingMetrics.fiscal_reporting_quarter :=
              MetricsInput.fiscal_reporting_quarter input_metrics;
            ReportingMetrics.reporting_year := reporting_year;
            ReportingMetrics.reporting_quarter := reporting_quarter;
            ReportingMetrics.created_date := today;
            ReportingMetrics.created_by := "MetricsCalculationService";
            ReportingMetrics.last_update_date := None;
            ReportingMetrics.last_updated_by := None |}
  end.

(** ** data_transformation.py *)

Definition monetary_fields : list string :=
  ["total_revenue"; "recurring_revenue"; "gross_profit"; "sales_marketing_expense";
   "total_operating_expense"; "ebitda"; "net_income"; "cash_burn"; "cash_balance";
   "debt_outstanding"].

(** [getattr(input_metrics, field)] on the monetary columns. *)
Definition getattr (m : MetricsInput.t) (field : string) : result (option Decimal) :=
  if String.eqb field "total_revenue" then Ok (Some (MetricsInput.total_revenue m))
  else if String.eqb field "recurring_revenue"
       then Ok (Some (MetricsInput.recurring_revenue m))
  else if String.eqb field "gross_profit" then Ok (Some (MetricsInput.gross_profit m))
  else if String.eqb field "sales_marketing_expense"
       then Ok (Some (MetricsInput.sales_marketing_expense m))
  else if String.eqb field "total_operating_expense"
       then Ok (Some (MetricsInput.total_operating_expense m))
  else if String.eqb field "ebitda" then Ok (Some (MetricsInput.ebitda m))
  else if String.eqb field "net_income" then Ok (Some (MetricsInput.net_income m))
  else if String.eqb field "cash_burn" then Ok (Some (MetricsInput.cash_burn m))
  else if String.eqb field "cash_balance" then Ok (Some (MetricsInput.cash_balance m))
  else if String.eqb field "debt_outstanding" then Ok (MetricsInput.debt_outstanding m)
  else Raise (AttributeError field).

(** The inner loop of the branch [target_currency != source_currency]:
    [acc] is [converted_financials[target_currency]]. *)
Fixpoint convert_fields (g : Globals) (input_metrics : MetricsInput.t)
    (target_currency : string) (fields : list string)
    (acc : pydict (option Decimal)) : result (pydict (option Decimal)) * Globals :=
  match fields with
  | [] => (Ok acc, g)
  | field :: rest =>
      match getattr input_metrics field with
      | Raise e => (Raise e, g)
      | Ok None =>
          convert_fields g input_metrics target_currency rest (dict_set acc field None)
      | Ok (Some source_value) =>
          match await_value
                  (convert_currency g source_value (MetricsInput.currency input_metrics)
                     target_currency (MetricsInput.fiscal_reporting_date input_metrics))
          with
          | (Ok converted_value, g1) =>
              convert_fields g1 input_metrics target_currency rest
                             (dict_set acc field (Some converted_value))
          | (Raise e, g1) => (Raise e, g1)
          end
      end
  end.

(** The inner loop of the branch of the source currency. *)
Fixpoint copy_fields (input_metrics : MetricsInput.t) (fields : list string)
    (acc : pydict (option Decimal)) : result (pydict (option Decimal)) :=
  match fields with
  | [] => Ok acc
  | field :: rest =>
      let* v := getattr input_metrics field in
      copy_fields input_metrics rest (dict_set acc field v)
  end.

(** The loop over [target_currencies]; [converted_financials] is the
    dictionary built so far. *)
Fixpoint convert_targets (g : Globals) (input_metrics : MetricsInput.t)
    (target_currencies : list string)
    (converted_financials : pydict (pydict (option Decimal)))
  : result (pydict (pydict (option Decimal))) * Globals :=
  let source_currency := MetricsInput.currency input_metrics in
  let conversion_date := MetricsInput.fiscal_reporting_date input_metrics in
  match target_currencies with
  | [] => (Ok converted_financials, g)
  | target_currency :: rest =>
      if negb (String.eqb target_currency source_currency) then
        match convert_fields g input_metrics target_currency monetary_fields [] with
        | (Raise e, g1) => (Raise e, g1)
        | (Ok fields, g1) =>
            match await_value
                    (get_exchange_rate g1
                       (source_currency, target_currency, conversion_date)) with
            | (Raise e, g2) => (Raise e, g2)
            | (Ok exchange_rate, g2) =>
                convert_targets g2 input_metrics rest
                  (dict_set converted_financials target_currency
                     (dict_set fields "exchange_rate_used" (Some exchange_rate)))
            end
        end
      else
        match copy_fields input_metrics monetary_fields
                (default [] (dict_get converted_financials source_currency)) with
        | Raise e => (Raise e, g)
        | Ok fields =>
            convert_targets g input_metrics rest
              (dict_set converted_financials source_currency
                 (dict_set fields "exchange_rate_used" (Some (Dec.mk 10 (-1)))))
        end
  end.

Definition convert_financials (g : Globals) (input_metrics : MetricsInput.t)
    (target_currencies : list string)
  : result (pydict (pydict (option Decimal))) * Globals :=
  convert_targets g input_metrics target_currencies
                  [(MetricsInput.currency input_metrics, [])].

(** The filter of [update_reporting_financials] on [reporting_financials]. *)
Definition financials_match (company_id : UUID) (currency : string)
    (reporting_year reporting_quarter : Z) (o : gmap string value) : bool :=
  bool_decide (o !! "company_id" = Some (VUuid company_id))
  && bool_decide (o !! "currency" = Some (VStr currency))
  && bool_decide (o !! "reporting_year" = Some (VInt reporting_year))
  && bool_decide (o !! "reporting_quarter" = Some (VInt reporting_quarter)).

(** The positions of the rows a predicate selects. *)
Definition select {A : Type} (p : A -> bool) (rows : list A) : list nat :=
  map fst (List.filter (fun ir => p (snd ir)) (imap (fun i r => (i, r)) rows)).

(** [for field, value in financials.items(): setattr(o, field, value)]. *)
Definition setattrs (o : gmap string value) (financials : pydict (option Decimal))
  : gmap string value :=
  fold_left (fun o fv => <[fst fv := value_of_optional (snd fv)]> o) financials o.

(** The parameters of [ReportingFinancials.__init__] after [self]; none
    has a default. *)
Definition init_parameters : list string :=
  ["company_id"; "currency"; "exchange_rate_used"; "total_revenue";
   "recurring_revenue"; "gross_profit"; "sales_marketing_expense";
   "total_operating_expense"; "ebitda"; "net_income"; "cash_burn"; "cash_balance";
   "debt_outstanding"; "fiscal_reporting_date"; "fiscal_reporting_quarter";
   "reporting_year"; "reporting_quarter"; "created_by"].

(** [ReportingFinancials(company_id=..., currency=..., reporting_year=...,
    reporting_quarter=..., **financials)]. The call is a [TypeError] when
    [financials] repeats one of the four keywords, names something that is
    no parameter of [__init__], or leaves a parameter without a value.
    Otherwise [__init__] assigns every parameter to the attribute of its
    name, next to the [id], the creation date and the empty update
    stamps. *)
Definition new_ReportingFinancials (new_id : UUID) (today : date) (company_id : UUID)
    (currency : string) (reporting_year reporting_quarter : Z)
    (financials : pydict (option Decimal)) : result (gmap string value) :=
  let keywords := ["company_id"; "currency"; "reporting_year"; "reporting_quarter"] in
  if existsb (fun k => existsb (String.eqb k) (dict_keys financials)) keywords
  then Raise TypeError
  else if negb (forallb (fun k => existsb (String.eqb k) init_parameters)
                        (dict_keys financials))
  then Raise TypeError
  else if negb (forallb (fun p => existsb (String.eqb p)
                                          (keywords ++ dict_keys financials))
                        init_parameters)
  then Raise TypeError
  else
    Ok (<["id" := VUuid new_id]>
        (<["created_date" := VDate today]>
        (<["last_update_date" := VNone]>
        (<["last_updated_by" := VNone]>
        (setattrs
           (<["company_id" := VUuid company_id]>
            (<["currency" := VStr currency]>
            (<["reporting_year" := VInt reporting_year]>
            (<["reporting_quarter" := VInt reporting_quarter]> ∅))))
           financials))))).

(** An entry of the dictionary [update_reporting_financials] returns: a row
    of the table, updated in place, or an instance the session does not
    hold yet. *)
Inductive instance : Type :=
| Persistent (i : nat)
| Pending (o : gmap string value).

(** The loop of [update_reporting_financials]: [table] is
    [reporting_financials] as the session sees it, [created] counts the
    instances constructed so far. *)
Fixpoint update_loop (env : Env) (company_id : UUID)
    (reporting_year reporting_quarter : Z)
    (items : pydict (pydict (option Decimal)))
    (table : list (gmap string value)) (created : nat)
    (reporting_financials : pydict instance)
  : result (pydict instance * list (gmap string value) * nat) :=
  match items with
  | [] => Ok (reporting_financials, table, created)
  | (currency, financials) :: rest =>
      let* existing_financials :=
        scalar_one_or_none
          (select (financials_match company_id currency reporting_year reporting_quarter)
                  table) in
      match existing_financials with
      | Some i =>
          let table1 :=
            match table !! i with
            | Some o => <[i := setattrs o financials]> table
            | None => table
            end in
          update_loop env company_id reporting_year reporting_quarter rest table1 created
                      (dict_set reporting_financials currency (Persistent i))
      | None =>
          let* new_financials :=
            new_ReportingFinancials (uuid4 env created) (utcnow_date env) company_id
                                    currency reporting_year reporting_quarter financials in
          update_loop env company_id reporting_year reporting_quarter rest table
                      (S created)
                      (dict_set reporting_financials currency (Pending new_financials))
      end
  end.

Definition update_reporting_financials (env : Env) (table : list (gmap string value))
    (company_id : UUID) (reporting_year reporting_quarter : Z)
    (converted_financials : pydict (pydict (option Decimal)))
  : result (pydict instance * list (gmap string value) * nat) :=
  update_loop env company_id reporting_year reporting_quarter converted_financials
              table 0%nat [].

(** [session.add] of each value of the dictionary: a pending instance
    becomes a new row. *)
Definition add_all (table : list (gmap string value))
    (reporting_financials : pydict instance) : list (gmap string value) :=
  fold_left
    (fun t ci => match snd ci with
                 | Persistent _ => t
                 | Pending o => t ++ [o]
                 end)
    reporting_financials table.

(** The object an entry stands for once everything is added. *)
Definition deref (table : list (gmap string value)) (r : instance)
  : gmap string value :=
  match r with
  | Persistent i => default ∅ (table !! i)
  | Pending o => o
  end.

(** [self.metrics_calculation_service.calculate_derived_metrics(company_id,
    reporting_year, reporting_quarter)]: the static method has the four
    parameters [db, company_id, reporting_year, reporting_quarter], none
    with a default, so the call with three arguments is a [TypeError]
    before the body runs. *)
Definition calculate_derived_metrics_without_session (company_id : UUID)
    (reporting_year reporting_quarter : Z) : result ReportingMetrics.t :=
  Raise TypeError.

(** [transform_data]: the tables change at the commit only, the globals
    as the lookups go. *)
Definition transform_data (db : DB.t) (g : Globals) (env : Env)
    (company_id : UUID) (reporting_year reporting_quarter : Z)
  : result (gmap string value * ReportingMetrics.t) * DB.t * Globals :=
  match scalar_one_or_none
          (List.filter (input_matches company_id reporting_year reporting_quarter)
                       (DB.metrics_input db)) with
  | Raise e => (Raise e, db, g)
  | Ok None =>
      (Raise (ValueError
                "No input metrics found for the specified company and reporting period"),
       db, g)
  | Ok (Some input_metrics) =>
      let target_currencies := ["USD"; "CAD"] in
      match convert_financials g input_metrics target_currencies with
      | (Raise e, g1) => (Raise e, db, g1)
      | (Ok converted_financials, g1) =>
          match update_reporting_financials env (DB.reporting_financials db) company_id
                  reporting_year reporting_quarter converted_financials with
          | Raise e => (Raise e, db, g1)
          | Ok (reporting_financials, table, created) =>
              match calculate_derived_metrics_without_session company_id reporting_year
                      reporting_quarter with
              | Raise e => (Raise e, db, g1)
              | Ok reporting_metrics =>
                  let db1 :=
                    DB.mk (DB.metrics_input db)
                               (add_all table reporting_financials)
                               (DB.reporting_metrics db ++ [reporting_metrics]) in
                  match dict_get reporting_financials
                                 (MetricsInput.currency input_metrics) with
                  | Some r =>
                      (Ok (deref (DB.reporting_financials db1) r,
                           reporting_metrics), db1, g1)
                  | None =>
                      (Raise (KeyError (MetricsInput.currency input_metrics)), db1, g1)
                  end
              end
          end
      end
  end.

(** A run of lookups, one key after the other, whatever each returns. *)
Fixpoint lookups (g : Globals) (ks : list Key) : Globals :=
  match ks with
  | [] => g
  | k :: rest => lookups (snd (get_exchange_rate g k)) rest
  end.

(** [if currency != other: get_exchange_rate(currency, other, today)]: the
    rate is looked up and dropped. *)
Definition lookup_unless_same (g : Globals) (currency other : string) (today : date)
  : result unit * Globals :=
  if negb (String.eqb currency other) then
    match get_exchange_rate g (currency, other, today) with
    | (Ok _, g1) => (Ok tt, g1)
    | (Raise e, g1) => (Raise e, g1)
    end
  else (Ok tt, g).

(** The loop of [update_exchange_rates] over the reporting currencies:
    each one is looked up against US and Canadian dollars, except against
    itself; the first exception ends the loop. *)
Fixpoint refresh_rates (g : Globals) (today : date) (reporting_currencies : list string)
  : result unit * Globals :=
  match reporting_currencies with
  | [] => (Ok tt, g)
  | currency :: rest =>
      match lookup_unless_same g currency "USD" today with
      | (Raise e, g1) => (Raise e, g1)
      | (Ok _, g1) =>
          match lookup_unless_same g1 currency "CAD" today with
          | (Raise e, g2) => (Raise e, g2)
          | (Ok _, g2) => refresh_rates g2 today rest
          end
      end
  end.

(** [update_exchange_rates]: [reporting_currencies] is what opening a
    session and the query for the distinct [Company.reporting_currency]
    values come to (the rows, or the exception raised), [today] is
    [date.today()]. Whatever is raised inside leaves as the one
    [ValueError]. *)
Definition update_exchange_rates (g : Globals)
    (reporting_currencies : result (list string)) (today : date)
  : result unit * Globals :=
  match reporting_currencies with
  | Raise _ => (Raise (ValueError "Failed to update exchange rates"), g)
  | Ok currencies =>
      match refresh_rates g today currencies with
      | (Raise _, g1) => (Raise (ValueError "Failed to update exchange rates"), g1)
      | (Ok _, g1) =>
          match get_exchange_rate g1 ("USD", "CAD", today) with
          | (Raise _, g2) => (Raise (ValueError "Failed to update exchange rates"), g2)
          | (Ok _, g2) => (Ok tt, g2)
          end
      end
  end.

(** Lookups one after the other, up to the first that raises. *)
Fixpoint lookups_until_failure (g : Globals) (ks : list Key) : result unit * Globals :=
  match ks with
  | [] => (Ok tt, g)
  | k :: rest =>
      match get_exchange_rate g k with
      | (Ok _, g1) => lookups_until_failure g1 rest
      | (Raise e, g1) => (Raise e, g1)
      end
  end.

End Pipeline.

(** ** Notions used in the statements *)

(** The position of the leading digit of [d]: the number of digits of the
    coefficient plus the exponent ([d.adjusted() + 1]). *)
Definition top (d : Decimal) : Z := Dec.ndigits (Z.abs (Dec.coef d)) + Dec.exp d.

(** [v] is the multiple of [10 ^ e] nearest to [p], and of two nearest the
    one with the even coefficient. *)
Definition nearest_even (e : Z) (p v : Decimal) : Prop :=
  Dec.exp v = e
  /\ let m := Z.min (Dec.exp p) e in
     2 * Z.abs (Dec.coef_at m v - Dec.coef_at m p) <= 10 ^ (e - m)
     /\ (2 * Z.abs (Dec.coef_at m v - Dec.coef_at m p) = 10 ^ (e - m) ->
         Z.even (Dec.coef v) = true).




(** The globals after a lookup of [k] that went to the source and failed. *)
Definition after_failed_fetch (g : Globals) (k : Key) : Globals :=
  mkGlobals (lru g) (exchange_rates g) (fetched g ++ [k]) (looked_up g ++ [k]).

(** Every entry of the [lru_cache] repeats the entry of [exchange_rates]. *)
Definition consistent (g : Globals) : Prop :=
  forall k v, lru_find k (lru g) = Some v -> cached_rate (exchange_rates g) k = Some v.

(** How often [k] occurs in a log. *)
Definition occurrences (k : Key) (log : list Key) : nat :=
  length (List.filter (key_eqb k) log).

(** The amount of [d] in hundredths, for a decimal of at most two places. *)
Definition cents (d : Decimal) : Z := Dec.coef_at (-2) d.

(** A value a [DECIMAL(15, 2)] column holds: at most two decimal places
    and fewer than fifteen digits in all. *)
Definition numeric_15_2 (d : Decimal) : Prop :=
  -2 <= Dec.exp d /\ Z.abs (cents d) < 10 ^ 15.

(** The monetary columns of a row of [metrics_input] are of the declared
    type. *)
Definition well_typed (m : MetricsInput.t) : Prop :=
  numeric_15_2 (MetricsInput.total_revenue m)
  /\ numeric_15_2 (MetricsInput.recurring_revenue m)
  /\ numeric_15_2 (MetricsInput.gross_profit m)
  /\ numeric_15_2 (MetricsInput.sales_marketing_expense m)
  /\ numeric_15_2 (MetricsInput.total_operating_expense m)
  /\ numeric_15_2 (MetricsInput.ebitda m)
  /\ numeric_15_2 (MetricsInput.net_income m)
  /\ numeric_15_2 (MetricsInput.cash_burn m)
  /\ numeric_15_2 (MetricsInput.cash_balance m).

(** The sum of integers. *)
Definition total (zs : list Z) : Z := fold_right Z.add 0 zs.


(** The six sums of [calculate_ltm_metrics]: the key of the result and the
    column it adds up. *)
Definition ltm_sums : list (string * (MetricsInput.t -> Decimal)) :=
  [("ltm_total_revenue", MetricsInput.total_revenue);
   ("ltm_gross_profit", MetricsInput.gross_profit);
   ("ltm_sales_marketing_expense", MetricsInput.sales_marketing_expense);
   ("ltm_operating_expense", MetricsInput.total_operating_expense);
   ("ltm_ebitda", MetricsInput.ebitda);
   ("ltm_net_income", MetricsInput.net_income)].

(** The pairs [update_exchange_rates] has to look up, in its order. *)
Definition pairs_to_refresh (today : date) (reporting_currencies : list string)
  : list Key :=
  flat_map
    (fun currency =>
       (if String.eqb currency "USD" then [] else [(currency, "USD", today)])
       ++ (if String.eqb currency "CAD" then [] else [(currency, "CAD", today)]))
    reporting_currencies
  ++ [("USD", "CAD", today)].

(** A record of the fan-out that repeats the input: every monetary field
    with the value of the input, and the rate 1.0. *)
Definition verbatim (input_metrics : MetricsInput.t) (rec : pydict (option Decimal))
  : Prop :=
  dict_get rec "exchange_rate_used" = Some (Some (Dec.mk 10 (-1)))
  /\ forall field, In field monetary_fields ->
                   exists v, getattr input_metrics field = Ok v
                             /\ dict_get rec field = Some v.

(** The positions, counted from [n], of the rows a predicate selects. *)
Fixpoint select_from {A : Type} (n : nat) (p : A -> bool) (rows : list A) : list nat :=
  match rows with
  | [] => []
  | r :: rest => (if p r then [n] else []) ++ select_from (S n) p rest
  end.

(** The instances of a dictionary of [update_reporting_financials] that
    the session does not hold yet, in the order of the dictionary. *)
Definition pendings (reporting_financials : pydict instance) : list (gmap string value) :=
  flat_map (fun ci => match snd ci with
                      | Persistent _ => []
                      | Pending o => [o]
                      end)
           reporting_financials.

(** The attributes of a [ReportingFinancials] row that are not financial
    figures: the key, the primary key and the audit stamps. *)
Definition reserved_attributes : list string :=
  ["company_id"; "currency"; "reporting_year"; "reporting_quarter";
   "id"; "created_date"; "last_update_date"; "last_updated_by"].

(** A dictionary of financials names no reserved attribute. *)
Definition financial_only (financials : pydict (option Decimal)) : Prop :=
  forall a, In a reserved_attributes -> ~ In a (dict_keys financials).

(** The object [o] already holds every value of [financials]. *)
Definition holds (o : gmap string value) (financials : pydict (option Decimal)) : Prop :=
  forall a v, dict_get (rev financials) a = Some v ->
              o !! a = Some (value_of_optional v).

(** In [table] exactly one row has the key [(company, currency, year,
    quarter)], and it holds the [financials]. *)
Definition settled (company_id : UUID) (reporting_year reporting_quarter : Z)
    (table : list (gmap string value)) (currency : string)
    (financials : pydict (option Decimal)) : Prop :=
  exists i o,
    select (financials_match company_id currency reporting_year reporting_quarter) table
    = [i]
    /\ table !! i = Some o
    /\ holds o financials.

(** Between a table and the instances still pending, the key of
    [currency] is served by exactly one object, and it holds the
    [financials]: a row of the table, or one of the pending instances. *)
Definition served (company_id : UUID) (reporting_year reporting_quarter : Z)
    (table pend : list (gmap string value)) (currency : string)
    (financials : pydict (option Decimal)) : Prop :=
  let p := financials_match company_id currency reporting_year reporting_quarter in
  (exists i o,
      select p table = [i] /\ table !! i = Some o /\ holds o financials
      /\ forall o', In o' pend -> p o' = false)
  \/ (select p table = []
      /\ exists p1 o p2,
           pend = p1 ++ o :: p2 /\ p o = true /\ holds o financials
           /\ forall o', In o' (p1 ++ p2) -> p o' = false).

(** The financial fields of a record of converted financials: the
    monetary fields and the rate. *)
Definition financial_fields : list string := monetary_fields ++ ["exchange_rate_used"].

(** Every record of the dictionary has financial fields only. *)
Definition financial_records (converted_financials : pydict (pydict (option Decimal)))
  : Prop :=
  forall currency financials,
    In (currency, financials) converted_financials ->
    forall k, In k (dict_keys financials) -> In k financial_fields.

(** ** Sample data *)

(** The source quotes 0.25 Canadian dollars for every request. *)
Definition api_quarter : nat -> Key -> HttpOutcome :=
  fun _ _ => JsonBody (Some {[ "CAD" := JNumber (Dec.mk 25 (-2)) ]}).

(** The source is down. *)
Definition api_down : nat -> Key -> HttpOutcome := fun _ _ => RequestException.

(** The source answers with a rate that is no number, as in
    [{"rates": {"CAD": "n/a"}}]. *)
Definition api_no_number : nat -> Key -> HttpOutcome :=
  fun _ _ => JsonBody (Some {[ "CAD" := JNotNumber ]}).

(** The source answers [{"rates": null}]. *)
Definition api_rates_null : nat -> Key -> HttpOutcome := fun _ _ => JsonRates JScalar.

(** The source answers [{"rates": {"CAD": NaN}}]. *)
Definition api_nan : nat -> Key -> HttpOutcome :=
  fun _ _ => JsonBody (Some {[ "CAD" := JNumber (NaN false) ]}).

(** The source quotes the rate 0 for every currency. *)
Definition api_zero : nat -> Key -> HttpOutcome :=
  fun _ k => JsonBody (Some {[ snd (fst k) := JNumber (Dec.of_int 0) ]}).

(** A hundred lookups of other keys: the same pair on a hundred other
    dates. *)
Definition other_dates : list Key :=
  map (fun n => ("USD", "CAD", Z.of_nat n)) (seq 0 100).

(** A quarter reported in US dollars: the figures of the example scenario,
    on 2023-03-31. *)
Definition usd_input : MetricsInput.t :=
  {| MetricsInput.id := 1;
     MetricsInput.company_id := 7;
     MetricsInput.currency := "USD";
     MetricsInput.total_revenue := Dec.of_int 1000000;
     MetricsInput.recurring_revenue := Dec.of_int 800000;
     MetricsInput.gross_profit := Dec.of_int 600000;
     MetricsInput.sales_marketing_expense := Dec.of_int 200000;
     MetricsInput.total_operating_expense := Dec.of_int 500000;
     MetricsInput.ebitda := Dec.of_int 300000;
     MetricsInput.net_income := Dec.of_int 250000;
     MetricsInput.cash_burn := Dec.of_int 300000;
     MetricsInput.cash_balance := Dec.of_int 1000000;
     MetricsInput.debt_outstanding := Some (Dec.of_int 500000);
     MetricsInput.employees := 50;
     MetricsInput.customers := Some 1000;
     MetricsInput.fiscal_reporting_date := 738610;
     MetricsInput.fiscal_reporting_quarter := 1;
     MetricsInput.reporting_year := 2023;
     MetricsInput.reporting_quarter := 1 |}.

(** The same quarter reported in euros by another company. *)
Definition eur_input : MetricsInput.t :=
  {| MetricsInput.id := 2;
     MetricsInput.company_id := 8;
     MetricsInput.currency := "EUR";
     MetricsInput.total_revenue := Dec.of_int 1000000;
     MetricsInput.recurring_revenue := Dec.of_int 800000;
     MetricsInput.gross_profit := Dec.of_int 600000;
     MetricsInput.sales_marketing_expense := Dec.of_int 200000;
     MetricsInput.total_operating_expense := Dec.of_int 500000;
     MetricsInput.ebitda := Dec.of_int 300000;
     MetricsInput.net_income := Dec.of_int 250000;
     MetricsInput.cash_burn := Dec.of_int 300000;
     MetricsInput.cash_balance := Dec.of_int 1000000;
     MetricsInput.debt_outstanding := None;
     MetricsInput.employees := 50;
     MetricsInput.customers := None;
     MetricsInput.fiscal_reporting_date := 738610;
     MetricsInput.fiscal_reporting_quarter := 1;
     MetricsInput.reporting_year := 2023;
     MetricsInput.reporting_quarter := 1 |}.

(** The source quotes 1.25 for Canadian and 1.10 for US dollars. *)
Definition api_quotes : nat -> Key -> HttpOutcome :=
  fun _ _ => JsonBody (Some (<["CAD" := JNumber (Dec.mk 125 (-2))]>
                              {[ "USD" := JNumber (Dec.mk 110 (-2)) ]})).

(** The quarter of [usd_input] reported for another period. *)
Definition usd_quarter (id reporting_year reporting_quarter : Z) : MetricsInput.t :=
  {| MetricsInput.id := id;
     MetricsInput.company_id := MetricsInput.company_id usd_input;
     MetricsInput.currency := MetricsInput.currency usd_input;
     MetricsInput.total_revenue := MetricsInput.total_revenue usd_input;
     MetricsInput.recurring_revenue := MetricsInput.recurring_revenue usd_input;
     MetricsInput.gross_profit := MetricsInput.gross_profit usd_input;
     MetricsInput.sales_marketing_expense :=
       MetricsInput.sales_marketing_expense usd_input;
     MetricsInput.total_operating_expense :=
       MetricsInput.total_operating_expense usd_input;
     MetricsInput.ebitda := MetricsInput.ebitda usd_input;
     MetricsInput.net_income := MetricsInput.net_income usd_input;
     MetricsInput.cash_burn := MetricsInput.cash_burn usd_input;
     MetricsInput.cash_balance := MetricsInput.cash_balance usd_input;
     MetricsInput.debt_outstanding := MetricsInput.debt_outstanding usd_input;
     MetricsInput.employees := MetricsInput.employees usd_input;
     MetricsInput.customers := MetricsInput.customers usd_input;
     MetricsInput.fiscal_reporting_date := MetricsInput.fiscal_reporting_date usd_input;
     MetricsInput.fiscal_reporting_quarter := reporting_quarter;
     MetricsInput.reporting_year := reporting_year;
     MetricsInput.reporting_quarter := reporting_quarter |}.

(** Four consecutive quarters of company 7, the last one [usd_input]. *)
Definition four_quarters_db : DB.t :=
  DB.mk [usd_quarter 11 2022 2; usd_quarter 12 2022 3; usd_quarter 13 2022 4; usd_input]
        [] [].

Definition sample_env : Env := mkEnv 738625 (fun n => 100 + Z.of_nat n).

Definition sample_db : DB.t := DB.mk [usd_input; eur_input] [] [].

(** A row of [reporting_financials] of the first quarter of 2023. *)
Definition sample_row (id company_id : UUID) (currency : string) (total_revenue : Z)
  : gmap string value :=
  <["id" := VUuid id]>
  (<["company_id" := VUuid company_id]>
  (<["currency" := VStr currency]>
  (<["reporting_year" := VInt 2023]>
  (<["reporting_quarter" := VInt 1]>
  (<["total_revenue" := VDec (Dec.of_int total_revenue)]>
  (<["created_by" := VStr "loader"]>
  (<["last_update_date" := VNone]> ∅))))))).

(** Company 7 has its rows in US and Canadian dollars, company 8 one in
    US dollars. *)
Definition sample_table : list (gmap string value) :=
  [sample_row 1 7 "USD" 5; sample_row 2 8 "USD" 6; sample_row 3 7 "CAD" 7].

(** Converted financials for two currencies: the figures of [usd_input]
    in US dollars, and in Canadian dollars at 1.25. *)
Definition sample_financials : pydict (pydict (option Decimal)) :=
  [("USD",
    [("total_revenue", Some (Dec.of_int 1000000));
     ("recurring_revenue", Some (Dec.of_int 800000));
     ("gross_profit", Some (Dec.of_int 600000));
     ("sales_marketing_expense", Some (Dec.of_int 200000));
     ("total_operating_expense", Some (Dec.of_int 500000));
     ("ebitda", Some (Dec.of_int 300000));
     ("net_income", Some (Dec.of_int 250000));
     ("cash_burn", Some (Dec.of_int 300000));
     ("cash_balance", Some (Dec.of_int 1000000));
     ("debt_outstanding", Some (Dec.of_int 500000));
     ("exchange_rate_used", Some (Dec.mk 10 (-1)))]);
   ("CAD",
    [("total_revenue", Some (Dec.mk 125000000 (-2)));
     ("recurring_revenue", Some (Dec.mk 100000000 (-2)));
     ("gross_profit", Some (Dec.mk 75000000 (-2)));
     ("sales_marketing_expense", Some (Dec.mk 25000000 (-2)));
     ("total_operating_expense", Some (Dec.mk 62500000 (-2)));
     ("ebitda", Some (Dec.mk 37500000 (-2)));
     ("net_income", Some (Dec.mk 31250000 (-2)));
     ("cash_burn", Some (Dec.mk 37500000 (-2)));
     ("cash_balance", Some (Dec.mk 125000000 (-2)));
     ("debt_outstanding", Some (Dec.mk 62500000 (-2)));
     ("exchange_rate_used", Some (Dec.mk 125 (-2)))])].

(** * Properties *)

(** ** Samples of the decimal arithmetic *)

Example ndigits_samples :
  map Dec.ndigits [0; 9; 10; 99; 100; 12345; 10 ^ 27; 10 ^ 28 - 1; 10 ^ 28]
  = [1; 1; 2; 2; 3; 5; 28; 28; 29].
Proof. vm_compute. reflexivity. Qed.

(** [Decimal(200000) / 3], rounded to 28 digits. *)
Example div_sample :
  Dec.div (Dec.of_int 200000) (Dec.of_int 3)
  = Ok (Dec.mk 6666666666666666666666666667 (-23)).
Proof. vm_compute. reflexivity. Qed.

Example div_exact_sample :
  Dec.div (Dec.of_int 800000) (Dec.of_int 1000000) = Ok (Dec.mk 8 (-1)).
Proof. vm_compute. reflexivity. Qed.

Example round_sample :
  (Dec.round (Dec.mk 125 (-3)) 2, Dec.round (Dec.mk 135 (-3)) 2)
  = (Ok (Dec.mk 12 (-2)), Ok (Dec.mk 14 (-2))).
Proof. vm_compute. reflexivity. Qed.

Example add_sample :
  Dec.add (Dec.mk 1 30) (Dec.of_int 1) = Dec.mk 1000000000000000000000000000 3.
Proof. vm_compute. reflexivity. Qed.

(** The figures of [test_metrics_calculation.py]. *)
Example helper_samples :
  (calculate_arr (Dec.of_int 100000),
   calculate_percentage_of_revenue (Dec.of_int 200000) (Dec.of_int 1000000),
   calculate_per_fte (Dec.of_int 1000000) 50,
   calculate_growth_rate (Dec.of_int 1100000) (Dec.of_int 1000000),
   calculate_runway_months (Dec.of_int 1000000) (Dec.of_int 100000))
  = (Dec.of_int 400000, Ok (Dec.mk 2000 (-2)), Ok (Dec.mk 2000000 (-2)),
     Ok (Dec.mk 1000 (-2)), Ok (Dec.mk 100 (-1))).
Proof. vm_compute. reflexivity. Qed.

(** ** Digits *)

Lemma pow10_pos (k : Z) : 0 <= k -> 0 < 10 ^ k.
Proof. intros. apply Z.pow_pos_nonneg; lia. Qed.

Lemma pow10_succ (k : Z) : 0 <= k -> 10 ^ (k + 1) = 10 * 10 ^ k.
Proof. intros. rewrite Z.pow_add_r by lia. lia. Qed.

Lemma pow10_le (a b : Z) : 0 <= a <= b -> 10 ^ a <= 10 ^ b.
Proof. intros. apply Z.pow_le_mono_r; lia. Qed.

Lemma pow10_lt (a b : Z) : 0 <= a < b -> 10 ^ a < 10 ^ b.
Proof. intros. apply Z.pow_lt_mono_r; lia. Qed.

Lemma ndigits_fuel_pos (fuel : nat) (n : Z) : 1 <= Dec.ndigits_fuel fuel n.
Proof.
  revert n. induction fuel as [|f IH]; intros n; simpl; [lia|].
  destruct (n <? 10); [lia|]. specialize (IH (n / 10)). lia.
Qed.

Lemma ndigits_fuel_spec (fuel : nat) (n : Z) :
  0 < n -> Z.log2 n <= Z.of_nat fuel ->
  10 ^ (Dec.ndigits_fuel fuel n - 1) <= n < 10 ^ Dec.ndigits_fuel fuel n.
Proof.
  revert n. induction fuel as [|f IH]; intros n Hn Hlog.
  - assert (n <= 1) by (apply Z.log2_null; pose proof (Z.log2_nonneg n); lia).
    simpl. lia.
  - cbn [Dec.ndigits_fuel]. destruct (Z.ltb_spec n 10) as [Hlt|Hge].
    + simpl. lia.
    + pose proof (ndigits_fuel_pos f (n / 10)) as Hpos.
      assert (Hm : 0 < n / 10) by (apply Z.div_str_pos; lia).
      assert (Hlog' : Z.log2 (n / 10) <= Z.of_nat f).
      { pose proof (Z.log2_mul_below (n / 10) 2 Hm ltac:(lia)) as Hb.
        change (Z.log2 2) with 1 in Hb.
        pose proof (Z.log2_le_mono (n / 10 * 2) n) as Hmono.
        pose proof (Z.mul_div_le n 10 ltac:(lia)).
        lia. }
      destruct (IH (n / 10) Hm Hlog') as [Hlo Hhi].
      replace (1 + Dec.ndigits_fuel f (n / 10) - 1)
        with (Dec.ndigits_fuel f (n / 10) - 1 + 1) by lia.
      replace (1 + Dec.ndigits_fuel f (n / 10))
        with (Dec.ndigits_fuel f (n / 10) + 1) by lia.
      rewrite !pow10_succ by lia.
      pose proof (Z.mul_div_le n 10 ltac:(lia)).
      pose proof (Z.mul_succ_div_gt n 10 ltac:(lia)).
      lia.
Qed.

Lemma ndigits_pos (n : Z) : 1 <= Dec.ndigits n.
Proof. apply ndigits_fuel_pos. Qed.

Lemma ndigits_spec (n : Z) :
  0 < n -> 10 ^ (Dec.ndigits n - 1) <= n < 10 ^ Dec.ndigits n.
Proof.
  intros Hn. apply ndigits_fuel_spec; [assumption|].
  pose proof (Z.log2_nonneg n). lia.
Qed.

Lemma ndigits_0 : Dec.ndigits 0 = 1.
Proof. reflexivity. Qed.

(** A number below [10 ^ k] has at most [k] digits. *)
Lemma ndigits_le (n k : Z) : 0 <= n < 10 ^ k -> 1 <= k -> Dec.ndigits n <= k.
Proof.
  intros [Hn Hlt] Hk. destruct (Z.eq_dec n 0) as [->|Hnz]; [rewrite ndigits_0; lia|].
  destruct (ndigits_spec n ltac:(lia)) as [Hlo _].
  pose proof (ndigits_pos n).
  destruct (Z_le_gt_dec (Dec.ndigits n) k) as [|Hgt]; [assumption|].
  pose proof (pow10_le k (Dec.ndigits n - 1) ltac:(lia)). lia.
Qed.

(** A number from [10 ^ (k - 1)] on has at least [k] digits. *)
Lemma ndigits_ge (n k : Z) : 1 <= k -> 10 ^ (k - 1) <= n -> k <= Dec.ndigits n.
Proof.
  intros Hk Hle. pose proof (pow10_pos (k - 1) ltac:(lia)).
  destruct (ndigits_spec n ltac:(lia)) as [_ Hhi].
  pose proof (ndigits_pos n).
  destruct (Z_le_gt_dec k (Dec.ndigits n)) as [|Hgt]; [assumption|].
  pose proof (pow10_le (Dec.ndigits n) (k - 1) ltac:(lia)). lia.
Qed.

Lemma fix_small (d : Decimal) :
  Z.abs (Dec.coef d) < 10 ^ Dec.prec -> Dec.fix_ d = d.
Proof.
  intros H. unfold Dec.fix_.
  pose proof (ndigits_le (Z.abs (Dec.coef d)) Dec.prec ltac:(lia) ltac:(unfold Dec.prec; lia)).
  destruct (Z.leb_spec (Dec.ndigits (Z.abs (Dec.coef d))) Dec.prec); [reflexivity|lia].
Qed.

(** ** metrics_calculation.py: the guards against a zero denominator *)

(** [d == 0] holds exactly of the decimals with coefficient zero. *)
Lemma eqb_zero (d : Decimal) :
  Dec.eqb d (Dec.of_int 0) = true <-> Dec.is_zero d = true.
Proof.
  unfold Dec.eqb, Dec.is_zero, Dec.coef_at, Dec.of_int. cbn [Dec.coef Dec.exp].
  rewrite Z.mul_0_l, !Z.eqb_eq.
  pose proof (pow10_pos (Dec.exp d - Z.min (Dec.exp d) 0) ltac:(lia)).
  split; [intros Hm; apply Z.mul_eq_0 in Hm; lia | intros ->; lia].
Qed.

(** C7. With a denominator that equals 0 each division-based helper
    returns [Decimal('0')]: [calculate_percentage_of_revenue],
    [calculate_per_fte], [calculate_growth_rate] and
    [calculate_runway_months], whatever the numerator. No exception is
    raised. *)
Theorem zero_denominator_returns_zero (x d : Decimal) :
  Dec.eqb d (Dec.of_int 0) = true ->
  calculate_percentage_of_revenue x d = Ok (Dec.of_int 0)
  /\ calculate_per_fte x 0 = Ok (Dec.of_int 0)
  /\ calculate_growth_rate x d = Ok (Dec.of_int 0)
  /\ calculate_runway_months x d = Ok (Dec.of_int 0).
Proof.
  intros Hd. apply eqb_zero in Hd.
  unfold calculate_percentage_of_revenue, calculate_per_fte, calculate_growth_rate,
    calculate_runway_months.
  rewrite Hd. repeat split; reflexivity.
Qed.

Lemma zero_denominator_returns_zero_witness :
  Dec.eqb (Dec.mk 0 (-2)) (Dec.of_int 0) = true
  /\ calculate_percentage_of_revenue (Dec.mk 12345 (-2)) (Dec.mk 0 (-2)) = Ok (Dec.of_int 0)
  /\ calculate_per_fte (Dec.mk 12345 (-2)) 0 = Ok (Dec.of_int 0)
  /\ calculate_growth_rate (Dec.mk 12345 (-2)) (Dec.mk 0 (-2)) = Ok (Dec.of_int 0)
  /\ calculate_runway_months (Dec.mk 12345 (-2)) (Dec.mk 0 (-2)) = Ok (Dec.of_int 0).
Proof.
  split; [reflexivity|].
  apply (zero_denominator_returns_zero (Dec.mk 12345 (-2)) (Dec.mk 0 (-2))).
  reflexivity.
Defined.

(** ** Rounding *)

Lemma round_half_even_bounds (n k : Z) :
  0 <= n -> 0 <= k ->
  n / 10 ^ k <= Dec.round_half_even n k <= n / 10 ^ k + 1.
Proof.
  intros Hn Hk. unfold Dec.round_half_even.
  destruct (2 * (n mod 10 ^ k) <? 10 ^ k); [lia|].
  destruct (2 * (n mod 10 ^ k) =? 10 ^ k); [|lia].
  destruct (Z.even (n / 10 ^ k)); lia.
Qed.

Lemma round_half_even_nonneg (n k : Z) :
  0 <= n -> 0 <= k -> 0 <= Dec.round_half_even n k.
Proof.
  intros Hn Hk. pose proof (round_half_even_bounds n k Hn Hk).
  pose proof (pow10_pos k Hk).
  pose proof (Z.div_pos n (10 ^ k) Hn ltac:(lia)). lia.
Qed.

(** The rounded coefficient is within half a unit of the exact quotient,
    and even when exactly half a unit away. *)
Lemma round_half_even_nearest (n k : Z) :
  0 <= n -> 0 <= k ->
  let q := Dec.round_half_even n k in
  2 * Z.abs (q * 10 ^ k - n) <= 10 ^ k
  /\ (2 * Z.abs (q * 10 ^ k - n) = 10 ^ k -> Z.even q = true).
Proof.
  intros Hn Hk. unfold Dec.round_half_even.
  pose proof (pow10_pos k Hk) as Hp.
  pose proof (Z.div_mod n (10 ^ k) ltac:(lia)) as Hdm.
  pose proof (Z.mod_pos_bound n (10 ^ k) Hp) as Hr.
  set (p := 10 ^ k) in *. set (q := n / p) in *. set (r := n mod p) in *.
  destruct (Z.ltb_spec (2 * r) p) as [Hlt|Hge].
  - cbv zeta. split; [nia|]. intros Ht. exfalso. nia.
  - destruct (Z.eqb_spec (2 * r) p) as [Heq|Hne].
    + destruct (Z.even q) eqn:Hev.
      * cbv zeta. split; [nia|]. intros _. exact Hev.
      * cbv zeta. split; [nia|]. intros _.
        rewrite Z.even_add, Hev. reflexivity.
    + cbv zeta. split; [nia|]. intros Ht. exfalso. nia.
Qed.

(** ** Quantizing *)

Lemma is_zero_false (d : Decimal) : Dec.is_zero d = false -> Dec.coef d <> 0.
Proof. unfold Dec.is_zero. intros H. apply Z.eqb_neq. exact H. Qed.

Lemma abs_sgn_mul (c q : Z) : c <> 0 -> Z.abs (Z.sgn c * q) = Z.abs q.
Proof. intros. rewrite Z.abs_mul. destruct c; simpl; lia. Qed.

(** The coefficient of a rescaled decimal stays below [10 ^ (top d - e)],
    or reaches it by a carry of the rounding. *)
Lemma rescale_coef_bound (d : Decimal) (e : Z) :
  Dec.is_zero d = false -> 0 <= top d - e ->
  Z.abs (Dec.coef (Dec.rescale d e)) <= 10 ^ (top d - e).
Proof.
  intros Hz Htop. unfold Dec.rescale. rewrite Hz.
  pose proof (is_zero_false d Hz) as Hc.
  pose proof (ndigits_spec (Z.abs (Dec.coef d)) ltac:(lia)) as [_ Hhi].
  pose proof (ndigits_pos (Z.abs (Dec.coef d))) as Hnd.
  unfold top in *. set (nd := Dec.ndigits (Z.abs (Dec.coef d))) in *.
  destruct (Z.leb_spec e (Dec.exp d)) as [Hle|Hgt]; cbn [Dec.coef].
  - unfold Dec.coef_at. rewrite Z.abs_mul.
    pose proof (pow10_pos (Dec.exp d - e) ltac:(lia)) as Hp.
    rewrite (Z.abs_eq (10 ^ (Dec.exp d - e))) by lia.
    replace (nd + Dec.exp d - e) with (nd + (Dec.exp d - e)) by lia.
    rewrite Z.pow_add_r by lia. nia.
  - rewrite abs_sgn_mul by assumption.
    pose proof (round_half_even_bounds (Z.abs (Dec.coef d)) (e - Dec.exp d)
                  ltac:(lia) ltac:(lia)) as [Hlo Hup].
    pose proof (round_half_even_nonneg (Z.abs (Dec.coef d)) (e - Dec.exp d)
                  ltac:(lia) ltac:(lia)) as Hq.
    rewrite Z.abs_eq by assumption.
    pose proof (pow10_pos (e - Dec.exp d) ltac:(lia)) as Hp.
    assert (Hdiv : Z.abs (Dec.coef d) / 10 ^ (e - Dec.exp d) < 10 ^ (nd + Dec.exp d - e)).
    { apply Z.div_lt_upper_bound; [lia|].
      rewrite <- Z.pow_add_r by lia.
      replace (e - Dec.exp d + (nd + Dec.exp d - e)) with nd by lia. assumption. }
    lia.
Qed.

(** Quantizing succeeds when the result fits the precision with a digit to
    spare. *)
Lemma quantize_ok (d : Decimal) (e : Z) :
  Dec.is_zero d = true \/ top d - e <= 27 ->
  exists v, Dec.quantize d e = Ok v.
Proof.
  intros H. unfold Dec.quantize.
  destruct (Dec.is_zero d) eqn:Hz; [eauto|].
  destruct H as [H|H]; [discriminate|].
  assert (Hgt : (Dec.ndigits (Z.abs (Dec.coef d)) + Dec.exp d - e >? Dec.prec) = false).
  { unfold top, Dec.prec in *. rewrite Z.gtb_ltb. apply Z.ltb_ge. lia. }
  rewrite Hgt. cbv zeta.
  assert (Hnd : Dec.ndigits (Z.abs (Dec.coef (Dec.rescale d e))) <= Dec.prec).
  { destruct (Z_le_gt_dec 0 (top d - e)) as [Hpos|Hneg].
    - pose proof (rescale_coef_bound d e Hz Hpos) as Hb.
      pose proof (pow10_le (top d - e) 27 ltac:(lia)).
      apply ndigits_le; unfold Dec.prec; [|lia].
      assert (10 ^ 27 < 10 ^ 28) by (apply pow10_lt; lia). lia.
    - (* the whole coefficient is rounded away *)
      unfold Dec.rescale. rewrite Hz.
      pose proof (is_zero_false d Hz) as Hc.
      pose proof (ndigits_pos (Z.abs (Dec.coef d))) as Hn1.
      unfold top in Hneg.
      destruct (Z.leb_spec e (Dec.exp d)) as [Hle|Hlt]; [lia|]. cbn [Dec.coef].
      rewrite abs_sgn_mul by assumption.
      pose proof (round_half_even_bounds (Z.abs (Dec.coef d)) (e - Dec.exp d)
                    ltac:(lia) ltac:(lia)) as [Hlo Hup].
      pose proof (round_half_even_nonneg (Z.abs (Dec.coef d)) (e - Dec.exp d)
                    ltac:(lia) ltac:(lia)) as Hq.
      rewrite Z.abs_eq by assumption.
      pose proof (ndigits_spec (Z.abs (Dec.coef d)) ltac:(lia)) as [_ Hhi].
      assert (Hsmall : Z.abs (Dec.coef d) / 10 ^ (e - Dec.exp d) = 0).
      { apply Z.div_small. split; [lia|].
        pose proof (pow10_le (Dec.ndigits (Z.abs (Dec.coef d))) (e - Dec.exp d)
                      ltac:(lia)). lia. }
      apply ndigits_le; unfold Dec.prec; [|lia].
      assert (1 < 10 ^ 28) by (apply Z.pow_gt_1; lia). lia. }
  destruct (Z.gtb_spec (Dec.ndigits (Z.abs (Dec.coef (Dec.rescale d e)))) Dec.prec);
    [lia|eauto].
Qed.

(** A quantized decimal is the nearest multiple, ties to even. *)
Lemma quantize_nearest (d v : Decimal) (e : Z) :
  Dec.quantize d e = Ok v -> nearest_even e d v.
Proof.
  unfold Dec.quantize.
  destruct (Dec.is_zero d) eqn:Hz.
  - intros [= <-]. unfold Dec.is_zero in Hz. apply Z.eqb_eq in Hz.
    unfold nearest_even, Dec.coef_at. cbn [Dec.coef Dec.exp]. rewrite Hz.
    split; [reflexivity|]. cbv zeta.
    pose proof (pow10_pos (e - Z.min (Dec.exp d) e) ltac:(lia)).
    rewrite !Z.mul_0_l. simpl. split; [lia|]. reflexivity.
  - destruct (_ >? Dec.prec); [discriminate|]. cbv zeta.
    destruct (Z.gtb_spec (Dec.ndigits (Z.abs (Dec.coef (Dec.rescale d e)))) Dec.prec)
      as [|Hfit]; [discriminate|].
    intros [= <-].
    assert (Hfix : Dec.fix_ (Dec.rescale d e) = Dec.rescale d e).
    { unfold Dec.fix_.
      destruct (Z.leb_spec (Dec.ndigits (Z.abs (Dec.coef (Dec.rescale d e)))) Dec.prec);
        [reflexivity|lia]. }
    rewrite Hfix. clear Hfix Hfit.
    pose proof (is_zero_false d Hz) as Hc.
    unfold Dec.rescale. rewrite Hz.
    destruct (Z.leb_spec e (Dec.exp d)) as [Hle|Hlt].
    + unfold nearest_even, Dec.coef_at. cbn [Dec.coef Dec.exp].
      split; [reflexivity|]. cbv zeta.
      rewrite Z.min_r by lia. rewrite Z.sub_diag. rewrite Z.mul_1_r.
      rewrite Z.sub_diag. simpl. split; [lia|]. intros; lia.
    + unfold nearest_even, Dec.coef_at. cbn [Dec.coef Dec.exp].
      split; [reflexivity|]. cbv zeta.
      rewrite Z.min_l by lia. rewrite Z.sub_diag, Z.mul_1_r.
      pose proof (round_half_even_nearest (Z.abs (Dec.coef d)) (e - Dec.exp d)
                    ltac:(lia) ltac:(lia)) as Hnear.
      cbv zeta in Hnear.
      pose proof (round_half_even_nonneg (Z.abs (Dec.coef d)) (e - Dec.exp d)
                    ltac:(lia) ltac:(lia)) as Hq.
      set (q := Dec.round_half_even (Z.abs (Dec.coef d)) (e - Dec.exp d)) in *.
      set (p := 10 ^ (e - Dec.exp d)) in *.
      assert (Habs : Z.abs (Z.sgn (Dec.coef d) * q * p - Dec.coef d)
                     = Z.abs (q * p - Z.abs (Dec.coef d))).
      { destruct (Dec.coef d) as [|c|c]; [lia| |]; simpl Z.sgn; lia. }
      rewrite Habs. destruct Hnear as [Hle Hev]. split; [exact Hle|].
      intros Ht. specialize (Hev Ht).
      rewrite Z.even_mul, Hev. apply orb_true_r.
Qed.

(** ** currency_conversion.py *)

Lemma key_eqb_eq (a b : Key) : key_eqb a b = true <-> a = b.
Proof.
  destruct a as [[f1 t1] d1], b as [[f2 t2] d2]. unfold key_eqb.
  rewrite !andb_true_iff, !String.eqb_eq, Z.eqb_eq.
  split; [intros [[-> ->] ->]; reflexivity | intros [= -> -> ->]; auto].
Qed.

Lemma key_eqb_refl (k : Key) : key_eqb k k = true.
Proof. apply key_eqb_eq. reflexivity. Qed.

Lemma key_eqb_neq (a b : Key) : key_eqb a b = false <-> a <> b.
Proof.
  rewrite <- key_eqb_eq. destruct (key_eqb a b); split; congruence.
Qed.

Section CurrencyConversion.

Variable api : nat -> Key -> HttpOutcome.

(** A lookup the [lru_cache] answers runs no body: the globals keep their
    rates and no request is made. *)
Lemma get_exchange_rate_hit (g : Globals) (k : Key) (r : AnyDecimal) :
  lru_find k (lru g) = Some r ->
  get_exchange_rate api g k
  = (Ok r, mkGlobals ((k, r) :: lru_remove k (lru g)) (exchange_rates g)
                     (fetched g) (looked_up g ++ [k])).
Proof. intros H. unfold get_exchange_rate. cbn [lru]. rewrite H. reflexivity. Qed.

(** A lookup the [exchange_rates] dictionary answers. *)
Lemma get_exchange_rate_cached (g : Globals) (k : Key) (r : AnyDecimal) :
  lru_find k (lru g) = None ->
  usable_rate (cached_rate (exchange_rates g) k) = Some r ->
  get_exchange_rate api g k
  = (Ok r, mkGlobals (lru_store k r (lru g)) (exchange_rates g)
                     (fetched g) (looked_up g ++ [k])).
Proof.
  intros H1 H2. unfold get_exchange_rate, get_exchange_rate_body.
  cbn [lru exchange_rates]. rewrite H1, H2. reflexivity.
Qed.

(** A lookup that goes to the source. *)
Lemma get_exchange_rate_miss (g : Globals) (k : Key) :
  lru_find k (lru g) = None ->
  usable_rate (cached_rate (exchange_rates g) k) = None ->
  get_exchange_rate api g k
  = match parse_response (snd (fst k)) (api (length (fetched g)) k) with
    | Ok rate =>
        (Ok rate, mkGlobals (lru_store k rate (lru g))
                            (store_rate (exchange_rates g) k rate)
                            (fetched g ++ [k]) (looked_up g ++ [k]))
    | Raise e => (Raise e, after_failed_fetch g k)
    end.
Proof.
  intros H1 H2. unfold get_exchange_rate, get_exchange_rate_body, _fetch_exchange_rate.
  cbn [lru exchange_rates fetched looked_up]. rewrite H1, H2.
  destruct k as [[f t] d]. cbn [fst snd fetched].
  destruct (parse_response t _); reflexivity.
Qed.

(** The three ways a lookup can go. *)
Lemma get_exchange_rate_cases (g : Globals) (k : Key) :
  (exists r, lru_find k (lru g) = Some r)
  \/ (lru_find k (lru g) = None
      /\ exists r, usable_rate (cached_rate (exchange_rates g) k) = Some r)
  \/ (lru_find k (lru g) = None
      /\ usable_rate (cached_rate (exchange_rates g) k) = None).
Proof.
  destruct (lru_find k (lru g)); [eauto|].
  destruct (usable_rate (cached_rate (exchange_rates g) k)); eauto.
Qed.

Lemma lru_find_head (k : Key) (r : AnyDecimal) (c : list (Key * AnyDecimal)) :
  lru_find k ((k, r) :: c) = Some r.
Proof. simpl. rewrite key_eqb_refl. reflexivity. Qed.

Lemma lru_find_store (k : Key) (r : AnyDecimal) (c : list (Key * AnyDecimal)) :
  lru_find k (lru_store k r c) = Some r.
Proof. unfold lru_store. destruct (_ <? _)%nat; apply lru_find_head. Qed.

(** After a lookup that returned, the rate is at the head of the
    [lru_cache]; the lookup is logged and at most one request was made. *)
Lemma get_exchange_rate_ok (g g1 : Globals) (k : Key) (r : AnyDecimal) :
  get_exchange_rate api g k = (Ok r, g1) ->
  lru_find k (lru g1) = Some r
  /\ looked_up g1 = looked_up g ++ [k]
  /\ (fetched g1 = fetched g \/ fetched g1 = fetched g ++ [k]).
Proof.
  intros H.
  destruct (get_exchange_rate_cases g k) as [[r' Hh]|[[Hn [r' Hc]]|[Hn Hc]]].
  - rewrite (get_exchange_rate_hit g k r' Hh) in H. injection H as <- <-.
    cbn. rewrite key_eqb_refl. auto.
  - rewrite (get_exchange_rate_cached g k r' Hn Hc) in H. injection H as <- <-.
    cbn [lru looked_up fetched]. rewrite lru_find_store. auto.
  - rewrite (get_exchange_rate_miss g k Hn Hc) in H.
    destruct (parse_response _ _); [|discriminate]. injection H as <- <-.
    cbn [lru looked_up fetched]. rewrite lru_find_store. auto.
Qed.

(** A lookup that raised went to the source, whose answer gave the
    exception; the caches are as before. *)
Lemma get_exchange_rate_raise (g g1 : Globals) (k : Key) (e : exn) :
  get_exchange_rate api g k = (Raise e, g1) ->
  g1 = after_failed_fetch g k
  /\ parse_response (snd (fst k)) (api (length (fetched g)) k) = Raise e.
Proof.
  intros H.
  destruct (get_exchange_rate_cases g k) as [[r' Hh]|[[Hn [r' Hc]]|[Hn Hc]]].
  - rewrite (get_exchange_rate_hit g k r' Hh) in H. discriminate.
  - rewrite (get_exchange_rate_cached g k r' Hn Hc) in H. discriminate.
  - rewrite (get_exchange_rate_miss g k Hn Hc) in H.
    destruct (parse_response _ _); [discriminate|]. injection H as <- <-. auto.
Qed.

End CurrencyConversion.





(** C8. Three responses without a rate that can be used, for a first
    lookup of US against Canadian dollars. A rate that is no number
    leaves [_fetch_exchange_rate] as [decimal.InvalidOperation] and a
    [rates] member that is [null] as [TypeError], where the function
    documents a [ValueError]; neither is caught on the way through
    [get_exchange_rate] and [convert_currency]. A rate that is the number
    [NaN] raises nothing: the lookup returns it, both caches keep it, and
    the conversion returns NaN as the converted amount. *)
Theorem unusable_rate_is_no_ValueError :
  let k : Key := ("USD", "CAD", 738610) in
  (get_exchange_rate api_no_number initial_globals k
   = (Raise InvalidOperation, after_failed_fetch initial_globals k)
   /\ fst (convert_currency api_no_number initial_globals (Dec.of_int 100)
                            "USD" "CAD" 738610) = Raise InvalidOperation)
  /\ (get_exchange_rate api_rates_null initial_globals k
      = (Raise TypeError, after_failed_fetch initial_globals k)
      /\ fst (convert_currency api_rates_null initial_globals (Dec.of_int 100)
                               "USD" "CAD" 738610) = Raise TypeError)
  /\ (fst (get_exchange_rate api_nan initial_globals k) = Ok (NaN false)
      /\ cached_rate (exchange_rates (snd (get_exchange_rate api_nan initial_globals k))) k
         = Some (NaN false)
      /\ lru_find k (lru (snd (get_exchange_rate api_nan initial_globals k)))
         = Some (NaN false)
      /\ fst (convert_currency api_nan initial_globals (Dec.of_int 100)
                               "USD" "CAD" 738610) = Ok (NaN false)).
Proof. cbv zeta. repeat split; vm_compute; reflexivity. Qed.

(** A lookup that the caches do not answer and whose request fails raises
    the exception of [_fetch_exchange_rate] as it is, stores nothing in
    either cache, and a conversion that needs the rate raises the same
    exception. And whatever a lookup returns was in one of the caches or is
    what the response carried: nothing else is ever put in its place. *)
Theorem failed_lookup_caches_nothing (api : nat -> Key -> HttpOutcome) (g : Globals)
    (from_currency to_currency : string) (d : date) :
  let k := (from_currency, to_currency, d) in
  (forall e,
     fst (_fetch_exchange_rate api g k) = Raise e ->
     lru_find k (lru g) = None ->
     usable_rate (cached_rate (exchange_rates g) k) = None ->
     get_exchange_rate api g k = (Raise e, after_failed_fetch g k)
     /\ (from_currency <> to_currency ->
         forall amount,
           convert_currency api g amount from_currency to_currency d
           = (Raise e, after_failed_fetch g k)))
  /\ (forall r g1,
        get_exchange_rate api g k = (Ok r, g1) ->
        lru_find k (lru g) = Some r
        \/ usable_rate (cached_rate (exchange_rates g) k) = Some r
        \/ fst (_fetch_exchange_rate api g k) = Ok r).
Proof.
  intros k. split.
  - intros e He Hlru Hdict.
    unfold _fetch_exchange_rate, k in He. cbn [fst] in He. fold k in He.
    assert (Hget : get_exchange_rate api g k = (Raise e, after_failed_fetch g k)).
    { rewrite (get_exchange_rate_miss api g k Hlru Hdict). cbn [k fst snd].
      fold k. rewrite He. reflexivity. }
    split; [exact Hget|].
    intros Hne amount. unfold convert_currency.
    apply String.eqb_neq in Hne. rewrite Hne. fold k. rewrite Hget. reflexivity.
  - intros r g1 Hget.
    destruct (get_exchange_rate_cases g k) as [[r' Hh]|[[Hn [r' Hc]]|[Hn Hc]]].
    + rewrite (get_exchange_rate_hit api g k r' Hh) in Hget.
      injection Hget as <- _. auto.
    + rewrite (get_exchange_rate_cached api g k r' Hn Hc) in Hget.
      injection Hget as <- _. auto.
    + rewrite (get_exchange_rate_miss api g k Hn Hc) in Hget. cbn [k fst snd] in Hget.
      right. right. unfold _fetch_exchange_rate, k. cbn [fst].
      fold k. destruct (parse_response to_currency (api (length (fetched g)) k));
        [|discriminate].
      injection Hget as <- _. reflexivity.
Qed.

Lemma failed_lookup_caches_nothing_witness :
  get_exchange_rate api_down initial_globals ("USD", "CAD", 738610)
  = (Raise (ValueError "Failed to fetch exchange rate from API"),
     after_failed_fetch initial_globals ("USD", "CAD", 738610))
  /\ forall amount,
       convert_currency api_down initial_globals amount "USD" "CAD" 738610
       = (Raise (ValueError "Failed to fetch exchange rate from API"),
          after_failed_fetch initial_globals ("USD", "CAD", 738610)).
Proof.
  destruct (proj1 (failed_lookup_caches_nothing api_down initial_globals "USD" "CAD"
                     738610)
              (ValueError "Failed to fetch exchange rate from API")
              ltac:(reflexivity) ltac:(reflexivity) ltac:(reflexivity))
    as [Hget Hconv].
  split; [exact Hget|]. apply Hconv. discriminate.
Defined.

(** ** The two caches of [get_exchange_rate] *)

(** The three statements together: one nested update. *)
Lemma store_rate_eq (rates : gmap string (gmap string (gmap Z AnyDecimal)))
    (f t : string) (d : Z) (r : AnyDecimal) :
  store_rate rates (f, t, d) r
  = <[f := <[t := <[d := r]> (default ∅ (default ∅ (rates !! f) !! t))]>
             (default ∅ (rates !! f))]> rates.
Proof.
  unfold store_rate.
  destruct (rates !! f) as [bt|] eqn:Hbt.
  - rewrite Hbt. cbv [default from_option id].
    destruct (bt !! t) as [bd|] eqn:Hbd.
    + rewrite Hbd. reflexivity.
    + rewrite lookup_insert_eq. cbv [default from_option id]. rewrite insert_insert_eq. reflexivity.
  - rewrite lookup_insert_eq. cbv [default from_option id]. rewrite lookup_empty, lookup_insert_eq.
    cbv [default from_option id]. rewrite !insert_insert_eq. reflexivity.
Qed.

Lemma cached_rate_store_same (rates : gmap string (gmap string (gmap Z AnyDecimal)))
    (k : Key) (r : AnyDecimal) :
  cached_rate (store_rate rates k r) k = Some r.
Proof.
  destruct k as [[f t] d]. rewrite store_rate_eq. unfold cached_rate.
  rewrite lookup_insert_eq, lookup_insert_eq, lookup_insert_eq. reflexivity.
Qed.

Lemma cached_rate_store_other (rates : gmap string (gmap string (gmap Z AnyDecimal)))
    (k k' : Key) (r : AnyDecimal) :
  k <> k' -> cached_rate (store_rate rates k r) k' = cached_rate rates k'.
Proof.
  destruct k as [[f t] d], k' as [[f' t'] d']. intros Hne.
  rewrite store_rate_eq. unfold cached_rate.
  destruct (decide (f = f')) as [<-|Hf]; [|rewrite lookup_insert_ne by assumption;
                                            reflexivity].
  rewrite lookup_insert_eq.
  destruct (decide (t = t')) as [<-|Ht].
  - rewrite lookup_insert_eq. rewrite lookup_insert_ne by congruence.
    destruct (rates !! f) as [bt|]; cbv [default from_option id].
    + destruct (bt !! t); reflexivity.
    + rewrite lookup_empty. reflexivity.
  - rewrite lookup_insert_ne by assumption.
    destruct (rates !! f) as [bt|]; cbv [default from_option id]; [reflexivity|].
    rewrite lookup_empty. reflexivity.
Qed.

Lemma lru_find_remove_other (k k' : Key) (c : list (Key * AnyDecimal)) :
  k <> k' -> lru_find k' (lru_remove k c) = lru_find k' c.
Proof.
  intros Hne. induction c as [|[k0 v0] c IH]; [reflexivity|]. simpl.
  destruct (key_eqb k0 k) eqn:Hk.
  - apply key_eqb_eq in Hk. subst k0.
    apply key_eqb_neq in Hne. rewrite Hne. reflexivity.
  - simpl. rewrite IH. reflexivity.
Qed.

Lemma lru_find_removelast (k : Key) (v : AnyDecimal) (c : list (Key * AnyDecimal)) :
  lru_find k (removelast c) = Some v -> lru_find k c = Some v.
Proof.
  induction c as [|[k0 v0] c IH]; [discriminate|].
  destruct c as [|e c']; [discriminate|].
  change (removelast ((k0, v0) :: e :: c')) with ((k0, v0) :: removelast (e :: c')).
  cbn [lru_find]. destruct (key_eqb k0 k); [auto|]. exact IH.
Qed.

Lemma lru_find_store_other (k k' : Key) (r v : AnyDecimal) (c : list (Key * AnyDecimal)) :
  k <> k' -> lru_find k' (lru_store k r c) = Some v -> lru_find k' c = Some v.
Proof.
  intros Hne. apply key_eqb_neq in Hne. unfold lru_store.
  destruct (_ <? _)%nat; cbn [lru_find]; rewrite Hne; [auto|].
  apply lru_find_removelast.
Qed.

Lemma usable_rate_Some (o : option AnyDecimal) (r : AnyDecimal) :
  usable_rate o = Some r -> o = Some r /\ Any.truthy r = true.
Proof.
  destruct o as [r'|]; [|discriminate]. simpl.
  destruct (Any.truthy r') eqn:Ht; [|discriminate]. intros [= <-]. auto.
Qed.

Lemma consistent_initial : consistent initial_globals.
Proof. intros k v H. discriminate. Qed.

Section Caches.

Variable api : nat -> Key -> HttpOutcome.

(** Every lookup keeps the [lru_cache] in step with [exchange_rates]. *)
Lemma consistent_get_exchange_rate (g : Globals) (k : Key) :
  consistent g -> consistent (snd (get_exchange_rate api g k)).
Proof.
  intros Hc k' v.
  destruct (get_exchange_rate_cases g k) as [[r Hh]|[[Hn [r Hd]]|[Hn Hd]]].
  - rewrite (get_exchange_rate_hit api g k r Hh). cbn [snd lru exchange_rates].
    destruct (decide (k = k')) as [<-|Hne].
    + rewrite lru_find_head. intros [= <-]. apply Hc. exact Hh.
    + cbn [lru_find]. pose proof Hne as Hne'. apply key_eqb_neq in Hne'. rewrite Hne'.
      rewrite lru_find_remove_other by assumption. apply Hc.
  - rewrite (get_exchange_rate_cached api g k r Hn Hd). cbn [snd lru exchange_rates].
    destruct (decide (k = k')) as [<-|Hne].
    + rewrite lru_find_store. intros [= <-]. apply usable_rate_Some in Hd. tauto.
    + intros H. apply Hc. eapply lru_find_store_other; eassumption.
  - rewrite (get_exchange_rate_miss api g k Hn Hd).
    destruct (parse_response _ _) as [rate|e]; cbn [snd lru exchange_rates].
    + destruct (decide (k = k')) as [<-|Hne].
      * rewrite lru_find_store. intros [= <-]. apply cached_rate_store_same.
      * intros H. rewrite cached_rate_store_other by assumption.
        apply Hc. eapply lru_find_store_other; eassumption.
    + unfold after_failed_fetch. cbn [lru exchange_rates]. apply Hc.
Qed.

Lemma consistent_lookups (g : Globals) (ks : list Key) :
  consistent g -> consistent (lookups api g ks).
Proof.
  revert g. induction ks as [|k ks IH]; intros g Hc; [exact Hc|].
  cbn [lookups]. apply IH. apply consistent_get_exchange_rate. exact Hc.
Qed.

Lemma occurrences_app (k : Key) (l1 l2 : list Key) :
  occurrences k (l1 ++ l2) = (occurrences k l1 + occurrences k l2)%nat.
Proof. unfold occurrences. rewrite List.filter_app, length_app. reflexivity. Qed.

Lemma occurrences_other (k k' : Key) : k <> k' -> occurrences k [k'] = 0%nat.
Proof.
  intros Hne. apply key_eqb_neq in Hne. unfold occurrences. simpl. rewrite Hne.
  reflexivity.
Qed.

(** One lookup, of any key, in a state that holds a non-zero rate for [k]:
    the rate stays, a lookup of [k] returns it, and no request for [k] is
    made. *)
Lemma cached_step (g : Globals) (k k' : Key) (r : AnyDecimal) :
  consistent g ->
  cached_rate (exchange_rates g) k = Some r -> Any.truthy r = true ->
  let g1 := snd (get_exchange_rate api g k') in
  cached_rate (exchange_rates g1) k = Some r
  /\ occurrences k (fetched g1) = occurrences k (fetched g)
  /\ (k' = k -> fst (get_exchange_rate api g k') = Ok r).
Proof.
  intros Hc Hk Ht.
  assert (Hus : usable_rate (cached_rate (exchange_rates g) k) = Some r).
  { rewrite Hk. simpl. rewrite Ht. reflexivity. }
  destruct (get_exchange_rate_cases g k') as [[r' Hh]|[[Hn [r' Hd]]|[Hn Hd]]].
  - rewrite (get_exchange_rate_hit api g k' r' Hh). cbn.
    split; [exact Hk|]. split; [reflexivity|].
    intros ->. apply Hc in Hh. congruence.
  - rewrite (get_exchange_rate_cached api g k' r' Hn Hd). cbn.
    split; [exact Hk|]. split; [reflexivity|].
    intros ->. congruence.
  - assert (Hne : k' <> k) by (intros ->; congruence).
    rewrite (get_exchange_rate_miss api g k' Hn Hd).
    destruct (parse_response _ _) as [rate|e]; cbn [fst snd exchange_rates fetched];
      unfold after_failed_fetch; cbn [exchange_rates fetched];
      rewrite occurrences_app, occurrences_other by congruence.
    + rewrite cached_rate_store_other by assumption.
      split; [exact Hk|]. split; [lia|]. intros; contradiction.
    + split; [exact Hk|]. split; [lia|]. intros; contradiction.
Qed.

End Caches.

(** C3. Once [exchange_rates] holds a non-zero rate for a key, as it does
    after a fetch for the key returned one, no run of lookups (of this key
    and of any others, in any number) makes a request for the key again:
    the entry is never removed nor replaced, every lookup of the key
    returns it, and the log of requests gains no entry for the key. *)
Theorem cached_rate_never_refetched (api : nat -> Key -> HttpOutcome) (g : Globals)
    (k : Key) (r : AnyDecimal) (ks : list Key) :
  consistent g ->
  cached_rate (exchange_rates g) k = Some r ->
  Any.truthy r = true ->
  let g' := lookups api g ks in
  cached_rate (exchange_rates g') k = Some r
  /\ occurrences k (fetched g') = occurrences k (fetched g)
  /\ fst (get_exchange_rate api g' k) = Ok r
  /\ consistent g'.
Proof.
  revert g. induction ks as [|k' ks IH]; intros g Hc Hk Ht.
  - cbn [lookups]. cbv zeta.
    destruct (cached_step api g k k r Hc Hk Ht) as [_ [_ Hret]].
    split; [exact Hk|]. split; [reflexivity|]. split; [auto|exact Hc].
  - cbn [lookups]. cbv zeta.
    destruct (cached_step api g k k' r Hc Hk Ht) as [Hk1 [Hocc _]].
    pose proof (consistent_get_exchange_rate api g k' Hc) as Hc1.
    destruct (IH _ Hc1 Hk1 Ht) as [Hk2 [Hocc2 [Hret Hc2]]].
    split; [exact Hk2|]. split; [congruence|]. split; [exact Hret|exact Hc2].
Qed.

(** A lookup that returned a non-zero rate leaves it in [exchange_rates]. *)
Lemma returned_rate_is_cached (api : nat -> Key -> HttpOutcome) (g g1 : Globals)
    (k : Key) (r : AnyDecimal) :
  consistent g -> get_exchange_rate api g k = (Ok r, g1) ->
  cached_rate (exchange_rates g1) k = Some r /\ consistent g1.
Proof.
  intros Hc Hget.
  pose proof (consistent_get_exchange_rate api g k Hc) as Hc1.
  rewrite Hget in Hc1. cbn [snd] in Hc1. split; [|exact Hc1].
  apply Hc1. eapply get_exchange_rate_ok. exact Hget.
Qed.

Lemma cached_rate_never_refetched_witness :
  let g := lookups api_quarter initial_globals [("USD", "CAD", 738610)] in
  let g' := lookups api_quarter g [("USD", "CAD", 738610); ("EUR", "CAD", 738610);
                                   ("USD", "CAD", 738610)] in
  cached_rate (exchange_rates g') ("USD", "CAD", 738610) = Some (Finite (Dec.mk 25 (-2)))
  /\ occurrences ("USD", "CAD", 738610) (fetched g') = 1%nat
  /\ fst (get_exchange_rate api_quarter g' ("USD", "CAD", 738610)) = Ok (Finite (Dec.mk 25 (-2)))
  /\ consistent g'.
Proof.
  intros g g'.
  apply (cached_rate_never_refetched api_quarter g ("USD", "CAD", 738610)
           (Dec.mk 25 (-2))
           [("USD", "CAD", 738610); ("EUR", "CAD", 738610); ("USD", "CAD", 738610)]).
  - apply consistent_lookups. exact consistent_initial.
  - reflexivity.
  - reflexivity.
Defined.

(** While the source is down every lookup of a key makes a request for it:
    two lookups, two requests. *)
Lemma fetch_repeated_counterexample :
  fetched (lookups api_down initial_globals
             [("USD", "CAD", 738610); ("USD", "CAD", 738610)])
  = [("USD", "CAD", 738610); ("USD", "CAD", 738610)].
Proof. reflexivity. Qed.

(** A rate of zero is stored but never read back: once a hundred other keys
    have pushed the key out of the [lru_cache], its next lookup makes a
    second request. *)
Lemma zero_rate_fetched_again :
  let k := ("EUR", "USD", 738610) in
  let g := lookups api_zero initial_globals ((k :: other_dates) ++ [k]) in
  cached_rate (exchange_rates g) k = Some (Finite (Dec.of_int 0))
  /\ occurrences k (fetched g) = 2%nat.
Proof. vm_compute. split; reflexivity. Qed.

(** ** Dictionaries *)

Lemma dict_get_set_same {V : Type} (d : pydict V) (k : string) (v : V) :
  dict_get (dict_set d k v) k = Some v.
Proof.
  induction d as [|[k' v'] d IH]; simpl.
  - rewrite String.eqb_refl. reflexivity.
  - destruct (String.eqb k' k) eqn:Hk; simpl; rewrite Hk; [reflexivity|exact IH].
Qed.

Lemma dict_get_set_other {V : Type} (d : pydict V) (k k' : string) (v : V) :
  k <> k' -> dict_get (dict_set d k v) k' = dict_get d k'.
Proof.
  intros Hne. induction d as [|[k0 v0] d IH]; simpl.
  - apply String.eqb_neq in Hne. rewrite Hne. reflexivity.
  - destruct (String.eqb k0 k) eqn:Hk; simpl.
    + apply String.eqb_eq in Hk. subst k0.
      apply String.eqb_neq in Hne. rewrite Hne. reflexivity.
    + destruct (String.eqb k0 k'); [reflexivity|exact IH].
Qed.

(** ** data_transformation.py: the fan-out *)

Lemma monetary_fields_NoDup : List.NoDup monetary_fields.
Proof.
  unfold monetary_fields.
  repeat (constructor; [cbn; intuition discriminate|]). constructor.
Qed.

Lemma monetary_field_not_rate (f : string) :
  In f monetary_fields -> "exchange_rate_used" <> f.
Proof. intros H <-. cbn in H. intuition discriminate. Qed.

Lemma await_value_raises {A B : Type} (r : result A * Globals) :
  exists e, fst (@await_value A B r) = Raise e.
Proof. destruct r as [[v|e] g]; cbn; eauto. Qed.

Lemma await_value_globals {A B : Type} (r : result A * Globals) :
  snd (@await_value A B r) = snd r.
Proof. destruct r as [[v|e] g]; reflexivity. Qed.

Lemma copy_fields_spec (input_metrics : MetricsInput.t) (fields : list string) :
  forall acc rec,
    List.NoDup fields ->
    copy_fields input_metrics fields acc = Ok rec ->
    (forall f, In f fields ->
               exists v, getattr input_metrics f = Ok v /\ dict_get rec f = Some v)
    /\ (forall f, ~ In f fields -> dict_get rec f = dict_get acc f).
Proof.
  induction fields as [|field rest IH]; intros acc rec Hnd Hrun.
  - cbn in Hrun. injection Hrun as <-. split; [intros f []|auto].
  - inversion Hnd as [|? ? Hnotin Hnd']; subst.
    cbn [copy_fields] in Hrun.
    destruct (getattr input_metrics field) as [v|e] eqn:Hattr; [|discriminate].
    cbn [bind] in Hrun. destruct (IH _ _ Hnd' Hrun) as [Hall Hrest]. split.
    + intros f [<-|Hin]; [|auto]. exists v. split; [exact Hattr|].
      rewrite (Hrest field Hnotin). apply dict_get_set_same.
    + intros f Hf. rewrite Hrest by (intros Hin; apply Hf; right; exact Hin).
      apply dict_get_set_other. intros ->. apply Hf. left. reflexivity.
Qed.

(** Reading a monetary column never raises. *)
Lemma getattr_monetary (input_metrics : MetricsInput.t) (f : string) :
  In f monetary_fields -> exists v, getattr input_metrics f = Ok v.
Proof.
  intros Hin. cbn in Hin.
  repeat (destruct Hin as [<-|Hin]; [eexists; reflexivity|]). destruct Hin.
Qed.

Lemma copy_fields_returns (input_metrics : MetricsInput.t) (fields : list string) :
  forall acc,
    (forall f, In f fields -> In f monetary_fields) ->
    exists rec, copy_fields input_metrics fields acc = Ok rec.
Proof.
  induction fields as [|field rest IH]; intros acc Hsub; [cbn; eauto|].
  cbn [copy_fields].
  destruct (getattr_monetary input_metrics field (Hsub field ltac:(left; reflexivity)))
    as [v ->].
  cbn [bind]. apply IH. intros f Hin. apply Hsub. right. exact Hin.
Qed.

(** The targets up to the first that is not the source currency. *)
Lemma targets_split (source_currency : string) (targets : list string) :
  (forall t, In t targets -> t = source_currency)
  \/ exists natives t rest,
       targets = natives ++ t :: rest
       /\ (forall c, In c natives -> c = source_currency)
       /\ t <> source_currency.
Proof.
  induction targets as [|t rest IH]; [left; intros t []|].
  destruct (String.eqb_spec t source_currency) as [->|Hne].
  - destruct IH as [Hall|[natives [t' [rest' [-> [Hnat Hne]]]]]].
    + left. intros t [<-|Hin]; auto.
    + right. exists (source_currency :: natives), t', rest'.
      split; [reflexivity|]. split; [|exact Hne].
      intros c [<-|Hin]; auto.
  - right. exists [], t, rest. split; [reflexivity|]. split; [intros c []|exact Hne].
Qed.

Section FanOut.

Variable api : nat -> Key -> HttpOutcome.
Variable input_metrics : MetricsInput.t.

Let source_currency := MetricsInput.currency input_metrics.
Let conversion_date := MetricsInput.fiscal_reporting_date input_metrics.

(** The loop over the monetary fields ends at the first of them: the
    conversion of [total_revenue] is awaited. *)
Lemma convert_fields_first (g : Globals) (target_currency : string)
    (acc : pydict (option Decimal)) :
  convert_fields api g input_metrics target_currency monetary_fields acc
  = await_value (convert_currency api g (MetricsInput.total_revenue input_metrics)
                   source_currency target_currency conversion_date).
Proof.
  unfold monetary_fields. cbn [convert_fields getattr String.eqb Ascii.eqb Bool.eqb].
  fold source_currency conversion_date.
  destruct (convert_currency api g (MetricsInput.total_revenue input_metrics)
              source_currency target_currency conversion_date) as [[v|e] g1];
    reflexivity.
Qed.

(** A target that is the source currency copies the input and touches no
    global. *)
Lemma convert_targets_native_step (g : Globals) (rest : list string)
    (acc : pydict (pydict (option Decimal))) :
  exists fields,
    copy_fields input_metrics monetary_fields
                (default [] (dict_get acc source_currency)) = Ok fields
    /\ convert_targets api g input_metrics (source_currency :: rest) acc
       = convert_targets api g input_metrics rest
           (dict_set acc source_currency
              (dict_set fields "exchange_rate_used" (Some (Dec.mk 10 (-1))))).
Proof.
  destruct (copy_fields_returns input_metrics monetary_fields
              (default [] (dict_get acc source_currency)) (fun f H => H))
    as [fields Hcopy].
  exists fields. split; [exact Hcopy|].
  cbn [convert_targets]. fold source_currency.
  rewrite String.eqb_refl. cbn [negb]. rewrite Hcopy. reflexivity.
Qed.

(** The fan-out ends at the first target that is not the source currency:
    what it gives is the awaited conversion of [total_revenue]. *)
Lemma convert_targets_foreign (natives : list string) (t : string) (rest : list string) :
  (forall c, In c natives -> c = source_currency) ->
  t <> source_currency ->
  forall (g : Globals) (acc : pydict (pydict (option Decimal))),
    convert_targets api g input_metrics (natives ++ t :: rest) acc
    = await_value (convert_currency api g (MetricsInput.total_revenue input_metrics)
                     source_currency t conversion_date).
Proof.
  intros Hnat Hne. induction natives as [|c natives IH]; intros g acc.
  - cbn [app convert_targets]. fold source_currency conversion_date.
    apply String.eqb_neq in Hne. rewrite Hne. cbn [negb].
    rewrite convert_fields_first.
    destruct (convert_currency api g (MetricsInput.total_revenue input_metrics)
                source_currency t conversion_date) as [[v|e] g1]; reflexivity.
  - rewrite (Hnat c ltac:(left; reflexivity)). cbn [app].
    destruct (convert_targets_native_step g (natives ++ t :: rest) acc)
      as [fields [_ ->]].
    apply IH. intros c' Hin. apply Hnat. right. exact Hin.
Qed.

End FanOut.

Lemma convert_currency_looked_up (api : nat -> Key -> HttpOutcome) (g : Globals)
    (amount : Decimal) (from_currency to_currency : string) (d : date) :
  from_currency <> to_currency ->
  snd (convert_currency api g amount from_currency to_currency d)
  = snd (get_exchange_rate api g (from_currency, to_currency, d)).
Proof.
  intros Hne. unfold convert_currency. apply String.eqb_neq in Hne. rewrite Hne.
  destruct (get_exchange_rate api g (from_currency, to_currency, d)) as [[r|e] g1];
    reflexivity.
Qed.

Lemma get_exchange_rate_looked_up (api : nat -> Key -> HttpOutcome) (g : Globals)
    (k : Key) :
  looked_up (snd (get_exchange_rate api g k)) = looked_up g ++ [k]
  /\ (length (fetched (snd (get_exchange_rate api g k))) <= length (fetched g) + 1)%nat.
Proof.
  destruct (get_exchange_rate api g k) as [[r|e] g1] eqn:Hget; cbn [snd].
  - destruct (get_exchange_rate_ok api g g1 k r Hget) as [_ [Hlog [Hf|Hf]]];
      rewrite Hf; [split; [exact Hlog|lia]|].
    split; [exact Hlog|]. rewrite length_app. cbn. lia.
  - destruct (get_exchange_rate_raise api g g1 k e Hget) as [-> _].
    cbn [after_failed_fetch looked_up fetched]. split; [reflexivity|].
    rewrite length_app. cbn. lia.
Qed.

(** C4. A fan-out with a target that is not the source currency never
    returns. Targets that are the source currency are copied; at the
    first other target the conversion of [total_revenue] is called, which
    looks the rate up once, and what [convert_currency], a plain function,
    returns is awaited: a [TypeError]. When the lookup or the arithmetic
    raises, that exception leaves instead. No record of a converted
    currency is ever built, and no second lookup made. *)
Theorem fan_out_to_another_currency_raises (api : nat -> Key -> HttpOutcome)
    (g : Globals) (input_metrics : MetricsInput.t)
    (natives : list string) (target_currency : string) (rest : list string) :
  (forall c, In c natives -> c = MetricsInput.currency input_metrics) ->
  target_currency <> MetricsInput.currency input_metrics ->
  let r := convert_financials api g input_metrics (natives ++ target_currency :: rest) in
  let k := (MetricsInput.currency input_metrics, target_currency,
            MetricsInput.fiscal_reporting_date input_metrics) in
  (exists e, fst r = Raise e)
  /\ looked_up (snd r) = looked_up g ++ [k]
  /\ (length (fetched (snd r)) <= length (fetched g) + 1)%nat
  /\ (forall rate g1 converted_value,
        get_exchange_rate api g k = (Ok rate, g1) ->
        (let* converted_amount :=
           Any.mul (MetricsInput.total_revenue input_metrics) rate in
         Any.round converted_amount 2) = Ok converted_value ->
        r = (Raise TypeError, g1))
  /\ (forall e g1, get_exchange_rate api g k = (Raise e, g1) -> r = (Raise e, g1)).
Proof.
  intros Hnat Hne r k. subst r. unfold convert_financials.
  rewrite (convert_targets_foreign api input_metrics natives target_currency rest
             Hnat Hne).
  assert (Hne' : MetricsInput.currency input_metrics <> target_currency) by congruence.
  split; [apply await_value_raises|].
  rewrite await_value_globals, (convert_currency_looked_up api _ _ _ _ _ Hne').
  fold k. destruct (get_exchange_rate_looked_up api g k) as [Hlog Hfetch].
  split; [exact Hlog|]. split; [exact Hfetch|].
  unfold convert_currency. apply String.eqb_neq in Hne'. rewrite Hne'. fold k.
  split.
  - intros rate g1 v Hget Hv. rewrite Hget, Hv. reflexivity.
  - intros e g1 Hget. rewrite Hget. reflexivity.
Qed.

Lemma fan_out_to_another_currency_raises_witness :
  let r := convert_financials api_quotes initial_globals usd_input ["USD"; "CAD"] in
  fst r = Raise TypeError
  /\ looked_up (snd r) = [("USD", "CAD", 738610)].
Proof.
  intros r.
  destruct (fan_out_to_another_currency_raises api_quotes initial_globals usd_input
              ["USD"] "CAD" [])
    as [_ [Hlog [_ [Hok _]]]].
  - intros c [<-|[]]. reflexivity.
  - discriminate.
  - split; [|exact Hlog].
    change (fst r) with
      (fst (convert_financials api_quotes initial_globals usd_input (["USD"] ++ ["CAD"]))).
    rewrite (Hok (Finite (Dec.mk 125 (-2)))
                 (snd (get_exchange_rate api_quotes initial_globals
                         ("USD", "CAD", 738610)))
                 (Finite (Dec.mk 125000000 (-2))));
      [reflexivity|vm_compute; reflexivity|vm_compute; reflexivity].
Defined.

(** ** The leading digit through the arithmetic *)

Lemma ndigits_pow10 (k : Z) : 0 <= k -> Dec.ndigits (10 ^ k) = k + 1.
Proof.
  intros Hk. apply Z.le_antisymm.
  - apply ndigits_le; [|lia]. split; [apply Z.lt_le_incl, pow10_pos; lia|].
    apply pow10_lt. lia.
  - apply ndigits_ge; [lia|]. replace (k + 1 - 1) with k by lia. lia.
Qed.

(** A number with [k] digits exactly. *)
Lemma ndigits_eq (n k : Z) :
  1 <= k -> 10 ^ (k - 1) <= n < 10 ^ k -> Dec.ndigits n = k.
Proof.
  intros Hk [Hlo Hhi]. pose proof (pow10_pos (k - 1) ltac:(lia)).
  apply Z.le_antisymm; [apply ndigits_le; lia | apply ndigits_ge; lia].
Qed.

Lemma sgn_mul_nonzero (c q : Z) : c <> 0 -> q <> 0 -> Z.sgn c * q <> 0.
Proof. intros. destruct c; simpl; lia. Qed.

(** Rounding to the precision keeps a non-zero decimal non-zero and moves
    its leading digit up by one place at most. *)
Lemma fix_top (d : Decimal) :
  Dec.coef d <> 0 ->
  Dec.coef (Dec.fix_ d) <> 0 /\ top d <= top (Dec.fix_ d) <= top d + 1.
Proof.
  intros Hc. unfold Dec.fix_.
  set (n := Z.abs (Dec.coef d)). set (nd := Dec.ndigits n).
  destruct (Z.leb_spec nd Dec.prec) as [Hle|Hgt]; [split; [assumption|lia]|].
  unfold Dec.prec in *.
  assert (Hn : 0 < n) by (unfold n; lia).
  destruct (ndigits_spec n Hn) as [Hlo Hhi]. fold nd in Hlo, Hhi.
  set (k := nd - 28) in *.
  pose proof (pow10_pos k ltac:(lia)) as Hp.
  pose proof (round_half_even_bounds n k ltac:(lia) ltac:(lia)) as [Hq1 Hq2].
  set (q := Dec.round_half_even n k) in *.
  assert (Hdlo : 10 ^ 27 <= n / 10 ^ k).
  { apply Z.div_le_lower_bound; [lia|]. rewrite <- Z.pow_add_r by lia.
    replace (k + 27) with (nd - 1) by lia. exact Hlo. }
  assert (Hdhi : n / 10 ^ k < 10 ^ 28).
  { apply Z.div_lt_upper_bound; [lia|]. rewrite <- Z.pow_add_r by lia.
    replace (k + 28) with nd by lia. exact Hhi. }
  assert (H27 : 0 < 10 ^ 27) by (apply pow10_pos; lia).
  destruct (Z.gtb_spec (Dec.ndigits q) 28) as [Hcarry|Hfit].
  - assert (Hq : q = 10 ^ 28).
    { destruct (Z_lt_le_dec q (10 ^ 28)) as [Hlt|Hge]; [|lia].
      pose proof (ndigits_le q 28 ltac:(lia) ltac:(lia)). lia. }
    rewrite Hq. change (10 ^ 28 / 10) with (10 ^ 27).
    unfold top. cbn [Dec.coef Dec.exp].
    rewrite abs_sgn_mul by assumption. rewrite (Z.abs_eq (10 ^ 27)) by lia.
    rewrite ndigits_pow10 by lia. fold n nd.
    split; [apply sgn_mul_nonzero; lia|]. unfold k. lia.
  - unfold top. cbn [Dec.coef Dec.exp].
    rewrite abs_sgn_mul by assumption. rewrite (Z.abs_eq q) by lia. fold n nd.
    assert (Hndq : Dec.ndigits q = 28).
    { apply Z.le_antisymm; [lia|]. apply ndigits_ge; [lia|]. simpl Z.sub. lia. }
    rewrite Hndq. split; [apply sgn_mul_nonzero; lia|]. unfold k. lia.
Qed.

Lemma fix_zero (d : Decimal) : Dec.coef d = 0 -> Dec.fix_ d = d.
Proof. intros H. apply fix_small. rewrite H. unfold Dec.prec. simpl. lia. Qed.

(** The digits of a product. *)
Lemma ndigits_mul (a b : Z) :
  0 < a -> 0 < b ->
  Dec.ndigits a + Dec.ndigits b - 1 <= Dec.ndigits (a * b)
  <= Dec.ndigits a + Dec.ndigits b.
Proof.
  intros Ha Hb.
  destruct (ndigits_spec a Ha) as [Hla Hha]. destruct (ndigits_spec b Hb) as [Hlb Hhb].
  pose proof (ndigits_pos a). pose proof (ndigits_pos b).
  pose proof (pow10_pos (Dec.ndigits a - 1) ltac:(lia)).
  pose proof (pow10_pos (Dec.ndigits b - 1) ltac:(lia)).
  split.
  - apply ndigits_ge; [lia|].
    replace (Dec.ndigits a + Dec.ndigits b - 1 - 1)
      with ((Dec.ndigits a - 1) + (Dec.ndigits b - 1)) by lia.
    rewrite Z.pow_add_r by lia. nia.
  - apply ndigits_le; [|lia]. rewrite Z.pow_add_r by lia. nia.
Qed.

Lemma mul_top (a b : Decimal) :
  Dec.coef a <> 0 -> Dec.coef b <> 0 ->
  Dec.coef (Dec.mul a b) <> 0
  /\ top a + top b - 1 <= top (Dec.mul a b) <= top a + top b + 1.
Proof.
  intros Ha Hb. unfold Dec.mul.
  assert (Hc : Dec.coef (Dec.mk (Dec.coef a * Dec.coef b) (Dec.exp a + Dec.exp b)) <> 0)
    by (cbn; nia).
  destruct (fix_top _ Hc) as [Hnz [Hlo Hhi]]. split; [exact Hnz|].
  pose proof (ndigits_mul (Z.abs (Dec.coef a)) (Z.abs (Dec.coef b)) ltac:(lia) ltac:(lia))
    as [Hm1 Hm2].
  unfold top in *. cbn [Dec.coef Dec.exp] in *. rewrite Z.abs_mul in *. lia.
Qed.

Lemma mul_zero (a b : Decimal) :
  Dec.coef a = 0 \/ Dec.coef b = 0 -> Dec.coef (Dec.mul a b) = 0.
Proof.
  intros H. unfold Dec.mul. rewrite fix_zero; cbn; destruct H as [-> | ->]; lia.
Qed.

(** Dropping a trailing zero drops a digit. *)
Lemma ndigits_div10 (c : Z) :
  0 < c -> c mod 10 = 0 -> 0 < c / 10 /\ Dec.ndigits (c / 10) = Dec.ndigits c - 1.
Proof.
  intros Hc Hm. pose proof (Z.div_mod c 10 ltac:(lia)) as Hdm.
  assert (Hq : 0 < c / 10) by lia. split; [exact Hq|].
  destruct (ndigits_spec c Hc) as [Hlo Hhi].
  assert (H2 : 2 <= Dec.ndigits c) by (apply ndigits_ge; simpl; lia).
  set (m := Dec.ndigits c - 2).
  assert (E1 : 10 ^ (Dec.ndigits c - 1) = 10 * 10 ^ m).
  { replace (Dec.ndigits c - 1) with (m + 1) by (unfold m; lia).
    apply pow10_succ. unfold m; lia. }
  assert (E2 : 10 ^ Dec.ndigits c = 10 * (10 * 10 ^ m)).
  { replace (Dec.ndigits c) with (m + 1 + 1) at 1 by (unfold m; lia).
    rewrite !pow10_succ by (unfold m; lia). reflexivity. }
  apply ndigits_eq; [lia|].
  replace (Dec.ndigits c - 1 - 1) with m by (unfold m; lia).
  rewrite E1. lia.
Qed.

Lemma strip_zeros_top (fuel : nat) (c e ideal : Z) :
  0 < c ->
  0 < fst (Dec.strip_zeros fuel c e ideal)
  /\ Dec.ndigits (fst (Dec.strip_zeros fuel c e ideal))
     + snd (Dec.strip_zeros fuel c e ideal)
     = Dec.ndigits c + e.
Proof.
  revert c e. induction fuel as [|f IH]; intros c e Hc; [cbn; auto|].
  cbn [Dec.strip_zeros].
  destruct (e <? ideal); cbn [andb]; [|cbn; auto].
  destruct (Z.eqb_spec (c mod 10) 0) as [Hm|Hm]; [|cbn; auto].
  destruct (ndigits_div10 c Hc Hm) as [Hq Hnd].
  destruct (IH (c / 10) (e + 1) Hq) as [Hpos Htop]. split; [exact Hpos|lia].
Qed.

(** The quotient of two non-zero decimals is non-zero and its leading
    digit is where the difference of the leading digits puts it, up to two
    places. *)
Lemma div_top (a b : Decimal) :
  Dec.coef a <> 0 -> Dec.coef b <> 0 ->
  exists q, Dec.div a b = Ok q /\ Dec.coef q <> 0
            /\ top a - top b <= top q <= top a - top b + 2.
Proof.
  intros Ha Hb. unfold Dec.div.
  assert (Hza : Dec.is_zero a = false) by (apply Z.eqb_neq; exact Ha).
  assert (Hzb : Dec.is_zero b = false) by (apply Z.eqb_neq; exact Hb).
  rewrite Hza, Hzb. unfold Dec.prec.
  set (n1 := Z.abs (Dec.coef a)). set (n2 := Z.abs (Dec.coef b)).
  assert (Hn1 : 0 < n1) by (unfold n1; lia).
  assert (Hn2 : 0 < n2) by (unfold n2; lia).
  destruct (ndigits_spec n1 Hn1) as [Hl1 Hh1].
  destruct (ndigits_spec n2 Hn2) as [Hl2 Hh2].
  pose proof (ndigits_pos n1) as Hd1. pose proof (ndigits_pos n2) as Hd2.
  set (d1 := Dec.ndigits n1) in *. set (d2 := Dec.ndigits n2) in *.
  set (shift := d2 - d1 + 28 + 1).
  set (sign := Z.sgn (Dec.coef a) * Z.sgn (Dec.coef b)).
  assert (Hsign : forall c, 0 < c -> sign * c <> 0 /\ Z.abs (sign * c) = c).
  { intros c Hc. unfold sign. destruct (Dec.coef a), (Dec.coef b); simpl; lia. }
  (* the quotient has 29 or 30 digits *)
  assert (Hq : exists q r,
             (if 0 <=? shift
              then (n1 * 10 ^ shift / n2, (n1 * 10 ^ shift) mod n2)
              else (n1 / (n2 * 10 ^ (- shift)), n1 mod (n2 * 10 ^ (- shift))))
             = (q, r)
             /\ 10 ^ 28 <= q < 10 ^ 30).
  { destruct (Z.leb_spec 0 shift) as [Hs|Hs].
    - eexists _, _. split; [reflexivity|].
      pose proof (pow10_pos (d2 - 1) ltac:(lia)) as Hp2.
      pose proof (pow10_pos shift Hs) as Hps.
      split.
      + apply Z.div_le_lower_bound; [lia|].
        assert (H : 10 ^ (d1 - 1) * 10 ^ shift = 10 ^ d2 * 10 ^ 28).
        { rewrite <- !Z.pow_add_r by lia. f_equal. unfold shift. lia. }
        assert (0 < 10 ^ 28) by (apply pow10_pos; lia).
        nia.
      + apply Z.div_lt_upper_bound; [lia|].
        assert (H : 10 ^ d1 * 10 ^ shift = 10 ^ (d2 - 1) * 10 ^ 30).
        { rewrite <- !Z.pow_add_r by lia. f_equal. unfold shift. lia. }
        assert (0 < 10 ^ 30) by (apply pow10_pos; lia).
        nia.
    - eexists _, _. split; [reflexivity|].
      pose proof (pow10_pos (- shift) ltac:(lia)) as Hps.
      pose proof (pow10_pos (d2 - 1) ltac:(lia)) as Hp2.
      assert (Hden : 0 < n2 * 10 ^ (- shift)) by nia.
      split.
      + apply Z.div_le_lower_bound; [lia|].
        assert (H : 10 ^ d2 * 10 ^ (- shift) * 10 ^ 28 = 10 ^ (d1 - 1)).
        { rewrite <- !Z.pow_add_r by lia. f_equal. unfold shift. lia. }
        assert (0 < 10 ^ 28) by (apply pow10_pos; lia).
        nia.
      + apply Z.div_lt_upper_bound; [lia|].
        assert (H : 10 ^ (d2 - 1) * 10 ^ (- shift) * 10 ^ 30 = 10 ^ d1).
        { rewrite <- !Z.pow_add_r by lia. f_equal. unfold shift. lia. }
        assert (0 < 10 ^ 30) by (apply pow10_pos; lia).
        nia. }
  destruct Hq as [q [r [-> [Hqlo Hqhi]]]].
  assert (H28 : 0 < 10 ^ 28) by (apply pow10_pos; lia).
  set (e := Dec.exp a - Dec.exp b - shift).
  (* the coefficient before the final rounding *)
  assert (Hc : exists c e',
             (if r =? 0
              then Dec.strip_zeros (Z.to_nat (Dec.exp a - Dec.exp b - e)) q e
                                   (Dec.exp a - Dec.exp b)
              else (if q mod 5 =? 0 then q + 1 else q, e))
             = (c, e')
             /\ 0 < c /\ 29 + e <= Dec.ndigits c + e' <= 30 + e).
  { assert (Hndq : 29 <= Dec.ndigits q <= 30).
    { split; [apply ndigits_ge; simpl; lia | apply ndigits_le; lia]. }
    destruct (r =? 0).
    - destruct (strip_zeros_top (Z.to_nat (Dec.exp a - Dec.exp b - e)) q e
                  (Dec.exp a - Dec.exp b) ltac:(lia)) as [Hpos Htop].
      destruct (Dec.strip_zeros _ q e _) as [c e']. cbn [fst snd] in *.
      exists c, e'. split; [reflexivity|]. split; [exact Hpos|lia].
    - eexists _, _. split; [reflexivity|].
      destruct (Z.eqb_spec (q mod 5) 0) as [Hm|Hm]; [|split; lia].
      assert (Hq1 : q + 1 < 10 ^ 30).
      { pose proof (Z.div_mod q 5 ltac:(lia)) as Hdm.
        change (10 ^ 30) with (5 * 200000000000000000000000000000) in *. lia. }
      split; [lia|].
      assert (29 <= Dec.ndigits (q + 1) <= 30);
        [split; [apply ndigits_ge; simpl; lia | apply ndigits_le; lia]|lia]. }
  destruct Hc as [c [e' [-> [Hcpos Hctop]]]].
  destruct (Hsign c Hcpos) as [Hnz Habs].
  destruct (fix_top (Dec.mk (sign * c) e') Hnz) as [Hfnz [Hflo Hfhi]].
  eexists. split; [reflexivity|]. split; [exact Hfnz|].
  unfold top in Hflo, Hfhi |- *. cbn [Dec.coef Dec.exp] in Hflo, Hfhi.
  rewrite Habs in Hflo, Hfhi. fold n1 n2 d1 d2.
  unfold e, shift in Hctop. lia.
Qed.

Lemma div_zero_numerator (a b : Decimal) :
  Dec.coef a = 0 -> Dec.coef b <> 0 ->
  exists q, Dec.div a b = Ok q /\ Dec.coef q = 0.
Proof.
  intros Ha Hb. unfold Dec.div.
  assert (Hza : Dec.is_zero a = true) by (apply Z.eqb_eq; exact Ha).
  assert (Hzb : Dec.is_zero b = false) by (apply Z.eqb_neq; exact Hb).
  rewrite Hza, Hzb. eexists. split; [reflexivity|]. rewrite fix_zero; reflexivity.
Qed.

(** ** Sums of amounts *)

Lemma cents_add_exact (a b : Decimal) :
  -2 <= Dec.exp a -> -2 <= Dec.exp b ->
  -2 <= Dec.exp (Dec.add_exact a b)
  /\ cents (Dec.add_exact a b) = cents a + cents b.
Proof.
  intros Ha Hb. unfold Dec.add_exact, cents, Dec.coef_at. cbn [Dec.coef Dec.exp].
  set (e := Z.min (Dec.exp a) (Dec.exp b)).
  split; [unfold e; lia|].
  rewrite Z.mul_add_distr_r, <- !Z.mul_assoc, <- !Z.pow_add_r by (unfold e; lia).
  f_equal; f_equal; f_equal; lia.
Qed.

Lemma coef_le_cents (d : Decimal) :
  -2 <= Dec.exp d -> Z.abs (Dec.coef d) <= Z.abs (cents d).
Proof.
  intros Hd. unfold cents, Dec.coef_at. rewrite Z.abs_mul.
  pose proof (pow10_pos (Dec.exp d - -2) ltac:(lia)).
  rewrite (Z.abs_eq (10 ^ _)) by lia. nia.
Qed.

(** Adding two amounts whose sum has fewer than 28 digits is exact. *)
Lemma cents_add (a b : Decimal) :
  -2 <= Dec.exp a -> -2 <= Dec.exp b ->
  Z.abs (cents a + cents b) < 10 ^ 28 ->
  -2 <= Dec.exp (Dec.add a b) /\ cents (Dec.add a b) = cents a + cents b.
Proof.
  intros Ha Hb Hsmall. unfold Dec.add.
  destruct (cents_add_exact a b Ha Hb) as [He Hc].
  rewrite fix_small; [auto|].
  pose proof (coef_le_cents _ He). unfold Dec.prec. lia.
Qed.

Lemma fold_add_cents (ds : list Decimal) (acc : Decimal) :
  Forall numeric_15_2 ds -> -2 <= Dec.exp acc ->
  Z.abs (cents acc) + Z.of_nat (length ds) * 10 ^ 15 < 10 ^ 28 ->
  -2 <= Dec.exp (fold_left Dec.add ds acc)
  /\ cents (fold_left Dec.add ds acc) = cents acc + total (map cents ds)
  /\ Z.abs (cents (fold_left Dec.add ds acc))
     <= Z.abs (cents acc) + Z.of_nat (length ds) * 10 ^ 15.
Proof.
  revert acc. induction ds as [|d ds IH]; intros acc Hall Hacc Hbound.
  - cbn. split; [exact Hacc|]. split; lia.
  - inversion Hall as [|? ? [Hd1 Hd2] Hall']; subst.
    cbn [fold_left map total fold_right length] in *.
    rewrite Nat2Z.inj_succ in Hbound |- *.
    destruct (cents_add acc d Hacc Hd1 ltac:(lia)) as [He Hc].
    destruct (IH (Dec.add acc d) Hall' He ltac:(lia)) as [He' [Hc' Hb']].
    split; [exact He'|]. split; [unfold total in *; lia|lia].
Qed.

(** The built-in [sum] over at most a hundred column values is exact. *)
Lemma sum_exact (ds : list Decimal) :
  Forall numeric_15_2 ds -> (length ds <= 100)%nat ->
  -2 <= Dec.exp (sum ds)
  /\ cents (sum ds) = total (map cents ds)
  /\ Z.abs (cents (sum ds)) <= Z.of_nat (length ds) * 10 ^ 15.
Proof.
  intros Hall Hlen. unfold sum.
  destruct (fold_add_cents ds (Dec.of_int 0) Hall ltac:(cbn; lia)) as [He [Hc Hb]].
  { change (cents (Dec.of_int 0)) with 0. simpl Z.abs.
    assert (Z.of_nat (length ds) <= 100) by lia.
    change (10 ^ 28) with (10 ^ 13 * 10 ^ 15).
    assert (0 < 10 ^ 15) by (apply pow10_pos; lia).
    assert (100 < 10 ^ 13) by (simpl; lia). nia. }
  change (cents (Dec.of_int 0)) with 0 in *. simpl Z.abs in *.
  split; [exact He|]. split; lia.
Qed.

(** ** The helpers return on amounts *)

(** The leading digit of an amount of fewer than [m] digits in
    hundredths. *)
Lemma top_of_cents (d : Decimal) (m : Z) :
  -2 <= Dec.exp d -> Dec.coef d <> 0 -> Z.abs (cents d) < 10 ^ m ->
  -1 <= top d <= m - 2.
Proof.
  intros He Hc Hm. unfold top.
  pose proof (ndigits_pos (Z.abs (Dec.coef d))) as Hnd.
  split; [lia|].
  destruct (ndigits_spec (Z.abs (Dec.coef d)) ltac:(lia)) as [Hlo _].
  unfold cents, Dec.coef_at in Hm. rewrite Z.abs_mul in Hm.
  pose proof (pow10_pos (Dec.exp d - -2) ltac:(lia)) as Hp.
  rewrite (Z.abs_eq (10 ^ _)) in Hm by lia.
  set (nd := Dec.ndigits (Z.abs (Dec.coef d))) in *.
  assert (H : 10 ^ (nd - 1 + (Dec.exp d - -2)) < 10 ^ m).
  { rewrite Z.pow_add_r by lia. nia. }
  destruct (Z_lt_le_dec (nd - 1 + (Dec.exp d - -2)) m) as [|Hge]; [lia|].
  destruct (Z_le_gt_dec 0 m) as [Hm0|Hm0].
  - pose proof (pow10_le m (nd - 1 + (Dec.exp d - -2)) ltac:(lia)). lia.
  - rewrite (Z.pow_neg_r 10 m) in H by lia.
    pose proof (pow10_pos (nd - 1 + (Dec.exp d - -2)) ltac:(lia)). lia.
Qed.

(** A percentage of two decimals returns when their leading digits are at
    most nineteen places apart. *)
Lemma percentage_ok (value total_revenue : Decimal) :
  (Dec.coef value <> 0 -> Dec.coef total_revenue <> 0 ->
   top value - top total_revenue <= 19) ->
  exists p, calculate_percentage_of_revenue value total_revenue = Ok p.
Proof.
  intros Hb. unfold calculate_percentage_of_revenue.
  destruct (Dec.is_zero total_revenue) eqn:Hz; [eauto|].
  pose proof (is_zero_false _ Hz) as Ht.
  destruct (Z.eq_dec (Dec.coef value) 0) as [Hv|Hv].
  - destruct (div_zero_numerator value total_revenue Hv Ht) as [q [-> Hq]].
    cbn [bind]. apply quantize_ok. left. unfold Dec.is_zero.
    rewrite mul_zero by auto. reflexivity.
  - destruct (div_top value total_revenue Hv Ht) as [q [-> [Hq [_ Hhi]]]].
    cbn [bind]. apply quantize_ok. right.
    destruct (mul_top q (Dec.of_int 100) Hq ltac:(cbn; lia)) as [_ [_ Hm]].
    change (top (Dec.of_int 100)) with 3 in Hm. specialize (Hb Hv Ht). lia.
Qed.

(** ** metrics_calculation.py: the trailing twelve months *)

Lemma well_typed_columns (qs : list MetricsInput.t) (name : string)
    (proj : MetricsInput.t -> Decimal) :
  In (name, proj) ltm_sums -> Forall well_typed qs ->
  Forall numeric_15_2 (map proj qs).
Proof.
  intros Hin Hall. induction Hall as [|m qs Hm _ IH]; [constructor|].
  cbn [map]. constructor; [|exact IH].
  unfold well_typed in Hm. cbn in Hin.
  repeat (destruct Hin as [[= <- <-]|Hin]; [tauto|]). destruct Hin.
Qed.

(** A sum of four column values and its leading digit. *)
Lemma ltm_sum_top (ds : list Decimal) :
  Forall numeric_15_2 ds -> length ds = 4%nat ->
  -2 <= Dec.exp (sum ds)
  /\ cents (sum ds) = total (map cents ds)
  /\ (Dec.coef (sum ds) <> 0 -> -1 <= top (sum ds) <= 14).
Proof.
  intros Hall Hlen.
  destruct (sum_exact ds Hall ltac:(lia)) as [He [Hc Hb]].
  split; [exact He|]. split; [exact Hc|]. intros Hnz.
  apply (top_of_cents (sum ds) 16 He Hnz).
  rewrite Hlen in Hb. change (Z.of_nat 4) with 4 in Hb.
  change (10 ^ 16) with (10 * 10 ^ 15).
  assert (0 < 10 ^ 15) by (apply pow10_pos; lia). lia.
Qed.

(** Over four quarters of column values no sum is rounded and no margin
    raises. *)
Lemma calculate_ltm_metrics_on_columns (quarterly_metrics : list MetricsInput.t) :
  length quarterly_metrics = 4%nat ->
  Forall well_typed quarterly_metrics ->
  exists ltm,
    calculate_ltm_metrics quarterly_metrics = Ok ltm
    /\ forall name proj,
         In (name, proj) ltm_sums ->
         exists s, dict_get ltm name = Some s
                   /\ -2 <= Dec.exp s
                   /\ cents s = total (map (fun q => cents (proj q))
                                           quarterly_metrics).
Proof.
  intros Hlen Hall. unfold calculate_ltm_metrics.
  pose proof Hlen as Hlen'. apply Nat.eqb_eq in Hlen'.
  rewrite Hlen'. cbn [negb]. cbv zeta.
  assert (Hsum : forall name proj,
             In (name, proj) ltm_sums ->
             -2 <= Dec.exp (sum (map proj quarterly_metrics))
             /\ cents (sum (map proj quarterly_metrics))
                = total (map (fun q => cents (proj q)) quarterly_metrics)
             /\ (Dec.coef (sum (map proj quarterly_metrics)) <> 0 ->
                 -1 <= top (sum (map proj quarterly_metrics)) <= 14)).
  { intros name proj Hin.
    destruct (ltm_sum_top (map proj quarterly_metrics)
                (well_typed_columns _ name proj Hin Hall)
                ltac:(rewrite length_map; exact Hlen)) as [He [Hc Ht]].
    rewrite map_map in Hc. auto. }
  assert (Hrev := Hsum "ltm_total_revenue" MetricsInput.total_revenue
                    ltac:(cbn; auto)).
  assert (Hmargin : forall name proj,
             In (name, proj) ltm_sums ->
             exists p, calculate_percentage_of_revenue
                         (sum (map proj quarterly_metrics))
                         (sum (map MetricsInput.total_revenue quarterly_metrics))
                       = Ok p).
  { intros name proj Hin. apply percentage_ok. intros Hv Ht.
    destruct (Hsum name proj Hin) as [_ [_ Hv']].
    destruct Hrev as [_ [_ Ht']]. specialize (Hv' Hv). specialize (Ht' Ht). lia. }
  destruct (Hmargin "ltm_gross_profit" MetricsInput.gross_profit
              ltac:(cbn; auto 10)) as [m1 ->].
  destruct (Hmargin "ltm_ebitda" MetricsInput.ebitda ltac:(cbn; auto 10)) as [m2 ->].
  destruct (Hmargin "ltm_net_income" MetricsInput.net_income ltac:(cbn; auto 10))
    as [m3 ->].
  cbn [bind]. eexists. split; [reflexivity|].
  intros name proj Hin. destruct (Hsum name proj Hin) as [He [Hc _]].
  cbn in Hin.
  repeat (destruct Hin as [[= <- <-]|Hin]; [eexists; split; [reflexivity|auto]|]).
  destruct Hin.
Qed.

(** Four quarters are required, and over four quarters of column values
    each of the six sums is exact: the amount in hundredths is the sum of
    the four amounts in hundredths, and the three margins are computed
    without an exception. *)
Theorem ltm_metrics_exact_sums (quarterly_metrics : list MetricsInput.t) :
  (length quarterly_metrics <> 4%nat ->
   calculate_ltm_metrics quarterly_metrics
   = Raise (ValueError "LTM calculations require exactly 4 quarters of data"))
  /\ (length quarterly_metrics = 4%nat ->
      Forall well_typed quarterly_metrics ->
      exists ltm,
        calculate_ltm_metrics quarterly_metrics = Ok ltm
        /\ forall name proj,
             In (name, proj) ltm_sums ->
             exists s, dict_get ltm name = Some s
                       /\ -2 <= Dec.exp s
                       /\ cents s = total (map (fun q => cents (proj q))
                                               quarterly_metrics)).
Proof.
  split.
  - intros Hlen. unfold calculate_ltm_metrics.
    apply Nat.eqb_neq in Hlen. rewrite Hlen. reflexivity.
  - intros Hlen Hall. apply calculate_ltm_metrics_on_columns; assumption.
Qed.

Lemma usd_input_well_typed : well_typed usd_input.
Proof. repeat split; vm_compute; (reflexivity || discriminate). Qed.

Lemma eur_input_well_typed : well_typed eur_input.
Proof. repeat split; vm_compute; (reflexivity || discriminate). Qed.

Lemma ltm_metrics_exact_sums_witness :
  exists ltm,
    calculate_ltm_metrics [usd_input; eur_input; usd_input; eur_input] = Ok ltm
    /\ forall name proj,
         In (name, proj) ltm_sums ->
         exists s, dict_get ltm name = Some s
                   /\ -2 <= Dec.exp s
                   /\ cents s = total (map (fun q => cents (proj q))
                                           [usd_input; eur_input; usd_input; eur_input]).
Proof.
  apply (proj2 (ltm_metrics_exact_sums [usd_input; eur_input; usd_input; eur_input])).
  - reflexivity.
  - repeat constructor; (apply usd_input_well_typed || apply eur_input_well_typed).
Defined.



(** ** metrics_calculation.py: the ratios on column values *)

Lemma numeric_top (d : Decimal) :
  numeric_15_2 d -> Dec.coef d <> 0 -> -1 <= top d <= 13.
Proof. intros [He Hc] Hnz. apply (top_of_cents d 15 He Hnz Hc). Qed.

(** The annualised recurring revenue of a column value is four times the
    value, exactly, at the same number of decimal places. *)
Theorem arr_is_four_times (recurring_revenue : Decimal) :
  numeric_15_2 recurring_revenue ->
  Dec.exp (calculate_arr recurring_revenue) = Dec.exp recurring_revenue
  /\ cents (calculate_arr recurring_revenue) = 4 * cents recurring_revenue.
Proof.
  intros [He Hc]. unfold calculate_arr, Dec.mul.
  rewrite fix_small.
  - unfold cents, Dec.coef_at, Dec.of_int. cbn [Dec.coef Dec.exp].
    rewrite Z.add_0_r. split; [reflexivity|ring].
  - cbn [Dec.coef Dec.exp Dec.of_int].
    pose proof (coef_le_cents recurring_revenue He) as Hle.
    unfold Dec.prec. change (10 ^ 28) with (10 ^ 13 * 10 ^ 15).
    assert (0 < 10 ^ 15) by (apply pow10_pos; lia).
    assert (4 < 10 ^ 13) by (simpl; lia). nia.
Qed.

Lemma arr_is_four_times_witness :
  Dec.exp (calculate_arr (Dec.mk 80000050 (-2))) = -2
  /\ cents (calculate_arr (Dec.mk 80000050 (-2))) = 4 * 80000050.
Proof.
  apply (arr_is_four_times (Dec.mk 80000050 (-2))).
  split; vm_compute; (reflexivity || discriminate).
Defined.

(** A percentage of two column values, the second one not zero, is
    computed without an exception: it is the quotient of the two, times 100,
    rounded to the nearest multiple of 0.01 (half to even). *)
Theorem percentage_of_column_values (value total_revenue : Decimal) :
  numeric_15_2 value -> numeric_15_2 total_revenue ->
  Dec.is_zero total_revenue = false ->
  exists q p,
    Dec.div value total_revenue = Ok q
    /\ calculate_percentage_of_revenue value total_revenue = Ok p
    /\ nearest_even (-2) (Dec.mul q (Dec.of_int 100)) p.
Proof.
  intros Hv Ht Hz.
  destruct (percentage_ok value total_revenue) as [p Hp].
  { intros Hvn Htn. pose proof (numeric_top _ Hv Hvn). pose proof (numeric_top _ Ht Htn).
    lia. }
  unfold calculate_percentage_of_revenue in Hp |- *. rewrite Hz in Hp |- *.
  destruct (Dec.div value total_revenue) as [q|e]; [|discriminate].
  cbn [bind] in Hp |- *. exists q, p. split; [reflexivity|]. split; [exact Hp|].
  apply quantize_nearest. exact Hp.
Qed.

Lemma percentage_of_column_values_witness :
  exists q p,
    Dec.div (Dec.mk 20000000 (-2)) (Dec.mk 30000000 (-2)) = Ok q
    /\ calculate_percentage_of_revenue (Dec.mk 20000000 (-2)) (Dec.mk 30000000 (-2)) = Ok p
    /\ nearest_even (-2) (Dec.mul q (Dec.of_int 100)) p.
Proof.
  apply (percentage_of_column_values (Dec.mk 20000000 (-2)) (Dec.mk 30000000 (-2))).
  - split; vm_compute; (reflexivity || discriminate).
  - split; vm_compute; (reflexivity || discriminate).
  - reflexivity.
Defined.

(** An unchanged positive figure has a growth of 0.00: nothing is
    divided away and nothing raised, whatever the figure. (Of a negative
    figure the quotient is a zero of negative sign, which [Decimal] here
    does not tell from this one.) *)
Theorem growth_of_no_change (x : Decimal) :
  0 < Dec.coef x ->
  calculate_growth_rate x x = Ok (Dec.mk 0 (-2)).
Proof.
  intros Hpos.
  assert (Hz : Dec.is_zero x = false) by (unfold Dec.is_zero; apply Z.eqb_neq; lia).
  unfold calculate_growth_rate. rewrite Hz.
  assert (Hsub : Dec.sub x x = Dec.mk 0 (Dec.exp x)).
  { unfold Dec.sub, Dec.add, Dec.add_exact, Dec.neg, Dec.coef_at.
    cbn [Dec.coef Dec.exp]. rewrite Z.min_id, Z.sub_diag, Z.pow_0_r.
    replace (Dec.coef x * 1 + - Dec.coef x * 1) with 0 by lia.
    apply fix_zero. reflexivity. }
  rewrite Hsub. unfold Dec.div. rewrite Hz.
  cbn [Dec.is_zero Dec.coef Dec.exp]. cbn [Z.eqb].
  rewrite fix_zero by reflexivity. cbn [bind].
  rewrite Z.sub_diag. reflexivity.
Qed.

Lemma growth_of_no_change_witness :
  calculate_growth_rate (Dec.mk 110000000 (-2)) (Dec.mk 110000000 (-2))
  = Ok (Dec.mk 0 (-2)).
Proof. apply (growth_of_no_change (Dec.mk 110000000 (-2))). reflexivity. Defined.

(** A figure per employee of a column value is computed without an
    exception, whatever the head count. *)
Lemma per_fte_ok (value : Decimal) (employees : Z) :
  numeric_15_2 value -> exists p, calculate_per_fte value employees = Ok p.
Proof.
  intros Hv. unfold calculate_per_fte.
  destruct (Z.eqb_spec employees 0) as [|Hne]; [eauto|].
  destruct (Z.eq_dec (Dec.coef value) 0) as [Hz|Hnz].
  - destruct (div_zero_numerator value (Dec.of_int employees) Hz Hne) as [q [-> Hq]].
    cbn [bind]. apply quantize_ok. left. apply Z.eqb_eq. exact Hq.
  - destruct (div_top value (Dec.of_int employees) Hnz Hne) as [q [-> [_ [_ Hhi]]]].
    cbn [bind]. apply quantize_ok. right.
    pose proof (numeric_top value Hv Hnz).
    assert (1 <= top (Dec.of_int employees)).
    { unfold top. cbn [Dec.coef Dec.exp Dec.of_int].
      pose proof (ndigits_pos (Z.abs employees)). lia. }
    lia.
Qed.

(** The monthly burn of a column value is computed without an exception,
    it is zero exactly when the quarterly burn is, and the runway over it is
    computed without an exception too. *)
Lemma runway_ok (cash_balance cash_burn : Decimal) :
  numeric_15_2 cash_balance -> numeric_15_2 cash_burn ->
  exists m r,
    calculate_monthly_cash_burn cash_burn = Ok m
    /\ (Dec.coef m = 0 <-> Dec.coef cash_burn = 0)
    /\ calculate_runway_months cash_balance m = Ok r.
Proof.
  intros Hb Hburn. unfold calculate_monthly_cash_burn, calculate_runway_months.
  destruct (Z.eq_dec (Dec.coef cash_burn) 0) as [Hz|Hnz].
  - destruct (div_zero_numerator cash_burn (Dec.of_int 3) Hz ltac:(cbn; lia))
      as [m [-> Hm]].
    exists m. eexists. split; [reflexivity|]. split; [tauto|].
    unfold Dec.is_zero. rewrite Hm. reflexivity.
  - destruct (div_top cash_burn (Dec.of_int 3) Hnz ltac:(cbn; lia))
      as [m [-> [Hm [Hlo _]]]].
    change (top (Dec.of_int 3)) with 1 in Hlo.
    pose proof (numeric_top cash_burn Hburn Hnz) as Htb.
    assert (Hzm : Dec.is_zero m = false) by (apply Z.eqb_neq; exact Hm).
    assert (Hq : exists r, (if Dec.is_zero m then Ok (Dec.of_int 0)
                            else let* q := Dec.div cash_balance m in Dec.quantize q (-1))
                           = Ok r).
    { rewrite Hzm. destruct (Z.eq_dec (Dec.coef cash_balance) 0) as [Hbz|Hbnz].
      - destruct (div_zero_numerator cash_balance m Hbz Hm) as [q [-> Hq]].
        cbn [bind]. apply quantize_ok. left. apply Z.eqb_eq. exact Hq.
      - destruct (div_top cash_balance m Hbnz Hm) as [q [-> [_ [_ Hhi]]]].
        cbn [bind]. apply quantize_ok. right.
        pose proof (numeric_top cash_balance Hb Hbnz). lia. }
    destruct Hq as [r Hr]. exists m, r. split; [reflexivity|]. split; [tauto|exact Hr].
Qed.

(** ** metrics_calculation.py: [calculate_derived_metrics] *)

(** [calculate_derived_metrics] on a table: without a row for the period
    the formatted [ValueError]; with a first row of column values a
    record, no helper raising on the way. *)
Lemma calculate_derived_metrics_cases (db : DB.t) (new_id : UUID) (today : date)
    (company_id : UUID) (reporting_year reporting_quarter : Z) :
  match first (List.filter (input_matches company_id reporting_year reporting_quarter)
                           (DB.metrics_input db)) with
  | None =>
      calculate_derived_metrics db new_id today company_id reporting_year
                                reporting_quarter
      = Raise (ValueError (no_input_metrics company_id reporting_year
                                            reporting_quarter))
  | Some input_metrics =>
      well_typed input_metrics ->
      exists m,
        calculate_derived_metrics db new_id today company_id reporting_year
                                  reporting_quarter = Ok m
  end.
Proof.
  unfold calculate_derived_metrics.
  destruct (first _) as [input_metrics|]; [|reflexivity].
  intros Hwt. unfold well_typed in Hwt.
  destruct Hwt as [Htr [Hrr [Hgp [Hsm [Hop [_ [_ [Hcb Hbal]]]]]]]].
  assert (Hpct : forall v, numeric_15_2 v ->
             exists p, calculate_percentage_of_revenue
                         v (MetricsInput.total_revenue input_metrics) = Ok p).
  { intros v Hv. apply percentage_ok. intros Hvn Htn.
    pose proof (numeric_top _ Hv Hvn). pose proof (numeric_top _ Htr Htn). lia. }
  unfold calculate_recurring_percentage_revenue, calculate_revenue_per_fte,
    calculate_gross_profit_per_fte.
  destruct (Hpct _ Hrr) as [p1 ->]. cbn [bind].
  destruct (per_fte_ok (MetricsInput.total_revenue input_metrics)
              (MetricsInput.employees input_metrics) Htr) as [p2 ->]. cbn [bind].
  destruct (per_fte_ok (MetricsInput.gross_profit input_metrics)
              (MetricsInput.employees input_metrics) Hgp) as [p3 ->]. cbn [bind].
  destruct (runway_ok _ _ Hbal Hcb) as [mb [rw [Hmb [_ Hrw]]]].
  rewrite Hmb. cbn [bind]. rewrite Hrw. cbn [bind].
  destruct (Hpct _ Hsm) as [p4 ->]. cbn [bind].
  destruct (Hpct _ Hop) as [p5 ->]. cbn [bind].
  destruct (Hpct _ Hgp) as [p6 ->]. cbn [bind].
  eexists. reflexivity.
Qed.

Lemma first_filter_Some {A : Type} (p : A -> bool) (rows : list A) (r : A) :
  first (List.filter p rows) = Some r -> In r rows /\ p r = true.
Proof.
  unfold first. intros H.
  assert (Hin : In r (List.filter p rows)).
  { destruct (List.filter p rows) as [|r' rest]; [discriminate|].
    injection H as ->. left. reflexivity. }
  apply filter_In in Hin. exact Hin.
Qed.

(** On a table of column values [calculate_derived_metrics] returns a
    record exactly when the table has a row for the company and the
    quarter: no division and no quantize of a helper raises, whatever the
    figures of the row (zero revenue, no employees, no cash burn), and
    without a row it raises. *)
Theorem derived_metrics_returns_on_column_values (db : DB.t) (new_id : UUID)
    (today : date) (company_id : UUID) (reporting_year reporting_quarter : Z) :
  (forall input_metrics, In input_metrics (DB.metrics_input db) ->
                         well_typed input_metrics) ->
  (exists m, calculate_derived_metrics db new_id today company_id reporting_year
                                       reporting_quarter = Ok m)
  <-> (exists input_metrics,
          In input_metrics (DB.metrics_input db)
          /\ input_matches company_id reporting_year reporting_quarter input_metrics
             = true).
Proof.
  intros Hall.
  pose proof (calculate_derived_metrics_cases db new_id today company_id reporting_year
                reporting_quarter) as Hcases.
  destruct (first (List.filter (input_matches company_id reporting_year
                                              reporting_quarter)
                               (DB.metrics_input db))) as [m0|] eqn:Hfirst.
  - destruct (first_filter_Some _ _ _ Hfirst) as [Hin Hm]. split.
    + intros _. exists m0. auto.
    + intros _. apply Hcases. apply Hall. exact Hin.
  - split.
    + intros [m Hm]. rewrite Hcases in Hm. discriminate.
    + intros [m0 [Hin Hm]]. exfalso.
      assert (Hf : In m0 (List.filter (input_matches company_id reporting_year
                                                     reporting_quarter)
                                      (DB.metrics_input db)))
        by (apply filter_In; auto).
      unfold first in Hfirst.
      destruct (List.filter _ _); [destruct Hf|discriminate].
Qed.

Lemma derived_metrics_returns_on_column_values_witness :
  exists m, calculate_derived_metrics sample_db 100 738625 7 2023 1 = Ok m.
Proof.
  apply (derived_metrics_returns_on_column_values sample_db 100 738625 7 2023 1).
  - intros m [<-|[<-|[]]]; [apply usd_input_well_typed|apply eur_input_well_typed].
  - exists usd_input. split; [left; reflexivity|reflexivity].
Defined.

(** C2. [calculate_derived_metrics] raises the [ValueError] that names
    the company and the period when the table has no row for them, and a
    record it returns never has a trailing twelve months field set:
    the nine of them are [None] whatever quarters the table holds. *)
Theorem derived_metrics_never_attach_ltm (db : DB.t) (new_id : UUID) (today : date)
    (company_id : UUID) (reporting_year reporting_quarter : Z) :
  (List.filter (input_matches company_id reporting_year reporting_quarter)
               (DB.metrics_input db) = [] ->
   calculate_derived_metrics db new_id today company_id reporting_year reporting_quarter
   = Raise (ValueError (no_input_metrics company_id reporting_year reporting_quarter)))
  /\ (forall m,
        calculate_derived_metrics db new_id today company_id reporting_year
                                  reporting_quarter = Ok m ->
        [ReportingMetrics.ltm_total_revenue m; ReportingMetrics.ltm_gross_profit m;
         ReportingMetrics.ltm_sales_marketing_expense m;
         ReportingMetrics.ltm_gross_margin m; ReportingMetrics.ltm_operating_expense m;
         ReportingMetrics.ltm_ebitda m; ReportingMetrics.ltm_net_income m;
         ReportingMetrics.ltm_ebitda_margin m;
         ReportingMetrics.ltm_net_income_margin m]
        = repeat None 9).
Proof.
  unfold calculate_derived_metrics. split.
  - intros ->. reflexivity.
  - intros m.
    destruct (first _) as [input_metrics|]; [|discriminate].
    cbv zeta.
    repeat match goal with
           | |- bind ?r _ = Ok _ -> _ =>
               destruct r; cbn [bind]; [|discriminate]
           end.
    intros [= <-]. reflexivity.
Qed.

Lemma derived_metrics_never_attach_ltm_witness :
  calculate_derived_metrics sample_db 100 738625 9 2023 1
  = Raise (ValueError
             "No input metrics found for company 00000000-0000-0000-0000-000000000009 in 2023 Q1").
Proof.
  apply (proj1 (derived_metrics_never_attach_ltm sample_db 100 738625 9 2023 1)).
  reflexivity.
Defined.

(** The table holds the four quarters up to the first of 2023 of company
    7, and their trailing twelve months revenue is 4000000; the record of
    the first quarter of 2023 has no trailing twelve months revenue. *)
Lemma ltm_not_attached_counterexample :
  (exists ltm,
      calculate_ltm_metrics (DB.metrics_input four_quarters_db) = Ok ltm
      /\ dict_get ltm "ltm_total_revenue" = Some (Dec.of_int 4000000))
  /\ exists m,
       calculate_derived_metrics four_quarters_db 100 738625 7 2023 1 = Ok m
       /\ ReportingMetrics.ltm_total_revenue m = None.
Proof.
  split; vm_compute; eexists; split; reflexivity.
Qed.

(** ** currency_conversion.py: the caches over a process lifetime *)

Lemma lru_remove_length (k : Key) (r : AnyDecimal) (c : list (Key * AnyDecimal)) :
  lru_find k c = Some r -> length (lru_remove k c) = pred (length c).
Proof.
  induction c as [|[k0 v0] c IH]; [discriminate|]. cbn [lru_find lru_remove].
  destruct (key_eqb k0 k); [reflexivity|]. intros H. cbn [length].
  rewrite (IH H). destruct c; [discriminate|reflexivity].
Qed.

Lemma removelast_length {A : Type} (c : list A) :
  length (removelast c) = pred (length c).
Proof.
  induction c as [|x c IH]; [reflexivity|]. destruct c as [|y c]; [reflexivity|].
  change (removelast (x :: y :: c)) with (x :: removelast (y :: c)).
  cbn [length] in *. rewrite IH. reflexivity.
Qed.

Lemma lru_store_length (k : Key) (v : AnyDecimal) (c : list (Key * AnyDecimal)) :
  (length c <= lru_maxsize)%nat -> (length (lru_store k v c) <= lru_maxsize)%nat.
Proof.
  intros H. unfold lru_store.
  destruct (Nat.ltb_spec (length c) lru_maxsize) as [Hlt|Hge]; cbn [length].
  - lia.
  - rewrite removelast_length. unfold lru_maxsize in *. lia.
Qed.

Lemma lru_bounded_get_exchange_rate (api : nat -> Key -> HttpOutcome) (g : Globals)
    (k : Key) :
  (length (lru g) <= lru_maxsize)%nat ->
  (length (lru (snd (get_exchange_rate api g k))) <= lru_maxsize)%nat.
Proof.
  intros H.
  destruct (get_exchange_rate_cases g k) as [[r Hh]|[[Hn [r Hd]]|[Hn Hd]]].
  - rewrite (get_exchange_rate_hit api g k r Hh). cbn [snd lru length].
    rewrite (lru_remove_length k r _ Hh).
    destruct (lru g); [discriminate|]. cbn [length pred] in *. lia.
  - rewrite (get_exchange_rate_cached api g k r Hn Hd). cbn [snd lru].
    apply lru_store_length. exact H.
  - rewrite (get_exchange_rate_miss api g k Hn Hd).
    destruct (parse_response _ _); cbn [snd lru after_failed_fetch];
      [apply lru_store_length|]; exact H.
Qed.

(** Whatever keys are looked up from the start of the process on, and
    whatever the source answers, the [lru_cache] holds at most a hundred
    entries and each of them repeats the entry of [exchange_rates] for its
    key: the two caches never disagree on a rate. *)
Theorem caches_agree_and_stay_bounded (api : nat -> Key -> HttpOutcome)
    (ks : list Key) :
  let g := lookups api initial_globals ks in
  consistent g /\ (length (lru g) <= lru_maxsize)%nat.
Proof.
  cbv zeta. split; [apply consistent_lookups, consistent_initial|].
  assert (H : forall g, (length (lru g) <= lru_maxsize)%nat ->
                        (length (lru (lookups api g ks)) <= lru_maxsize)%nat).
  { induction ks as [|k ks IH]; intros g Hg; [exact Hg|].
    cbn [lookups]. apply IH. apply lru_bounded_get_exchange_rate. exact Hg. }
  apply H. cbn. unfold lru_maxsize. lia.
Qed.

(** A lookup repeated right after one that returned is answered by the
    [lru_cache]: it returns the same rate, also a rate of zero, and neither
    makes a request nor touches [exchange_rates]. *)
Theorem repeated_lookup_makes_no_request (api : nat -> Key -> HttpOutcome)
    (g g1 : Globals) (k : Key) (r : AnyDecimal) :
  get_exchange_rate api g k = (Ok r, g1) ->
  fst (get_exchange_rate api g1 k) = Ok r
  /\ fetched (snd (get_exchange_rate api g1 k)) = fetched g1
  /\ exchange_rates (snd (get_exchange_rate api g1 k)) = exchange_rates g1.
Proof.
  intros H. destruct (get_exchange_rate_ok api g g1 k r H) as [Hl _].
  rewrite (get_exchange_rate_hit api g1 k r Hl). cbn. auto.
Qed.

Lemma repeated_lookup_makes_no_request_witness :
  let g1 := snd (get_exchange_rate api_zero initial_globals ("EUR", "USD", 738610)) in
  fst (get_exchange_rate api_zero g1 ("EUR", "USD", 738610))
  = Ok (Finite (Dec.of_int 0))
  /\ fetched (snd (get_exchange_rate api_zero g1 ("EUR", "USD", 738610))) = fetched g1
  /\ exchange_rates (snd (get_exchange_rate api_zero g1 ("EUR", "USD", 738610)))
     = exchange_rates g1.
Proof.
  intros g1.
  apply (repeated_lookup_makes_no_request api_zero initial_globals g1
           ("EUR", "USD", 738610) (Dec.of_int 0)).
  vm_compute. reflexivity.
Defined.

(** A rate of zero in [exchange_rates] is never served: a lookup of its
    key that the [lru_cache] does not answer makes a request again, and a
    rate the request brings replaces the stored zero. *)
Theorem zero_rate_is_requested_again (api : nat -> Key -> HttpOutcome) (g : Globals)
    (k : Key) (r : Decimal) :
  lru_find k (lru g) = None ->
  cached_rate (exchange_rates g) k = Some (Finite r) ->
  Dec.eqb r (Dec.of_int 0) = true ->
  let g1 := snd (get_exchange_rate api g k) in
  fetched g1 = fetched g ++ [k]
  /\ fst (get_exchange_rate api g k) = fst (_fetch_exchange_rate api g k)
  /\ (forall r', fst (get_exchange_rate api g k) = Ok r' ->
                 cached_rate (exchange_rates g1) k = Some r').
Proof.
  intros Hl Hc Hz. apply eqb_zero in Hz.
  assert (Hu : usable_rate (cached_rate (exchange_rates g) k) = None).
  { rewrite Hc. unfold usable_rate, Any.truthy, Dec.truthy. rewrite Hz. reflexivity. }
  cbv zeta. rewrite (get_exchange_rate_miss api g k Hl Hu).
  unfold _fetch_exchange_rate. destruct k as [[f t] d]. cbn [fst snd].
  destruct (parse_response t _) as [rate|e]; cbn [fst snd fetched exchange_rates];
    unfold after_failed_fetch; cbn [fetched exchange_rates].
  - split; [reflexivity|]. split; [reflexivity|].
    intros r' [= <-]. apply cached_rate_store_same.
  - split; [reflexivity|]. split; [reflexivity|]. discriminate.
Qed.

Lemma zero_rate_is_requested_again_witness :
  let k := ("EUR", "USD", 738610) in
  let g := lookups api_zero initial_globals (k :: other_dates) in
  fetched (snd (get_exchange_rate api_zero g k)) = fetched g ++ [k]
  /\ fst (get_exchange_rate api_zero g k) = fst (_fetch_exchange_rate api_zero g k)
  /\ (forall r', fst (get_exchange_rate api_zero g k) = Ok r' ->
                 cached_rate (exchange_rates (snd (get_exchange_rate api_zero g k))) k
                 = Some r').
Proof.
  intros k g.
  apply (zero_rate_is_requested_again api_zero g k (Dec.of_int 0)).
  - vm_compute. reflexivity.
  - vm_compute. reflexivity.
  - reflexivity.
Defined.

(** ** currency_conversion.py: [update_exchange_rates] *)

Section UpdateRates.

Variable api : nat -> Key -> HttpOutcome.

(** No lookup removes an entry of [exchange_rates]. *)
Lemma cached_rate_stays (g : Globals) (k k' : Key) :
  is_Some (cached_rate (exchange_rates g) k) ->
  is_Some (cached_rate (exchange_rates (snd (get_exchange_rate api g k'))) k).
Proof.
  intros H.
  destruct (get_exchange_rate_cases g k') as [[r Hh]|[[Hn [r Hd]]|[Hn Hd]]].
  - rewrite (get_exchange_rate_hit api g k' r Hh). exact H.
  - rewrite (get_exchange_rate_cached api g k' r Hn Hd). exact H.
  - rewrite (get_exchange_rate_miss api g k' Hn Hd).
    destruct (parse_response _ _) as [rate|e]; cbn [snd exchange_rates after_failed_fetch];
      [|exact H].
    destruct (decide (k' = k)) as [->|Hne].
    + rewrite cached_rate_store_same. eauto.
    + rewrite cached_rate_store_other by assumption. exact H.
Qed.

Lemma lookups_until_failure_app (g : Globals) (l1 l2 : list Key) :
  lookups_until_failure api g (l1 ++ l2)
  = match lookups_until_failure api g l1 with
    | (Ok _, g1) => lookups_until_failure api g1 l2
    | (Raise e, g1) => (Raise e, g1)
    end.
Proof.
  revert g. induction l1 as [|k l1 IH]; intros g; [reflexivity|].
  cbn [app lookups_until_failure].
  destruct (get_exchange_rate api g k) as [[r|e] g1]; [apply IH|reflexivity].
Qed.

(** A run of lookups up to the first failure: the caches stay in step, no
    entry is lost, and every key looked up with success has an entry. *)
Lemma lookups_until_failure_spec (ks : list Key) :
  forall (g g1 : Globals) (res : result unit),
    consistent g ->
    lookups_until_failure api g ks = (res, g1) ->
    consistent g1
    /\ (forall k, is_Some (cached_rate (exchange_rates g) k) ->
                  is_Some (cached_rate (exchange_rates g1) k))
    /\ (length (fetched g1) <= length (fetched g) + length ks)%nat
    /\ match res with
       | Ok _ =>
           looked_up g1 = looked_up g ++ ks
           /\ forall k, In k ks -> is_Some (cached_rate (exchange_rates g1) k)
       | Raise e =>
           exists done k rest,
             ks = done ++ k :: rest
             /\ looked_up g1 = looked_up g ++ done ++ [k]
             /\ (forall k', In k' done -> is_Some (cached_rate (exchange_rates g1) k'))
       end.
Proof.
  induction ks as [|k ks IH]; intros g g1 res Hc Hrun.
  - cbn in Hrun. injection Hrun as <- <-. cbn. rewrite app_nil_r.
    repeat split; auto; try lia; intros k0 [].
  - cbn [lookups_until_failure] in Hrun.
    pose proof (consistent_get_exchange_rate api g k Hc) as Hc1.
    pose proof (fun k0 => cached_rate_stays g k0 k) as Hstay.
    destruct (get_exchange_rate api g k) as [[r|e] g0] eqn:Hget; cbn [snd] in *.
    + destruct (get_exchange_rate_ok api g g0 k r Hget) as [_ [Hlog Hf]].
      destruct (returned_rate_is_cached api g g0 k r Hc Hget) as [Hk _].
      destruct (IH g0 g1 res Hc1 Hrun) as [Hc2 [Hmono [Hlen Hres]]].
      split; [exact Hc2|]. split; [auto|]. split.
      { cbn [length]. destruct Hf as [Hf|Hf]; rewrite Hf in Hlen;
          [|rewrite length_app in Hlen; cbn [length] in Hlen]; lia. }
      destruct res as [u|e].
      * destruct Hres as [Hlog1 Hall]. split.
        { rewrite Hlog1, Hlog, <- app_assoc. reflexivity. }
        intros k' [<-|Hin]; [apply Hmono; rewrite Hk; eauto|auto].
      * destruct Hres as [done [kf [rest [-> [Hlog1 Hall]]]]].
        exists (k :: done), kf, rest. split; [reflexivity|]. split.
        { rewrite Hlog1, Hlog, <- !app_assoc. reflexivity. }
        intros k' [<-|Hin]; [apply Hmono; rewrite Hk; eauto|auto].
    + injection Hrun as <- <-.
      destruct (get_exchange_rate_raise api g g0 k e Hget) as [-> _].
      split; [exact Hc1|]. split; [exact Hstay|]. split.
      { cbn [after_failed_fetch fetched length]. rewrite length_app. cbn [length]. lia. }
      exists [], k, ks. split; [reflexivity|]. split; [reflexivity|]. intros k' [].
Qed.

Lemma lookup_unless_same_run (g : Globals) (currency other : string) (today : date) :
  lookup_unless_same api g currency other today
  = lookups_until_failure api g
      (if String.eqb currency other then [] else [(currency, other, today)]).
Proof.
  unfold lookup_unless_same. destruct (String.eqb currency other); [reflexivity|].
  cbn [negb lookups_until_failure].
  destruct (get_exchange_rate api g _) as [[r|e] g1]; reflexivity.
Qed.

Lemma refresh_rates_run (today : date) (currencies : list string) (g : Globals) :
  refresh_rates api g today currencies
  = lookups_until_failure api g
      (flat_map
         (fun currency =>
            (if String.eqb currency "USD" then [] else [(currency, "USD", today)])
            ++ (if String.eqb currency "CAD" then [] else [(currency, "CAD", today)]))
         currencies).
Proof.
  revert g. induction currencies as [|c cs IH]; intros g; [reflexivity|].
  cbn [refresh_rates flat_map]. rewrite !lookups_until_failure_app.
  rewrite lookup_unless_same_run.
  destruct (lookups_until_failure api g _) as [[u|e] g1]; [|reflexivity].
  rewrite lookup_unless_same_run.
  destruct (lookups_until_failure api g1 _) as [[u2|e] g2]; [apply IH|reflexivity].
Qed.

(** [update_exchange_rates] is the run over its pairs, with every
    exception turned into the one [ValueError]. *)
Lemma update_exchange_rates_run (g : Globals) (currencies : list string) (today : date) :
  update_exchange_rates api g (Ok currencies) today
  = match lookups_until_failure api g (pairs_to_refresh today currencies) with
    | (Ok _, g1) => (Ok tt, g1)
    | (Raise _, g1) => (Raise (ValueError "Failed to update exchange rates"), g1)
    end.
Proof.
  unfold update_exchange_rates, pairs_to_refresh.
  rewrite lookups_until_failure_app, refresh_rates_run.
  destruct (lookups_until_failure api g _) as [[u|e] g1]; [|reflexivity].
  cbn [lookups_until_failure].
  destruct (get_exchange_rate api g1 _) as [[r|e] g2]; reflexivity.
Qed.

End UpdateRates.

(** No pair of [update_exchange_rates] has the same currency twice. *)
Lemma pairs_to_refresh_differ (today : date) (currencies : list string) (k : Key) :
  In k (pairs_to_refresh today currencies) -> fst (fst k) <> snd (fst k).
Proof.
  unfold pairs_to_refresh. rewrite in_app_iff, in_flat_map.
  intros [[c [_ Hin]]|[<-|[]]]; [|discriminate].
  rewrite in_app_iff in Hin.
  destruct Hin as [Hin|Hin].
  - destruct (String.eqb_spec c "USD") as [|Hne]; [destruct Hin|].
    destruct Hin as [<-|[]]. exact Hne.
  - destruct (String.eqb_spec c "CAD") as [|Hne]; [destruct Hin|].
    destruct Hin as [<-|[]]. exact Hne.
Qed.

(** An update that returns has looked up, in order, every reporting
    currency against US and Canadian dollars (never a currency against
    itself) and US against Canadian dollars, with one request for every
    lookup at most, and leaves a rate in [exchange_rates] for every one of these
    pairs. An update that fails raises the [ValueError] of the function,
    whatever was raised inside, after the lookups up to the failing one; the
    rates it found before stay cached. In both cases no entry that was
    cached before is lost. *)
Theorem update_exchange_rates_fills_the_cache (api : nat -> Key -> HttpOutcome)
    (g : Globals) (currencies : list string) (today : date) :
  consistent g ->
  let r := update_exchange_rates api g (Ok currencies) today in
  let pairs := pairs_to_refresh today currencies in
  consistent (snd r)
  /\ (forall k, In k pairs -> fst (fst k) <> snd (fst k))
  /\ (forall k, is_Some (cached_rate (exchange_rates g) k) ->
                is_Some (cached_rate (exchange_rates (snd r)) k))
  /\ (length (fetched (snd r)) <= length (fetched g) + length pairs)%nat
  /\ match fst r with
     | Ok _ =>
         looked_up (snd r) = looked_up g ++ pairs
         /\ forall k, In k pairs -> is_Some (cached_rate (exchange_rates (snd r)) k)
     | Raise e =>
         e = ValueError "Failed to update exchange rates"
         /\ exists done k rest,
              pairs = done ++ k :: rest
              /\ looked_up (snd r) = looked_up g ++ done ++ [k]
              /\ forall k', In k' done ->
                            is_Some (cached_rate (exchange_rates (snd r)) k')
     end.
Proof.
  intros Hc. cbv zeta. rewrite update_exchange_rates_run.
  destruct (lookups_until_failure api g (pairs_to_refresh today currencies))
    as [res g1] eqn:Hrun.
  destruct (lookups_until_failure_spec api _ g g1 res Hc Hrun)
    as [Hc1 [Hmono [Hlen Hres]]].
  assert (Hsnd : snd (match res with
                      | Ok _ => (Ok tt, g1)
                      | Raise _ =>
                          (Raise (ValueError "Failed to update exchange rates"), g1)
                      end) = g1) by (destruct res; reflexivity).
  rewrite Hsnd.
  split; [exact Hc1|]. split; [apply pairs_to_refresh_differ|].
  split; [exact Hmono|]. split; [exact Hlen|].
  destruct res as [u|e]; cbn [fst]; [exact Hres|]. split; [reflexivity|exact Hres].
Qed.

Lemma update_exchange_rates_fills_the_cache_witness :
  let r := update_exchange_rates api_quotes initial_globals (Ok ["USD"; "EUR"]) 738610 in
  fst r = Ok tt
  /\ looked_up (snd r)
     = [("USD", "CAD", 738610); ("EUR", "USD", 738610); ("EUR", "CAD", 738610);
        ("USD", "CAD", 738610)]
  /\ is_Some (cached_rate (exchange_rates (snd r)) ("EUR", "CAD", 738610)).
Proof.
  intros r.
  destruct (update_exchange_rates_fills_the_cache api_quotes initial_globals
              ["USD"; "EUR"] 738610 consistent_initial)
    as [_ [_ [_ [_ Hres]]]].
  assert (Hok : fst r = Ok tt) by (vm_compute; reflexivity).
  fold r in Hres. rewrite Hok in Hres. destruct Hres as [Hlog Hall].
  split; [exact Hok|]. split; [exact Hlog|].
  apply Hall. cbn. auto.
Defined.

(** ** data_transformation.py: the entry of the source currency *)

(** Targets that all are the source currency: every one rewrites the one
    entry of the dictionary with the fields of the input and the rate
    1.0. *)
Lemma convert_targets_natives (api : nat -> Key -> HttpOutcome)
    (input_metrics : MetricsInput.t) (targets : list string) :
  forall (g : Globals) (rec0 : pydict (option Decimal)),
    (forall t, In t targets -> t = MetricsInput.currency input_metrics) ->
    exists rec,
      convert_targets api g input_metrics targets
                      [(MetricsInput.currency input_metrics, rec0)]
      = (Ok [(MetricsInput.currency input_metrics, rec)], g)
      /\ (targets <> [] -> verbatim input_metrics rec)
      /\ (targets = [] -> rec = rec0)
      /\ (verbatim input_metrics rec0 -> verbatim input_metrics rec).
Proof.
  induction targets as [|t rest IH]; intros g rec0 Hall.
  - exists rec0. cbn. split; [reflexivity|]. split; [congruence|]. split; auto.
  - rewrite (Hall t ltac:(left; reflexivity)).
    destruct (convert_targets_native_step api input_metrics g rest
                [(MetricsInput.currency input_metrics, rec0)])
      as [fields [Hcopy ->]].
    cbn [dict_get dict_set] in Hcopy |- *. rewrite String.eqb_refl in Hcopy |- *.
    cbv [default from_option id] in Hcopy.
    destruct (copy_fields_spec _ _ _ _ monetary_fields_NoDup Hcopy) as [Hfields _].
    assert (Hverb : verbatim input_metrics
                      (dict_set fields "exchange_rate_used" (Some (Dec.mk 10 (-1))))).
    { split; [apply dict_get_set_same|]. intros f Hin.
      destruct (Hfields f Hin) as [v [Hv Hget]]. exists v. split; [exact Hv|].
      rewrite dict_get_set_other by (apply monetary_field_not_rate; exact Hin).
      exact Hget. }
    destruct (IH g (dict_set fields "exchange_rate_used" (Some (Dec.mk 10 (-1)))))
      as [rec [Hrun [_ [_ Hkeep]]]].
    { intros t' Hin. apply Hall. right. exact Hin. }
    exists rec. split; [exact Hrun|]. split; [intros _; auto|]. split; [discriminate|].
    intros _. auto.
Qed.

(** The fan-out returns exactly when every target is the source currency
    of the input, and then without a lookup. What it returns has the one
    entry of the source currency: the fields of the input verbatim, nulls
    included, with the rate 1.0, or the empty dictionary when there is no
    target at all. *)
Theorem fan_out_returns_the_source_entry_only (api : nat -> Key -> HttpOutcome)
    (g : Globals) (input_metrics : MetricsInput.t) (target_currencies : list string) :
  ((exists converted_financials g',
       convert_financials api g input_metrics target_currencies
       = (Ok converted_financials, g'))
   <-> (forall t, In t target_currencies -> t = MetricsInput.currency input_metrics))
  /\ (forall converted_financials g',
        convert_financials api g input_metrics target_currencies
        = (Ok converted_financials, g') ->
        g' = g
        /\ exists rec,
             converted_financials = [(MetricsInput.currency input_metrics, rec)]
             /\ (target_currencies <> [] -> verbatim input_metrics rec)
             /\ (target_currencies = [] -> rec = [])).
Proof.
  assert (Hall : forall cf g',
             convert_financials api g input_metrics target_currencies = (Ok cf, g') ->
             forall t, In t target_currencies ->
                       t = MetricsInput.currency input_metrics).
  { intros cf g' Hrun.
    destruct (targets_split (MetricsInput.currency input_metrics) target_currencies)
      as [H|[natives [t [rest [-> [Hnat Hne]]]]]]; [exact H|].
    exfalso. unfold convert_financials in Hrun.
    rewrite (convert_targets_foreign api input_metrics natives t rest Hnat Hne)
      in Hrun.
    destruct (@await_value_raises AnyDecimal (pydict (pydict (option Decimal)))
                (convert_currency api g (MetricsInput.total_revenue input_metrics)
                   (MetricsInput.currency input_metrics) t
                   (MetricsInput.fiscal_reporting_date input_metrics))) as [e He].
    rewrite Hrun in He. discriminate. }
  split; [split|].
  - intros [cf [g' Hrun]]. exact (Hall cf g' Hrun).
  - intros Hnat.
    destruct (convert_targets_natives api input_metrics target_currencies g [] Hnat)
      as [rec [Hrun _]].
    exists [(MetricsInput.currency input_metrics, rec)], g. exact Hrun.
  - intros cf g' Hrun.
    destruct (convert_targets_natives api input_metrics target_currencies g []
                (Hall cf g' Hrun)) as [rec [Hrun' [Hverb [Hnil _]]]].
    pose proof (eq_trans (eq_sym Hrun') Hrun) as Heq.
    injection Heq as <- <-. split; [reflexivity|]. exists rec. auto.
Qed.

Lemma fan_out_returns_the_source_entry_only_witness :
  (exists rec,
      convert_financials api_quotes initial_globals usd_input ["USD"]
      = (Ok [("USD", rec)], initial_globals)
      /\ dict_get rec "exchange_rate_used" = Some (Some (Dec.mk 10 (-1))))
  /\ ~ (exists converted_financials g',
           convert_financials api_quotes initial_globals eur_input ["USD"; "CAD"]
           = (Ok converted_financials, g')).
Proof.
  split.
  - destruct (proj1 (fan_out_returns_the_source_entry_only api_quotes initial_globals
                       usd_input ["USD"])) as [_ Hret].
    destruct Hret as [cf [g' Hrun]]; [intros t [<-|[]]; reflexivity|].
    destruct (proj2 (fan_out_returns_the_source_entry_only api_quotes initial_globals
                       usd_input ["USD"]) cf g' Hrun)
      as [-> [rec [-> [Hverb _]]]].
    exists rec. split; [exact Hrun|]. apply Hverb. discriminate.
  - intros Hex.
    pose proof (proj1 (proj1 (fan_out_returns_the_source_entry_only api_quotes
                                initial_globals eur_input ["USD"; "CAD"])) Hex "USD"
                  ltac:(left; reflexivity)) as H.
    discriminate H.
Defined.

(** ** data_transformation.py: rows and their attributes *)

Lemma select_eq {A : Type} (p : A -> bool) (rows : list A) :
  select p rows = select_from 0 p rows.
Proof.
  unfold select.
  assert (H : forall (f : nat -> nat) n,
             (forall i, f i = (n + i)%nat) ->
             map fst (List.filter (fun ir => p (snd ir))
                                  (imap (fun i r => (f i, r)) rows))
             = select_from n p rows).
  { induction rows as [|r rows IH]; intros f n Hf; [reflexivity|].
    cbn [imap List.filter select_from snd].
    rewrite <- (IH (f ∘ S) (S n)) by (intros i; cbn; rewrite Hf; lia).
    destruct (p r); cbn [map fst app]; [rewrite Hf, Nat.add_0_r|]; reflexivity. }
  apply (H (fun i => i) 0%nat). reflexivity.
Qed.

Lemma select_from_app {A : Type} (p : A -> bool) (l1 l2 : list A) (n : nat) :
  select_from n p (l1 ++ l2)
  = select_from n p l1 ++ select_from (n + length l1) p l2.
Proof.
  revert n. induction l1 as [|r l1 IH]; intros n.
  - cbn. rewrite Nat.add_0_r. reflexivity.
  - cbn [app select_from length]. rewrite IH, <- app_assoc.
    replace (S n + length l1)%nat with (n + S (length l1))%nat by lia. reflexivity.
Qed.

Lemma select_from_none {A : Type} (p : A -> bool) (rows : list A) (n : nat) :
  (forall r, In r rows -> p r = false) -> select_from n p rows = [].
Proof.
  revert n. induction rows as [|r rows IH]; intros n H; [reflexivity|].
  cbn [select_from]. rewrite (H r) by (left; reflexivity).
  apply IH. intros r' Hin. apply H. right. exact Hin.
Qed.

Lemma select_from_one {A : Type} (p : A -> bool) (l1 l2 : list A) (r : A) (n : nat) :
  (forall r', In r' (l1 ++ l2) -> p r' = false) -> p r = true ->
  select_from n p (l1 ++ r :: l2) = [(n + length l1)%nat].
Proof.
  intros Hnone Hr. rewrite select_from_app. cbn [select_from]. rewrite Hr.
  rewrite (select_from_none p l1) by (intros; apply Hnone, in_or_app; auto).
  rewrite (select_from_none p l2) by (intros; apply Hnone, in_or_app; auto).
  reflexivity.
Qed.

(** A selected position holds a row the predicate accepts. *)
Lemma select_from_lookup {A : Type} (p : A -> bool) (rows : list A) (n j : nat) :
  In j (select_from n p rows) ->
  exists i r, j = (n + i)%nat /\ rows !! i = Some r /\ p r = true.
Proof.
  revert n. induction rows as [|r rows IH]; intros n Hin; [destruct Hin|].
  cbn [select_from] in Hin. apply in_app_or in Hin. destruct Hin as [Hin|Hin].
  - destruct (p r) eqn:Hp; [|destruct Hin]. destruct Hin as [<-|[]].
    exists 0%nat, r. split; [lia|]. split; [reflexivity|exact Hp].
  - destruct (IH _ Hin) as [i [r' [-> [Hl Hp]]]].
    exists (S i), r'. split; [lia|]. split; [exact Hl|exact Hp].
Qed.

(** Replacing a row by one the predicate judges alike selects the same
    positions. *)
Lemma select_from_insert {A : Type} (p : A -> bool) (rows : list A) (n i : nat)
    (o o' : A) :
  rows !! i = Some o -> p o' = p o ->
  select_from n p (<[i := o']> rows) = select_from n p rows.
Proof.
  revert n i. induction rows as [|r rows IH]; intros n i Hl Hp; [discriminate|].
  destruct i as [|i]; cbn in Hl |- *.
  - injection Hl as ->. rewrite Hp. reflexivity.
  - rewrite (IH _ _ Hl Hp). reflexivity.
Qed.

Lemma dict_get_app {V : Type} (d1 d2 : pydict V) (k : string) :
  dict_get (d1 ++ d2) k
  = match dict_get d1 k with
    | Some v => Some v
    | None => dict_get d2 k
    end.
Proof.
  induction d1 as [|[k' v'] d1 IH]; [reflexivity|]. cbn [app dict_get].
  destruct (String.eqb k' k); [reflexivity|exact IH].
Qed.

Lemma dict_get_keys {V : Type} (d : pydict V) (k : string) (v : V) :
  dict_get d k = Some v -> In k (dict_keys d).
Proof.
  induction d as [|[k' v'] d IH]; [discriminate|]. cbn [dict_get dict_keys map fst].
  destruct (String.eqb_spec k' k) as [->|Hne]; [left; reflexivity|].
  intros H. right. apply IH. exact H.
Qed.

Lemma dict_keys_rev {V : Type} (d : pydict V) (k : string) :
  In k (dict_keys (rev d)) <-> In k (dict_keys d).
Proof. unfold dict_keys. rewrite map_rev. symmetry. apply in_rev. Qed.

(** What an attribute is after a run of [setattr]: the last value the
    dictionary gives it, or what it was. *)
Lemma lookup_setattrs (financials : pydict (option Decimal)) :
  forall (o : gmap string value) (a : string),
    setattrs o financials !! a
    = match dict_get (rev financials) a with
      | Some v => Some (value_of_optional v)
      | None => o !! a
      end.
Proof.
  unfold setattrs.
  induction financials as [|[k v] rest IH]; intros o a; [reflexivity|].
  cbn [fold_left rev fst snd]. rewrite IH, dict_get_app. cbn [dict_get].
  destruct (dict_get (rev rest) a); [reflexivity|].
  destruct (String.eqb_spec k a) as [->|Hne].
  - apply lookup_insert_eq.
  - apply lookup_insert_ne. exact Hne.
Qed.

(** [setattr] over a dictionary leaves the attributes it does not name. *)
Lemma setattrs_frame (o : gmap string value) (financials : pydict (option Decimal))
    (a : string) :
  ~ In a (dict_keys financials) -> setattrs o financials !! a = o !! a.
Proof.
  intros Hnot. rewrite lookup_setattrs.
  destruct (dict_get (rev financials) a) as [v|] eqn:Hget; [|reflexivity].
  exfalso. apply Hnot. apply dict_keys_rev. eapply dict_get_keys. exact Hget.
Qed.

Lemma setattrs_holds (o : gmap string value) (financials : pydict (option Decimal)) :
  holds (setattrs o financials) financials.
Proof. intros a v Hget. rewrite lookup_setattrs, Hget. reflexivity. Qed.

(** Setting what an object holds already changes nothing. *)
Lemma setattrs_fixed (o : gmap string value) (financials : pydict (option Decimal)) :
  holds o financials -> setattrs o financials = o.
Proof.
  intros H. apply map_eq. intros a. rewrite lookup_setattrs.
  destruct (dict_get (rev financials) a) as [v|] eqn:Hget; [|reflexivity].
  symmetry. apply H. exact Hget.
Qed.

(** The filter reads the four key attributes only. *)
Lemma financials_match_key (company_id : UUID) (currency : string) (y q : Z)
    (o o' : gmap string value) :
  (forall a, In a reserved_attributes -> o' !! a = o !! a) ->
  financials_match company_id currency y q o'
  = financials_match company_id currency y q o.
Proof.
  intros H. unfold financials_match.
  rewrite !H by (cbn; auto 10). reflexivity.
Qed.

Lemma financials_match_currency (company_id : UUID) (currency : string) (y q : Z)
    (o : gmap string value) :
  financials_match company_id currency y q o = true ->
  o !! "currency" = Some (VStr currency).
Proof.
  unfold financials_match. rewrite !andb_true_iff.
  intros [[[_ H] _] _]. apply bool_decide_eq_true in H. exact H.
Qed.

Lemma financials_match_other (company_id : UUID) (currency currency' : string) (y q : Z)
    (o : gmap string value) :
  o !! "currency" = Some (VStr currency) -> currency <> currency' ->
  financials_match company_id currency' y q o = false.
Proof.
  intros Ho Hne. destruct (financials_match company_id currency' y q o) eqn:Hm;
    [|reflexivity].
  apply financials_match_currency in Hm. congruence.
Qed.

(** ** data_transformation.py: [update_reporting_financials] *)

Lemma dict_set_fresh {V : Type} (d : pydict V) (k : string) (v : V) :
  ~ In k (dict_keys d) -> dict_set d k v = d ++ [(k, v)].
Proof.
  induction d as [|[k' v'] d IH]; intros Hnot; [reflexivity|].
  cbn [dict_set app]. destruct (String.eqb_spec k' k) as [->|Hne].
  - exfalso. apply Hnot. left. reflexivity.
  - rewrite IH; [reflexivity|]. intros Hin. apply Hnot. right. exact Hin.
Qed.

Lemma pendings_app (r1 r2 : pydict instance) :
  pendings (r1 ++ r2) = pendings r1 ++ pendings r2.
Proof. unfold pendings. apply flat_map_app. Qed.

Lemma add_all_eq (refs : pydict instance) (table : list (gmap string value)) :
  add_all table refs = table ++ pendings refs.
Proof.
  unfold add_all. revert table.
  induction refs as [|[cur [i|o]] refs IH]; intros table; cbn [fold_left snd].
  - rewrite app_nil_r. reflexivity.
  - rewrite IH. reflexivity.
  - rewrite IH. unfold pendings. cbn [flat_map snd app]. rewrite <- app_assoc.
    reflexivity.
Qed.

Section Upsert.

Variable env : Env.
Variable company_id : UUID.
Variables reporting_year reporting_quarter : Z.

Let fm (currency : string) : gmap string value -> bool :=
  financials_match company_id currency reporting_year reporting_quarter.

(** The constructor on a dictionary of financial figures: the new object
    has the key it was given and holds the figures. *)
Lemma new_ReportingFinancials_spec (new_id : UUID) (today : date) (currency : string)
    (financials : pydict (option Decimal)) (o : gmap string value) :
  financial_only financials ->
  new_ReportingFinancials new_id today company_id currency reporting_year
                          reporting_quarter financials = Ok o ->
  fm currency o = true /\ holds o financials.
Proof.
  intros Hfin. unfold new_ReportingFinancials. cbv zeta.
  destruct (existsb _ _); [discriminate|].
  destruct (negb _); [discriminate|].
  destruct (negb _); [discriminate|].
  intros [= <-].
  assert (Hkey : forall a, In a ["company_id"; "currency"; "reporting_year";
                                  "reporting_quarter"] ->
                 forall base,
                   (<["id" := VUuid new_id]>
                    (<["created_date" := VDate today]>
                    (<["last_update_date" := VNone]>
                    (<["last_updated_by" := VNone]> (setattrs base financials)))))
                   !! a = base !! a).
  { intros a Ha base. cbn in Ha.
    rewrite !lookup_insert_ne by (intuition (subst; discriminate)).
    apply setattrs_frame. apply Hfin. cbn in Ha |- *. tauto. }
  split.
  - unfold fm, financials_match. rewrite !Hkey by (cbn; auto).
    rewrite lookup_insert_eq.
    rewrite lookup_insert_ne, lookup_insert_eq by discriminate.
    rewrite !lookup_insert_ne, lookup_insert_eq by discriminate.
    rewrite !lookup_insert_ne, lookup_insert_eq by discriminate.
    rewrite !bool_decide_eq_true_2 by reflexivity. reflexivity.
  - intros a v Hget.
    assert (Hin : In a (dict_keys financials))
      by (apply dict_keys_rev; eapply dict_get_keys; exact Hget).
    rewrite !lookup_insert_ne
      by (intros Heq; apply (Hfin a); [rewrite <- Heq; cbn; auto 10|exact Hin]).
    apply setattrs_holds. exact Hget.
Qed.

(** An update in place keeps the key of the row. *)
Lemma setattrs_match (o : gmap string value) (financials : pydict (option Decimal))
    (currency : string) :
  financial_only financials -> fm currency (setattrs o financials) = fm currency o.
Proof.
  intros Hfin. apply financials_match_key. intros a Ha.
  apply setattrs_frame. apply Hfin. exact Ha.
Qed.

Lemma served_cons (table pend : list (gmap string value)) (o : gmap string value)
    (currency : string) (financials : pydict (option Decimal)) :
  fm currency o = false ->
  served company_id reporting_year reporting_quarter table pend currency financials ->
  served company_id reporting_year reporting_quarter table (o :: pend) currency
         financials.
Proof.
  intros Ho [[i [r [Hsel [Hl [Hh Hp]]]]]|[Hsel [p1 [r [p2 [-> [Hr [Hh Hp]]]]]]]].
  - left. exists i, r. repeat split; auto. intros o' [<-|Hin]; auto.
  - right. split; [exact Hsel|]. exists (o :: p1), r, p2.
    repeat split; auto. intros o' [<-|Hin]; auto.
Qed.

(** What is served between the table and the pending instances is settled
    once the instances are added. *)
Lemma served_settled (table pend : list (gmap string value)) (currency : string)
    (financials : pydict (option Decimal)) :
  served company_id reporting_year reporting_quarter table pend currency financials ->
  settled company_id reporting_year reporting_quarter (table ++ pend) currency
          financials.
Proof.
  unfold served, settled. fold (fm currency). rewrite !select_eq.
  intros [[i [r [Hsel [Hl [Hh Hp]]]]]|[Hsel [p1 [r [p2 [-> [Hr [Hh Hp]]]]]]]].
  - exists i, r. rewrite select_from_app, Hsel.
    rewrite (select_from_none (fm currency) pend) by exact Hp.
    split; [reflexivity|]. split; [|exact Hh].
    apply lookup_app_l_Some. exact Hl.
  - exists (length table + length p1)%nat, r.
    rewrite select_from_app, Hsel.
    rewrite (select_from_one (fm currency) p1 p2 r _ Hp Hr).
    split; [reflexivity|]. split; [|exact Hh].
    rewrite lookup_app_r by lia.
    replace (length table + length p1 - length table)%nat with (length p1 + 0)%nat
      by lia.
    rewrite lookup_app_r by lia.
    replace (length p1 + 0 - length p1)%nat with 0%nat by lia. reflexivity.
Qed.

End Upsert.

Section UpsertLoop.

Variable env : Env.
Variable company_id : UUID.
Variables reporting_year reporting_quarter : Z.

Let fm (currency : string) : gmap string value -> bool :=
  financials_match company_id currency reporting_year reporting_quarter.

(** The loop over the items of the fan-out. Rows are updated in place and
    keep their keys; what no dictionary names is left as it was; rows of a
    currency that is no item are not touched at all; and every item ends up
    served by one object that holds its figures. *)
Lemma update_loop_served (items : pydict (pydict (option Decimal))) :
  forall (table table' : list (gmap string value)) (created created' : nat)
         (refs refs' : pydict instance),
    List.NoDup (dict_keys items) ->
    (forall cur fin, In (cur, fin) items -> financial_only fin) ->
    (forall cur, In cur (dict_keys items) -> ~ In cur (dict_keys refs)) ->
    update_loop env company_id reporting_year reporting_quarter items table created refs
    = Ok (refs', table', created') ->
    exists pend,
      pendings refs' = pendings refs ++ pend
      /\ length table' = length table
      /\ (forall i o, table !! i = Some o ->
            exists o', table' !! i = Some o'
                       /\ forall a,
                            (forall cur fin, In (cur, fin) items ->
                                             ~ In a (dict_keys fin)) ->
                            o' !! a = o !! a)
      /\ (forall cur', ~ In cur' (dict_keys items) ->
            select (fm cur') table' = select (fm cur') table
            /\ (forall j, In j (select (fm cur') table) -> table' !! j = table !! j)
            /\ forall o, In o pend -> fm cur' o = false)
      /\ (forall cur fin, In (cur, fin) items ->
            served company_id reporting_year reporting_quarter table' pend cur fin).
Proof.
  induction items as [|[cur fin] rest IH];
    intros table table' created created' refs refs' Hnd Hfin Hfresh Hrun.
  - cbn in Hrun. injection Hrun as <- <- <-. exists [].
    rewrite app_nil_r. split; [reflexivity|]. split; [reflexivity|].
    split; [intros i o Hl; exists o; auto|]. split; [|intros cur fin []].
    intros cur' _. split; [reflexivity|]. split; [auto|intros o []].
  - cbn [dict_keys map fst] in Hnd, Hfresh.
    inversion Hnd as [|? ? Hcur Hnd']; subst.
    fold (dict_keys rest) in Hcur, Hnd'.
    assert (Hfin_cur : financial_only fin) by (apply (Hfin cur); left; reflexivity).
    assert (Hfin_rest : forall c f, In (c, f) rest -> financial_only f)
      by (intros c f Hin; apply (Hfin c); right; exact Hin).
    assert (Hcur_refs : ~ In cur (dict_keys refs))
      by (apply Hfresh; left; reflexivity).
    assert (Hfresh_rest : forall x, forall c, In c (dict_keys rest) ->
                          ~ In c (dict_keys (dict_set refs cur x))).
    { intros x c Hc. rewrite dict_set_fresh by exact Hcur_refs.
      unfold dict_keys. rewrite map_app, in_app_iff. cbn [map fst In].
      intros [Hin|[<-|[]]]; [|exact (Hcur Hc)].
      apply (Hfresh c); [right; exact Hc|exact Hin]. }
    cbn [update_loop] in Hrun. fold (fm cur) in Hrun.
    destruct (select (fm cur) table) as [|i [|j more]] eqn:Hsel;
      cbn [scalar_one_or_none bind] in Hrun; [| |discriminate].
    + (* no row yet: a new instance *)
      destruct (new_ReportingFinancials (uuid4 env created) (utcnow_date env) company_id
                  cur reporting_year reporting_quarter fin) as [onew|e] eqn:Hnew;
        [|discriminate].
      destruct (new_ReportingFinancials_spec company_id reporting_year reporting_quarter
                  (uuid4 env created) (utcnow_date env) cur fin onew Hfin_cur Hnew)
        as [Hmatch Hholds].
      cbn [bind] in Hrun.
      destruct (IH _ _ _ _ _ _ Hnd' Hfin_rest (Hfresh_rest _) Hrun)
        as [pend [Hpend [Hlen [Hframe [Hother Hserved]]]]].
      exists (onew :: pend).
      rewrite dict_set_fresh in Hpend by exact Hcur_refs.
      rewrite pendings_app in Hpend. cbn in Hpend. rewrite <- app_assoc in Hpend.
      split; [exact Hpend|]. split; [exact Hlen|]. split; [|split].
      * intros k o Hl. destruct (Hframe k o Hl) as [o' [Hl' Hsame]].
        exists o'. split; [exact Hl'|]. intros a Ha. apply Hsame.
        intros c f Hin. apply (Ha c f). right. exact Hin.
      * intros cur' Hnot.
        assert (Hne : cur <> cur') by (intros ->; apply Hnot; left; reflexivity).
        destruct (Hother cur') as [H1 [H2 H3]];
          [intros Hin; apply Hnot; right; exact Hin|].
        split; [exact H1|]. split; [exact H2|].
        intros o [<-|Hin]; [|auto].
        apply (financials_match_other company_id cur cur' _ _ _
                 (financials_match_currency _ _ _ _ _ Hmatch) Hne).
      * intros c f [[= <- <-]|Hin].
        -- destruct (Hother cur Hcur) as [H1 [_ H3]].
           right. fold (fm cur). rewrite H1, Hsel. split; [reflexivity|].
           exists [], onew, pend. repeat split; auto.
        -- apply served_cons; [|apply Hserved; exact Hin].
           assert (Hc : In c (dict_keys rest))
             by (unfold dict_keys; apply (in_map fst _ _ Hin)).
           apply (financials_match_other company_id cur c _ _ _
                    (financials_match_currency _ _ _ _ _ Hmatch)).
           intros ->. exact (Hcur Hc).
    + (* one row: updated in place *)
      assert (Hin_sel : In i (select (fm cur) table)) by (rewrite Hsel; left; reflexivity).
      rewrite select_eq in Hin_sel.
      destruct (select_from_lookup _ _ _ _ Hin_sel) as [i0 [o [Hi0 [Hl Hm]]]].
      cbn in Hi0. subst i0. rewrite Hl in Hrun.
      set (o1 := setattrs o fin) in *.
      assert (Hsame_sel : forall c, select (fm c) (<[i := o1]> table)
                                    = select (fm c) table).
      { intros c. rewrite !select_eq. apply (select_from_insert _ _ _ _ o o1 Hl).
        apply setattrs_match. exact Hfin_cur. }
      destruct (IH _ _ _ _ _ _ Hnd' Hfin_rest (Hfresh_rest _) Hrun)
        as [pend [Hpend [Hlen [Hframe [Hother Hserved]]]]].
      exists pend.
      rewrite dict_set_fresh in Hpend by exact Hcur_refs.
      rewrite pendings_app in Hpend. cbn in Hpend. rewrite app_nil_r in Hpend.
      rewrite length_insert in Hlen.
      split; [exact Hpend|]. split; [exact Hlen|]. split; [|split].
      * intros k ok Hlk. destruct (decide (k = i)) as [->|Hki].
        -- assert (ok = o) by congruence. subst ok.
           destruct (Hframe i o1) as [o' [Hl' Hsame]].
           { apply list_lookup_insert_eq. eapply lookup_lt_Some. exact Hl. }
           exists o'. split; [exact Hl'|]. intros a Ha.
           rewrite Hsame by (intros c f Hin; apply (Ha c f); right; exact Hin).
           apply setattrs_frame. apply (Ha cur fin). left. reflexivity.
        -- destruct (Hframe k ok) as [o' [Hl' Hsame]].
           { rewrite list_lookup_insert_ne by congruence. exact Hlk. }
           exists o'. split; [exact Hl'|]. intros a Ha. apply Hsame.
           intros c f Hin. apply (Ha c f). right. exact Hin.
      * intros cur' Hnot.
        assert (Hne : cur <> cur') by (intros ->; apply Hnot; left; reflexivity).
        destruct (Hother cur') as [H1 [H2 H3]];
          [intros Hin; apply Hnot; right; exact Hin|].
        rewrite Hsame_sel in H1, H2.
        split; [exact H1|]. split; [|exact H3].
        intros j' Hj. rewrite (H2 j' Hj). apply list_lookup_insert_ne.
        intros <-. rewrite select_eq in Hj.
        destruct (select_from_lookup _ _ _ _ Hj) as [i0 [o0 [Hi0 [Hl0 Hm0]]]].
        cbn in Hi0. subst i0. assert (o0 = o) by congruence. subst o0.
        unfold fm in Hm, Hm0.
        pose proof (financials_match_other company_id cur cur' reporting_year
                      reporting_quarter o
                      (financials_match_currency company_id cur reporting_year
                         reporting_quarter o Hm) Hne) as Hf.
        congruence.
      * intros c f [[= <- <-]|Hin]; [|apply Hserved; exact Hin].
        destruct (Hother cur Hcur) as [H1 [H2 H3]].
        rewrite Hsame_sel in H1, H2.
        left. exists i, o1. fold (fm cur). rewrite H1, Hsel.
        split; [reflexivity|]. split.
        { rewrite (H2 i) by (rewrite Hsel; left; reflexivity).
          apply list_lookup_insert_eq. eapply lookup_lt_Some. exact Hl. }
        split; [apply setattrs_holds|exact H3].
Qed.

(** A second pass over items that are settled finds each row, sets what
    it holds already and constructs nothing. *)
Lemma update_loop_settled (items : pydict (pydict (option Decimal))) :
  forall (table : list (gmap string value)) (created : nat) (refs : pydict instance),
    (forall cur fin, In (cur, fin) items ->
                     settled company_id reporting_year reporting_quarter table cur fin) ->
    pendings refs = [] ->
    exists refs',
      update_loop env company_id reporting_year reporting_quarter items table created refs
      = Ok (refs', table, created)
      /\ pendings refs' = [].
Proof.
  induction items as [|[cur fin] rest IH]; intros table created refs Hset Hrefs.
  - cbn. eauto.
  - destruct (Hset cur fin ltac:(left; reflexivity)) as [i [o [Hsel [Hl Hh]]]].
    cbn [update_loop]. rewrite Hsel. cbn [scalar_one_or_none bind]. rewrite Hl.
    rewrite (setattrs_fixed o fin Hh), list_insert_id by exact Hl.
    apply IH; [intros c f Hin; apply Hset; right; exact Hin|].
    clear -Hrefs. induction refs as [|[c [j|p]] refs IHr]; [reflexivity| |].
    + cbn [dict_set]. destruct (String.eqb c cur); [exact Hrefs|].
      unfold pendings in *. cbn [flat_map snd app] in *. apply IHr. exact Hrefs.
    + unfold pendings in Hrefs. cbn in Hrefs. discriminate.
Qed.

End UpsertLoop.

(** ** data_transformation.py: records of financial fields *)





Section UpsertInPlace.

Variable env : Env.
Variable company_id : UUID.
Variables reporting_year reporting_quarter : Z.

(** An update in place changes the answer of no key filter. *)
Lemma select_after_setattrs (table : list (gmap string value)) (i : nat)
    (o : gmap string value) (financials : pydict (option Decimal))
    (c : UUID) (cur : string) (y q : Z) :
  table !! i = Some o -> financial_only financials ->
  select (financials_match c cur y q) (<[i := setattrs o financials]> table)
  = select (financials_match c cur y q) table.
Proof.
  intros Hl Hfin. rewrite !select_eq.
  apply (select_from_insert _ _ _ _ o _ Hl).
  apply financials_match_key. intros a Ha. apply setattrs_frame. apply Hfin. exact Ha.
Qed.

(** The selected row exists and has the key. *)
Lemma select_one (table : list (gmap string value)) (c : UUID) (cur : string)
    (y q : Z) (i : nat) (more : list nat) :
  select (financials_match c cur y q) table = i :: more ->
  exists o, table !! i = Some o /\ financials_match c cur y q o = true.
Proof.
  intros Hsel.
  assert (Hin : In i (select (financials_match c cur y q) table))
    by (rewrite Hsel; left; reflexivity).
  rewrite select_eq in Hin.
  destruct (select_from_lookup _ _ _ _ Hin) as [i0 [o [Hi0 [Hl Hm]]]].
  cbn in Hi0. subst i0. exists o. auto.
Qed.


(** With one row for every currency the loop ends well. *)
Lemma update_loop_succeeds (items : pydict (pydict (option Decimal))) :
  forall (table : list (gmap string value)) (created : nat) (refs : pydict instance),
    (forall cur fin, In (cur, fin) items -> financial_only fin) ->
    (forall cur, In cur (dict_keys items) ->
                 exists i, select (financials_match company_id cur reporting_year
                                                    reporting_quarter) table = [i]) ->
    exists refs' table',
      update_loop env company_id reporting_year reporting_quarter items table created refs
      = Ok (refs', table', created).
Proof.
  induction items as [|[cur fin] rest IH]; intros table created refs Hfin Hrows.
  - cbn. eauto.
  - destruct (Hrows cur ltac:(left; reflexivity)) as [i Hsel].
    destruct (select_one _ _ _ _ _ _ _ Hsel) as [o [Hl _]].
    cbn [update_loop]. rewrite Hsel. cbn [scalar_one_or_none bind]. rewrite Hl.
    apply IH; [intros c f Hin; apply (Hfin c); right; exact Hin|].
    intros cur' Hin. destruct (Hrows cur' ltac:(right; exact Hin)) as [i' Hi'].
    exists i'. rewrite select_after_setattrs; [exact Hi'|exact Hl|].
    apply (Hfin cur). left. reflexivity.
Qed.

(** Whatever the dictionary, the loop keeps the length of the table and,
    in every row, the attributes no record names. *)
Lemma update_loop_frame (items : pydict (pydict (option Decimal))) :
  forall (table table' : list (gmap string value)) (created created' : nat)
         (refs refs' : pydict instance),
    update_loop env company_id reporting_year reporting_quarter items table created refs
    = Ok (refs', table', created') ->
    length table' = length table
    /\ forall i o, table !! i = Some o ->
         exists o', table' !! i = Some o'
                    /\ forall a, (forall cur fin, In (cur, fin) items ->
                                                  ~ In a (dict_keys fin)) ->
                                 o' !! a = o !! a.
Proof.
  induction items as [|[cur fin] rest IH];
    intros table table' created created' refs refs' Hrun.
  - cbn in Hrun. injection Hrun as <- <- <-. split; [reflexivity|].
    intros i o Hl. exists o. auto.
  - cbn [update_loop] in Hrun.
    destruct (select (financials_match company_id cur reporting_year reporting_quarter)
                     table) as [|i0 [|j more]] eqn:Hsel;
      cbn [scalar_one_or_none bind] in Hrun; [| |discriminate].
    + destruct (new_ReportingFinancials _ _ _ _ _ _ _) as [onew|e]; [|discriminate].
      cbn [bind] in Hrun. destruct (IH _ _ _ _ _ _ Hrun) as [Hlen Hframe].
      split; [exact Hlen|]. intros i o Hl.
      destruct (Hframe i o Hl) as [o' [Hl' Hsame]]. exists o'. split; [exact Hl'|].
      intros a Ha. apply Hsame. intros c f Hin. apply (Ha c f). right. exact Hin.
    + destruct (table !! i0) as [o0|] eqn:Hl0.
      * destruct (IH _ _ _ _ _ _ Hrun) as [Hlen Hframe].
        rewrite length_insert in Hlen. split; [exact Hlen|]. intros i o Hl.
        destruct (decide (i = i0)) as [->|Hne].
        -- assert (o0 = o) by congruence. subst o0.
           destruct (Hframe i0 (setattrs o fin)) as [o' [Hl' Hsame]].
           { apply list_lookup_insert_eq. eapply lookup_lt_Some. exact Hl. }
           exists o'. split; [exact Hl'|]. intros a Ha.
           rewrite Hsame by (intros c f Hin; apply (Ha c f); right; exact Hin).
           apply setattrs_frame. apply (Ha cur fin). left. reflexivity.
        -- destruct (Hframe i o) as [o' [Hl' Hsame]].
           { rewrite list_lookup_insert_ne by congruence. exact Hl. }
           exists o'. split; [exact Hl'|]. intros a Ha. apply Hsame.
           intros c f Hin. apply (Ha c f). right. exact Hin.
      * destruct (IH _ _ _ _ _ _ Hrun) as [Hlen Hframe].
        split; [exact Hlen|]. intros i o Hl.
        destruct (Hframe i o Hl) as [o' [Hl' Hsame]]. exists o'. split; [exact Hl'|].
        intros a Ha. apply Hsame. intros c f Hin. apply (Ha c f). right. exact Hin.
Qed.

(** A row with the key of no currency of the dictionary passes the loop
    as it is. *)
Lemma update_loop_other_rows (items : pydict (pydict (option Decimal))) :
  forall (table table' : list (gmap string value)) (created created' : nat)
         (refs refs' : pydict instance) (i : nat) (o : gmap string value),
    update_loop env company_id reporting_year reporting_quarter items table created refs
    = Ok (refs', table', created') ->
    table !! i = Some o ->
    (forall cur, In cur (dict_keys items) ->
                 financials_match company_id cur reporting_year reporting_quarter o
                 = false) ->
    table' !! i = Some o.
Proof.
  induction items as [|[cur fin] rest IH];
    intros table table' created created' refs refs' i o Hrun Hl Hkey.
  - cbn in Hrun. injection Hrun as <- <- <-. exact Hl.
  - assert (Hrest : forall c, In c (dict_keys rest) ->
                      financials_match company_id c reporting_year reporting_quarter o
                      = false)
      by (intros c Hin; apply Hkey; right; exact Hin).
    cbn [update_loop] in Hrun.
    destruct (select (financials_match company_id cur reporting_year reporting_quarter)
                     table) as [|i0 [|j more]] eqn:Hsel;
      cbn [scalar_one_or_none bind] in Hrun; [| |discriminate].
    + destruct (new_ReportingFinancials _ _ _ _ _ _ _) as [onew|e]; [|discriminate].
      cbn [bind] in Hrun. exact (IH _ _ _ _ _ _ _ _ Hrun Hl Hrest).
    + destruct (select_one _ _ _ _ _ _ _ Hsel) as [o0 [Hl0 Hm0]].
      rewrite Hl0 in Hrun. apply (IH _ _ _ _ _ _ _ _ Hrun); [|exact Hrest].
      rewrite list_lookup_insert_ne; [exact Hl|].
      intros ->. assert (o0 = o) by congruence. subst o0.
      rewrite (Hkey cur ltac:(left; reflexivity)) in Hm0. discriminate.
Qed.

End UpsertInPlace.

(** ** data_transformation.py: the upsert *)

Lemma sample_financials_NoDup : List.NoDup (dict_keys sample_financials).
Proof. repeat constructor; cbn; intuition discriminate. Qed.

Lemma sample_financials_financial_only (currency : string)
    (financials : pydict (option Decimal)) :
  In (currency, financials) sample_financials -> financial_only financials.
Proof.
  intros Hin a Ha Hk. cbn in Hin.
  destruct Hin as [[= <- <-]|[[= <- <-]|[]]]; cbn in Ha, Hk;
    intuition (subst; discriminate).
Qed.

Lemma sample_financials_records : financial_records sample_financials.
Proof.
  intros currency financials Hin k Hk. cbn in Hin.
  destruct Hin as [[= <- <-]|[[= <- <-]|[]]]; cbn in Hk |- *; tauto.
Qed.

(** Company 7 has its two rows in the sample table, so the upsert of the
    sample financials returns. *)
Lemma sample_upsert_returns :
  exists reporting_financials table',
    update_reporting_financials sample_env sample_table 7 2023 1 sample_financials
    = Ok (reporting_financials, table', 0%nat).
Proof.
  apply (update_loop_succeeds sample_env 7 2023 1 sample_financials sample_table 0%nat []).
  - exact sample_financials_financial_only.
  - intros cur Hin. cbn in Hin.
    destruct Hin as [<-|[<-|[]]];
      [exists 0%nat|exists 2%nat]; vm_compute; reflexivity.
Qed.

(** [update_reporting_financials] leaves the rows of other keys alone:
    when a call returns, a row whose key (company, currency, year,
    quarter) is the key of no currency of the dictionary is in the table
    at its place exactly as it was. *)
Theorem rows_of_other_keys_are_untouched (env : Env)
    (table table' : list (gmap string value)) (company_id : UUID)
    (reporting_year reporting_quarter : Z)
    (converted_financials : pydict (pydict (option Decimal)))
    (reporting_financials : pydict instance) (created : nat)
    (i : nat) (o : gmap string value) :
  update_reporting_financials env table company_id reporting_year reporting_quarter
                              converted_financials
  = Ok (reporting_financials, table', created) ->
  table !! i = Some o ->
  (forall currency, In currency (dict_keys converted_financials) ->
                    financials_match company_id currency reporting_year
                                     reporting_quarter o = false) ->
  table' !! i = Some o.
Proof.
  unfold update_reporting_financials. intros Hrun Hl Hkey.
  exact (update_loop_other_rows env company_id reporting_year reporting_quarter
           converted_financials _ _ _ _ _ _ i o Hrun Hl Hkey).
Qed.

Lemma rows_of_other_keys_are_untouched_witness :
  exists reporting_financials table' created,
    update_reporting_financials sample_env sample_table 7 2023 1 sample_financials
    = Ok (reporting_financials, table', created)
    /\ table' !! 1%nat = Some (sample_row 2 8 "USD" 6).
Proof.
  destruct sample_upsert_returns as [refs [table' Hrun]].
  exists refs, table', 0%nat. split; [exact Hrun|].
  apply (rows_of_other_keys_are_untouched sample_env sample_table table' 7 2023 1
           sample_financials refs 0%nat 1 (sample_row 2 8 "USD" 6) Hrun).
  - reflexivity.
  - intros currency Hin. cbn in Hin.
    destruct Hin as [<-|[<-|[]]]; vm_compute; reflexivity.
Defined.



(** [update_reporting_financials] is an upsert. For a dictionary with
    one entry for a currency whose records name no key, [id] or audit
    attribute (every fan-out is one): once the instances a call returns are
    added to the session, each currency of the dictionary has exactly one
    row with the key, and the row holds the values of its record; and a
    second call with the same dictionary, at any later time, returns the
    table as it found it and constructs nothing. *)
Theorem second_upsert_changes_nothing (env env' : Env)
    (table table1 : list (gmap string value)) (company_id : UUID)
    (reporting_year reporting_quarter : Z)
    (converted_financials : pydict (pydict (option Decimal)))
    (reporting_financials : pydict instance) (created : nat) :
  List.NoDup (dict_keys converted_financials) ->
  (forall currency financials,
     In (currency, financials) converted_financials -> financial_only financials) ->
  update_reporting_financials env table company_id reporting_year reporting_quarter
                              converted_financials
  = Ok (reporting_financials, table1, created) ->
  let stored := add_all table1 reporting_financials in
  (forall currency financials,
     In (currency, financials) converted_financials ->
     settled company_id reporting_year reporting_quarter stored currency financials)
  /\ exists reporting_financials',
       update_reporting_financials env' stored company_id reporting_year
                                   reporting_quarter converted_financials
       = Ok (reporting_financials', stored, 0%nat)
       /\ pendings reporting_financials' = [].
Proof.
  intros Hnd Hfin Hrun stored. unfold update_reporting_financials in *.
  destruct (update_loop_served env company_id reporting_year reporting_quarter
              converted_financials table table1 0%nat created [] reporting_financials
              Hnd Hfin (fun _ _ H => H) Hrun)
    as [pend [Hpend [_ [_ [_ Hserved]]]]].
  cbn [pendings flat_map app] in Hpend.
  assert (Hstored : stored = table1 ++ pend)
    by (unfold stored; rewrite add_all_eq, Hpend; reflexivity).
  assert (Hset : forall currency financials,
             In (currency, financials) converted_financials ->
             settled company_id reporting_year reporting_quarter stored currency
                     financials).
  { intros currency financials Hin. rewrite Hstored.
    apply served_settled. apply Hserved. exact Hin. }
  split; [exact Hset|].
  apply (update_loop_settled env' company_id reporting_year reporting_quarter
           converted_financials stored 0%nat [] Hset). reflexivity.
Qed.

Lemma second_upsert_changes_nothing_witness :
  exists reporting_financials table1 created,
    update_reporting_financials sample_env sample_table 7 2023 1 sample_financials
    = Ok (reporting_financials, table1, created)
    /\ exists reporting_financials',
         update_reporting_financials (mkEnv 738990 (fun n => 500 + Z.of_nat n))
           (add_all table1 reporting_financials) 7 2023 1 sample_financials
         = Ok (reporting_financials', add_all table1 reporting_financials, 0%nat).
Proof.
  destruct sample_upsert_returns as [refs [table1 Hrun]].
  exists refs, table1, 0%nat. split; [exact Hrun|].
  destruct (second_upsert_changes_nothing sample_env
              (mkEnv 738990 (fun n => 500 + Z.of_nat n)) sample_table table1 7 2023 1
              sample_financials refs 0%nat sample_financials_NoDup sample_financials_financial_only Hrun)
    as [_ [refs' [Hsecond _]]].
  exists refs'. exact Hsecond.
Defined.

(** C10. An update in place assigns financial fields only. When
    [update_reporting_financials] returns on a dictionary of records of
    financial fields, the table has the rows it had, and in every row
    every attribute other than the ten monetary fields and
    [exchange_rate_used] is what it was: the key ([company_id],
    [currency], [reporting_year], [reporting_quarter]), the [id], the
    fiscal date and quarter, and the creation and update stamps are not
    assigned. *)
Theorem update_in_place_assigns_financial_fields_only (env : Env)
    (table table' : list (gmap string value)) (company_id : UUID)
    (reporting_year reporting_quarter : Z)
    (converted_financials : pydict (pydict (option Decimal)))
    (reporting_financials : pydict instance) (created : nat) :
  financial_records converted_financials ->
  update_reporting_financials env table company_id reporting_year reporting_quarter
                              converted_financials
  = Ok (reporting_financials, table', created) ->
  length table' = length table
  /\ forall i o,
       table !! i = Some o ->
       exists o', table' !! i = Some o'
                  /\ forall a, ~ In a financial_fields -> o' !! a = o !! a.
Proof.
  unfold update_reporting_financials. intros Hrec Hrun.
  destruct (update_loop_frame env company_id reporting_year reporting_quarter
              converted_financials _ _ _ _ _ _ Hrun) as [Hlen Hframe].
  split; [exact Hlen|]. intros i o Hl.
  destruct (Hframe i o Hl) as [o' [Hl' Hsame]].
  exists o'. split; [exact Hl'|]. intros a Ha. apply Hsame.
  intros cur fin Hin Hk. apply Ha. exact (Hrec cur fin Hin a Hk).
Qed.

Lemma update_in_place_assigns_financial_fields_only_witness :
  exists reporting_financials table' created o',
    update_reporting_financials sample_env sample_table 7 2023 1 sample_financials
    = Ok (reporting_financials, table', created)
    /\ table' !! 0%nat = Some o'
    /\ o' !! "company_id" = Some (VUuid 7)
    /\ o' !! "created_by" = Some (VStr "loader")
    /\ o' !! "last_update_date" = Some VNone.
Proof.
  destruct sample_upsert_returns as [refs [table' Hup]].
  destruct (update_in_place_assigns_financial_fields_only sample_env sample_table table'
              7 2023 1 sample_financials refs 0%nat sample_financials_records Hup)
    as [_ Hframe].
  destruct (Hframe 0%nat (sample_row 1 7 "USD" 5) eq_refl) as [o' [Hl' Hsame]].
  exists refs, table', 0%nat, o'.
  split; [exact Hup|]. split; [exact Hl'|].
  repeat split; (rewrite Hsame by (cbn; intuition discriminate)); vm_compute;
    reflexivity.
Defined.

(** ** data_transformation.py: [transform_data] *)

(** [transform_data] stops at its first conversion. Without an input row
    for the period it raises the [ValueError] of the function before any
    lookup. With one, its fan-out to US and Canadian dollars meets a
    currency other than that of the input at once or after the copy of the
    US dollar figures: the conversion of [total_revenue] into it looks the
    rate up, and the call ends in the [TypeError] of the awaited
    [Decimal], or in what the lookup or the arithmetic raised. The upsert,
    the metrics and the commit are never reached: the tables are as they
    were, and one lookup was made. *)
Theorem transform_data_stops_at_the_first_conversion (api : nat -> Key -> HttpOutcome)
    (db : DB.t) (g : Globals) (env : Env) (company_id : UUID)
    (reporting_year reporting_quarter : Z) :
  let r := transform_data api db g env company_id reporting_year reporting_quarter in
  match List.filter (input_matches company_id reporting_year reporting_quarter)
                    (DB.metrics_input db) with
  | [] =>
      r = (Raise (ValueError
                    "No input metrics found for the specified company and reporting period"),
           db, g)
  | [input_metrics] =>
      let target_currency :=
        if String.eqb (MetricsInput.currency input_metrics) "USD" then "CAD"
        else "USD" in
      let k := (MetricsInput.currency input_metrics, target_currency,
                MetricsInput.fiscal_reporting_date input_metrics) in
      (exists e, fst (fst r) = Raise e)
      /\ snd (fst r) = db
      /\ looked_up (snd r) = looked_up g ++ [k]
      /\ (forall rate g1 converted_value,
            get_exchange_rate api g k = (Ok rate, g1) ->
            (let* converted_amount :=
               Any.mul (MetricsInput.total_revenue input_metrics) rate in
             Any.round converted_amount 2) = Ok converted_value ->
            r = (Raise TypeError, db, g1))
      /\ (forall e g1,
            get_exchange_rate api g k = (Raise e, g1) -> r = (Raise e, db, g1))
  | _ :: _ :: _ => r = (Raise MultipleResultsFound, db, g)
  end.
Proof.
  cbv zeta. unfold transform_data.
  destruct (List.filter (input_matches company_id reporting_year reporting_quarter)
                        (DB.metrics_input db)) as [|m [|m' more]];
    cbn [scalar_one_or_none]; [reflexivity| |reflexivity].
  set (t := if String.eqb (MetricsInput.currency m) "USD" then "CAD" else "USD").
  set (k := (MetricsInput.currency m, t, MetricsInput.fiscal_reporting_date m)).
  assert (Hne : MetricsInput.currency m <> t).
  { unfold t. destruct (String.eqb_spec (MetricsInput.currency m) "USD") as [->|H];
      [discriminate|exact H]. }
  assert (Hfan : convert_financials api g m ["USD"; "CAD"]
                 = await_value (convert_currency api g (MetricsInput.total_revenue m)
                                  (MetricsInput.currency m) t
                                  (MetricsInput.fiscal_reporting_date m))).
  { unfold convert_financials, t.
    destruct (String.eqb_spec (MetricsInput.currency m) "USD") as [Heq|Hother].
    - apply (convert_targets_foreign api m ["USD"] "CAD" []).
      + intros c [<-|[]]. symmetry. exact Heq.
      + rewrite Heq. discriminate.
    - apply (convert_targets_foreign api m [] "USD" ["CAD"]).
      + intros c [].
      + congruence. }
  rewrite Hfan. unfold convert_currency.
  apply String.eqb_neq in Hne. rewrite Hne. fold k.
  destruct (get_exchange_rate_looked_up api g k) as [Hlog _].
  destruct (get_exchange_rate api g k) as [[rate|e] g1] eqn:Hget; cbn [snd] in Hlog.
  - destruct (let* converted_amount := Any.mul (MetricsInput.total_revenue m) rate in
              Any.round converted_amount 2) as [v|e] eqn:Hconv;
      cbn [await_value fst snd].
    + split; [eauto|]. split; [reflexivity|]. split; [exact Hlog|].
      split; [|discriminate]. intros rate' g1' v' [= <- <-] _. reflexivity.
    + split; [eauto|]. split; [reflexivity|]. split; [exact Hlog|].
      split; [|discriminate]. intros rate' g1' v' [= <- <-] Hv.
      rewrite Hconv in Hv. discriminate.
  - cbn [await_value fst snd]. split; [eauto|]. split; [reflexivity|].
    split; [exact Hlog|]. split; [discriminate|].
    intros e' g1' [= <- <-]. reflexivity.
Qed.

Lemma transform_data_stops_at_the_first_conversion_witness :
  let r := transform_data api_quotes sample_db initial_globals sample_env 7 2023 1 in
  fst (fst r) = Raise TypeError
  /\ snd (fst r) = sample_db
  /\ looked_up (snd r) = [("USD", "CAD", 738610)].
Proof.
  intros r.
  pose proof (transform_data_stops_at_the_first_conversion api_quotes sample_db
                initial_globals sample_env 7 2023 1) as H.
  cbv zeta in H.
  change (List.filter (input_matches 7 2023 1) (DB.metrics_input sample_db))
    with [usd_input] in H.
  destruct H as [_ [Hdb [Hlog [Hok _]]]].
  fold r in Hdb, Hlog, Hok. split; [|split; [exact Hdb|exact Hlog]].
  rewrite (Hok (Finite (Dec.mk 125 (-2)))
               (snd (get_exchange_rate api_quotes initial_globals
                       ("USD", "CAD", 738610)))
               (Finite (Dec.mk 125000000 (-2))));
    [reflexivity|vm_compute; reflexivity|vm_compute; reflexivity].
Defined.

(** C1. A quarter reported in euros, with the source quoting its rates:
    the fan-out the transformation calls, to US and Canadian dollars,
    returns no dictionary, so no entry for the euro either. It raises
    [TypeError] after the one lookup of the euro against the US dollar,
    and so does [transform_data], with the tables as they were. *)
Theorem euro_quarter_gets_no_native_entry :
  fst (convert_financials api_quotes initial_globals eur_input ["USD"; "CAD"])
  = Raise TypeError
  /\ looked_up (snd (convert_financials api_quotes initial_globals eur_input
                       ["USD"; "CAD"]))
     = [("EUR", "USD", 738610)]
  /\ fst (transform_data api_quotes sample_db initial_globals sample_env 8 2023 1)
     = (Raise TypeError, sample_db).
Proof. vm_compute. repeat split; reflexivity. Qed.

(** ** data_transformation.py: running the transformation twice *)



